(** * Solace: the goal streak engine and its daily-progress ledger

    A shallow embedding of the goal-tracking logic of the Solace
    application: the zustand store of [src/store.ts] and the [GoalTracker]
    component of [src/FocusTimer.tsx].  Both keep a list of goals and a
    list of per-day progress entries, and both implement the same
    [toggleGoalCompletion], [deleteGoal] and statistics.

    Conventions of the embedding.
    - JavaScript arrays are lists; [Array.prototype.find] is [List.find],
      [map] and [filter] are the list functions of the same name.
    - [goal.streak], [goal.bestStreak], [goal.currentCount] are integer valued
      JavaScript numbers; they are embedded as [Z] (double arithmetic is
      exact on integers below 2^53).  The percentage of [todayStats], which
      divides, is embedded with IEEE binary64 numbers ([spec_float]).
    - A [Date] is its time value, the number of milliseconds since the epoch.
    - The wall clock is an input: every operation that evaluates
      [new Date()] takes a [Clock].
    - A handler of the component is a closure of one render and reads the
      [todayProgress] that render computed: the toggle of the component
      takes the day of its render beside the clock of the call.

    The development also covers the rest of the two files: the first store
    of [src/store.ts] (tasks, daily goals and a countdown), the projects,
    tasks and focus timer of the second store, and the statistics and the
    checklist view of the component. *)

From Stdlib Require Import ZArith List Bool Lia Ascii String.
From Stdlib Require Import Sorting.Sorted.
From Stdlib Require Import Floats.SpecFloat.
From stdpp Require Import base decidable option list strings pretty.

Local Open Scope Z_scope.

(** ** Data model *)

Inductive GoalCategory :=
  health | learning | productivity | personal | creative | other.

Inductive GoalFrequency := daily | weekly | monthly.

(** [GoalStatus] is ['active' | 'paused' | 'completed' | 'archived'] in the
    component and ['backlog' | 'active' | 'in-progress' | 'completed' |
    'archived'] in the store; the embedding takes the union. *)
Module Status.
Inductive t := active | paused | completed | archived | backlog | in_progress.

#[global] Instance eq_dec : EqDecision t.
Proof. solve_decision. Defined.
End Status.

Definition Date := Z.

Module Goal.
Record t := mk {
  id : string;
  title : string;
  description : string;
  category : GoalCategory;
  frequency : GoalFrequency;
  status : Status.t;
  targetCount : Z;
  currentCount : Z;
  streak : Z;
  bestStreak : Z;
  color : string;
  icon : string;
  createdAt : Date;
  lastCompleted : option Date;
  history : list (string * bool)
}.
End Goal.

(** One [{ goalId, completed }] record of a day. *)
Record GoalProgress := { goalId : string; completed : bool }.

(** One [{ taskId, completed }] record of a day (store only). *)
Record TaskProgress := { taskId : string; taskCompleted : bool }.

(** [DailyProgress]: the component's entries have no [tasks] field, which
    is embedded as the empty list. *)
Module DailyProgress.
Record t := mk {
  date : string;
  goals : list GoalProgress;
  tasks : list TaskProgress
}.
End DailyProgress.

(** The slice of the state the goal actions read and write.  zustand's
    [set] merges the object an action returns into the state, so the other
    fields of the store are untouched by them. *)
Record State := { goals : list Goal.t; dailyProgress : list DailyProgress.t }.

(** ** Date utilities *)

(** A decimal digit, and a non-negative number on [w] digits, zero padded
    (the low [w] digits when it has more). *)
Definition digit (n : Z) : string :=
  String (Ascii.ascii_of_N (Z.to_N (48 + n mod 10))) EmptyString.

Fixpoint padded (w : nat) (n : Z) : string :=
  match w with
  | O => EmptyString
  | S w' => padded w' (n / 10) +:+ digit n
  end.

Definition msPerDay : Z := 86400000.

(** Year, month and day (UTC, proleptic Gregorian) of a day number, the
    [YearFromTime], [MonthFromTime] and [DateFromTime] of ECMAScript for the
    time values of the day. *)
Definition civilFromDays (days : Z) : Z * Z * Z :=
  let z := days + 719468 in
  let era := z / 146097 in
  let doe := z - era * 146097 in
  let yoe := (doe - doe / 1460 + doe / 36524 - doe / 146096) / 365 in
  let doy := doe - (365 * yoe + yoe / 4 - yoe / 100) in
  let mp := (5 * doy + 2) / 153 in
  let d := doy - (153 * mp + 2) / 5 + 1 in
  let m := if mp <? 10 then mp + 3 else mp - 9 in
  let y := yoe + era * 400 + (if m <=? 2 then 1 else 0) in
  (y, m, d).

(** [date.toISOString().split('T')[0]]: [YYYY-MM-DD], with the expanded
    year [+YYYYYY] or [-YYYYYY] outside of the years 0 to 9999. *)
Definition isoDate (t : Date) : string :=
  let '(y, m, d) := civilFromDays (t / msPerDay) in
  let year :=
    if (0 <=? y) && (y <=? 9999) then padded 4 y
    else (if y <? 0 then "-" else "+") +:+ padded 6 (Z.abs y) in
  year +:+ "-" +:+ padded 2 m +:+ "-" +:+ padded 2 d.

(** What the [Date] expressions of an action evaluate to.  [now] is the time
    value of [new Date()] (the action is taken at one instant) and
    [dayBefore] the time value of the date obtained from it with
    [setDate(getDate() - 1)], which steps one calendar day back in the local
    time zone of the host. *)
Record Clock := { now : Date; dayBefore : Date }.

(** [new Date().toISOString().split('T')[0]] *)
Definition today (c : Clock) : string := isoDate (now c).

(** [yesterday.toISOString().split('T')[0]] *)
Definition yesterdayStr (c : Clock) : string := isoDate (dayBefore c).

(** A clock of a host whose local days all have 24 hours. *)
Definition clockAt (t : Date) : Clock :=
  {| now := t; dayBefore := t - msPerDay |}.

(** ** Ledger lookups *)

(** [dailyProgress.find(p => p.date === day)] *)
Definition findDay (day : string) (ledger : list DailyProgress.t)
  : option DailyProgress.t :=
  List.find (fun p => bool_decide (DailyProgress.date p = day)) ledger.

(** [goals.find(g => g.goalId === goalId)] *)
Definition findRecord (gid : string) (l : list GoalProgress)
  : option GoalProgress :=
  List.find (fun g => bool_decide (goalId g = gid)) l.

(** [progress?.goals.find(g => g.goalId === goalId)?.completed], with
    [undefined] as [None]. *)
Definition completedFlag (day gid : string) (ledger : list DailyProgress.t)
  : option bool :=
  p ← findDay day ledger;
  g ← findRecord gid (DailyProgress.goals p);
  Some (completed g).

(** Truthiness of the flag: [undefined] and [false] are falsy. *)
Definition isCompletedOn (day gid : string) (ledger : list DailyProgress.t)
  : bool :=
  default false (completedFlag day gid ledger).

(** ** toggleGoalCompletion *)

(** The object built in the undo branch. *)
Definition undoGoal (g : Goal.t) : Goal.t :=
  let newStreak := if 0 <? Goal.streak g then Goal.streak g - 1 else 0 in
  {| Goal.id := Goal.id g;
     Goal.title := Goal.title g;
     Goal.description := Goal.description g;
     Goal.category := Goal.category g;
     Goal.frequency := Goal.frequency g;
     Goal.status := Goal.status g;
     Goal.targetCount := Goal.targetCount g;
     Goal.currentCount := Z.max 0 (Goal.currentCount g - 1);
     Goal.streak := newStreak;
     Goal.bestStreak := Goal.bestStreak g;
     Goal.color := Goal.color g;
     Goal.icon := Goal.icon g;
     Goal.createdAt := Goal.createdAt g;
     Goal.lastCompleted :=
       if Goal.currentCount g =? 1 then None else Goal.lastCompleted g;
     Goal.history := Goal.history g |}.

(** The object built in the mark-as-completed branch. *)
Definition completeGoal (c : Clock) (ledger : list DailyProgress.t)
    (gid : string) (g : Goal.t) : Goal.t :=
  let completedYesterday := isCompletedOn (yesterdayStr c) gid ledger in
  let newStreak := if completedYesterday then Goal.streak g + 1 else 1 in
  let newBestStreak := Z.max (Goal.bestStreak g) newStreak in
  {| Goal.id := Goal.id g;
     Goal.title := Goal.title g;
     Goal.description := Goal.description g;
     Goal.category := Goal.category g;
     Goal.frequency := Goal.frequency g;
     Goal.status := Goal.status g;
     Goal.targetCount := Goal.targetCount g;
     Goal.currentCount := Goal.currentCount g + 1;
     Goal.streak := newStreak;
     Goal.bestStreak := newBestStreak;
     Goal.color := Goal.color g;
     Goal.icon := Goal.icon g;
     Goal.createdAt := Goal.createdAt g;
     Goal.lastCompleted := Some (now c);
     Goal.history := Goal.history g |}.

(** [day.goals.map(g => g.goalId === goalId ? { ...g, completed: b } : g)] *)
Definition setFlag (gid : string) (b : bool) (l : list GoalProgress)
  : list GoalProgress :=
  map (fun g => if decide (goalId g = gid)
                then {| goalId := goalId g; completed := b |} else g) l.

(** [{ ...day, goals: gs }] *)
Definition withGoals (day : DailyProgress.t) (gs : list GoalProgress)
  : DailyProgress.t :=
  {| DailyProgress.date := DailyProgress.date day;
     DailyProgress.goals := gs;
     DailyProgress.tasks := DailyProgress.tasks day |}.

(** Ledger update of the undo branch. *)
Definition undoProgress (c : Clock) (gid : string)
    (ledger : list DailyProgress.t) : list DailyProgress.t :=
  map (fun day =>
         if decide (DailyProgress.date day = today c)
         then withGoals day (setFlag gid false (DailyProgress.goals day))
         else day) ledger.

(** The [map] over the ledger of the mark-as-completed branch. *)
Definition completeDay (gid : string) (day : DailyProgress.t)
  : DailyProgress.t :=
  match findRecord gid (DailyProgress.goals day) with
  | Some _ => withGoals day (setFlag gid true (DailyProgress.goals day))
  | None =>
      withGoals day
        (DailyProgress.goals day ++ [{| goalId := gid; completed := true |}])
  end.

Definition completeProgressMap (c : Clock) (gid : string)
    (ledger : list DailyProgress.t) : list DailyProgress.t :=
  map (fun day =>
         if decide (DailyProgress.date day = today c)
         then completeDay gid day else day) ledger.

(** The entry pushed when today has none. *)
Definition newDay (c : Clock) (gid : string) : DailyProgress.t :=
  {| DailyProgress.date := today c;
     DailyProgress.goals := [{| goalId := gid; completed := true |}];
     DailyProgress.tasks := [] |}.

(** [{ ...goal, status }] *)
Definition withStatus (g : Goal.t) (st : Status.t) : Goal.t :=
  {| Goal.id := Goal.id g;
     Goal.title := Goal.title g;
     Goal.description := Goal.description g;
     Goal.category := Goal.category g;
     Goal.frequency := Goal.frequency g;
     Goal.status := st;
     Goal.targetCount := Goal.targetCount g;
     Goal.currentCount := Goal.currentCount g;
     Goal.streak := Goal.streak g;
     Goal.bestStreak := Goal.bestStreak g;
     Goal.color := Goal.color g;
     Goal.icon := Goal.icon g;
     Goal.createdAt := Goal.createdAt g;
     Goal.lastCompleted := Goal.lastCompleted g;
     Goal.history := Goal.history g |}.

(** [src/store.ts], [toggleGoalCompletion]. *)
Module Store.

Definition toggleGoalCompletion (c : Clock) (gid : string) (state : State)
  : State :=
  match List.find (fun g => bool_decide (Goal.id g = gid)) (goals state) with
  | None => state
  | Some _ =>
      let existingProgress := findDay (today c) (dailyProgress state) in
      let isCompletedToday :=
        default false
          (p ← existingProgress;
           g ← findRecord gid (DailyProgress.goals p);
           Some (completed g)) in
      if isCompletedToday then
        {| goals :=
             map (fun g => if decide (Goal.id g = gid) then undoGoal g else g)
                 (goals state);
           dailyProgress := undoProgress c gid (dailyProgress state) |}
      else
        {| goals :=
             map (fun g => if decide (Goal.id g = gid)
                           then completeGoal c (dailyProgress state) gid g
                           else g)
                 (goals state);
           dailyProgress :=
             match existingProgress with
             | Some _ => completeProgressMap c gid (dailyProgress state)
             | None => dailyProgress state ++ [newDay c gid]
             end |}
  end.

(** [deleteGoal] *)
Definition deleteGoal (gid : string) (state : State) : State :=
  {| goals := filter (fun g => Goal.id g ≠ gid) (goals state);
     dailyProgress := dailyProgress state |}.

(** [updateGoalStatus] *)
Definition updateGoalStatus (gid : string) (st : Status.t) (state : State)
  : State :=
  {| goals :=
       map (fun g => if decide (Goal.id g = gid) then withStatus g st else g)
           (goals state);
     dailyProgress := dailyProgress state |}.

End Store.


(** [src/FocusTimer.tsx], the [GoalTracker] component.  Its handlers close
    over the values of one render: [goals], [dailyProgress] and
    [todayProgress], the entry of the day [rendered] on which the component
    was rendered last. *)
Module Tracker.

(** [dailyProgress.find(p => p.date === today) || { date: today, goals: [] }] *)
Definition todayProgress (rendered : string) (ledger : list DailyProgress.t)
  : DailyProgress.t :=
  default {| DailyProgress.date := rendered;
             DailyProgress.goals := [];
             DailyProgress.tasks := [] |}
          (findDay rendered ledger).

Definition toggleGoalCompletion (rendered : string) (c : Clock)
    (gid : string) (state : State) : State :=
  match List.find (fun g => bool_decide (Goal.id g = gid)) (goals state) with
  | None => state
  | Some _ =>
      let isCompletedToday :=
        default false
          (g ← findRecord gid
                 (DailyProgress.goals
                    (todayProgress rendered (dailyProgress state)));
           Some (completed g)) in
      if isCompletedToday then
        {| goals :=
             map (fun g => if decide (Goal.id g = gid) then undoGoal g else g)
                 (goals state);
           dailyProgress := undoProgress c gid (dailyProgress state) |}
      else
        let updatedProgress :=
          completeProgressMap c gid (dailyProgress state) in
        {| goals :=
             map (fun g => if decide (Goal.id g = gid)
                           then completeGoal c (dailyProgress state) gid g
                           else g)
                 (goals state);
           dailyProgress :=
             match findDay (today c) (dailyProgress state) with
             | None => updatedProgress ++ [newDay c gid]
             | Some _ => updatedProgress
             end |}
  end.

(** [updateGoalStatus] *)
Definition updateGoalStatus (gid : string) (st : Status.t) (state : State)
  : State :=
  {| goals :=
       map (fun g => if decide (Goal.id g = gid) then withStatus g st else g)
           (goals state);
     dailyProgress := dailyProgress state |}.

(** [deleteGoal] *)
Definition deleteGoal (gid : string) (state : State) : State :=
  {| goals := filter (fun g => Goal.id g ≠ gid) (goals state);
     dailyProgress := dailyProgress state |}.

End Tracker.

(** The two implementations of an action: the store, and a handler of the
    component, which belongs to one render; [rendered] is the day of that
    render, the day of the call or an earlier one (a page left open over
    midnight is rendered again by its next change of state only). *)
Inductive Impl := store | component (rendered : string).

Definition toggleCompletion (v : Impl) (c : Clock) (gid : string)
    (state : State) : State :=
  match v with
  | store => Store.toggleGoalCompletion c gid state
  | component rendered => Tracker.toggleGoalCompletion rendered c gid state
  end.

(** [deleteGoal] reads nothing of the render but the goals. *)
Definition deleteGoal (v : Impl) (gid : string) (state : State) : State :=
  match v with
  | store => Store.deleteGoal gid state
  | component _ => Tracker.deleteGoal gid state
  end.

(** The day whose entry decides the branch of a toggle: the day of the call
    in the store, the day of the render in the component. *)
Definition decisionDay (v : Impl) (c : Clock) : string :=
  match v with
  | store => today c
  | component rendered => rendered
  end.

(** The goal transformer and the ledger transformer of a toggle, by case. *)
Definition hasGoal (gid : string) (state : State) : bool :=
  bool_decide (Exists (fun g => Goal.id g = gid) (goals state)).

Definition toggleGoal (v : Impl) (c : Clock) (gid : string) (state : State)
    (g : Goal.t) : Goal.t :=
  if isCompletedOn (decisionDay v c) gid (dailyProgress state)
  then undoGoal g
  else completeGoal c (dailyProgress state) gid g.

(** Ledger transformer of the mark-as-completed branch. *)
Definition completeProgress (c : Clock) (gid : string)
    (ledger : list DailyProgress.t) : list DailyProgress.t :=
  match findDay (today c) ledger with
  | Some _ => completeProgressMap c gid ledger
  | None => ledger ++ [newDay c gid]
  end.

Definition toggleProgress (v : Impl) (c : Clock) (gid : string)
    (ledger : list DailyProgress.t) : list DailyProgress.t :=
  if isCompletedOn (decisionDay v c) gid ledger
  then undoProgress c gid ledger
  else completeProgress c gid ledger.

(** A call of the toggle: where it is made (for the component, from the
    render of which day), the clock of the call and the goal id. *)
Definition Call : Type := Impl * Clock * string.

(** The call is made with the day of today in hand: always in the store; in
    the component when the handler is of a render of the day of the call. *)
Definition freshCall (op : Call) : Prop :=
  decisionDay op.1.1 op.1.2 = today op.1.2.

(** A sequence of toggles, oldest first. *)
Definition run (ops : list Call) (state : State) : State :=
  foldl (fun st op => toggleCompletion op.1.1 op.1.2 op.2 st) state ops.

(** ** Goal creation and the defaults of the component *)

(** [Array.from({ length: 7 }, (_, i) => ({ date: ..., completed: f(i) }))],
    the dates being those of [Date.now() - (6 - i) * 86400000]. *)
Definition weekHistory (c : Clock) (f : Z -> bool) : list (string * bool) :=
  map (fun i => (isoDate (now c - (6 - i) * 86400000), f i))
      [0; 1; 2; 3; 4; 5; 6].

(** The goal object of [handleAddGoal]; [gid] is [Date.now().toString()] and
    [col], [ico] the colour and icon of the chosen category. *)
Definition newGoal (c : Clock) (gid ttl desc : string) (cat : GoalCategory)
    (freq : GoalFrequency) (target : Z) (col ico : string) : Goal.t :=
  {| Goal.id := gid;
     Goal.title := ttl;
     Goal.description := desc;
     Goal.category := cat;
     Goal.frequency := freq;
     Goal.status := Status.active;
     Goal.targetCount := target;
     Goal.currentCount := 0;
     Goal.streak := 0;
     Goal.bestStreak := 0;
     Goal.color := col;
     Goal.icon := ico;
     Goal.createdAt := now c;
     Goal.lastCompleted := None;
     Goal.history := weekHistory c (fun _ => false) |}.

(** [setGoals([newGoal, ...goals])] *)
Definition addGoal (g : Goal.t) (state : State) : State :=
  {| goals := g :: goals state; dailyProgress := dailyProgress state |}.

(** [defaultGoals] and [defaultDailyProgress] of the component, evaluated
    at the clock of the first render ([new Date('2024-01-01')] is
    1704067200000). *)
Definition defaultGoals (c : Clock) : list Goal.t :=
  [ {| Goal.id := "1";
       Goal.title := "Daily GitHub Commit";
       Goal.description := "Commit code to GitHub every day";
       Goal.category := productivity;
       Goal.frequency := daily;
       Goal.status := Status.active;
       Goal.targetCount := 1;
       Goal.currentCount := 1;
       Goal.streak := 2;
       Goal.bestStreak := 10;
       Goal.color := "#FF9BC9";
       Goal.icon := "💻";
       Goal.createdAt := 1704067200000;
       Goal.lastCompleted := Some (now c);
       Goal.history := weekHistory c (fun i => i <? 6) |};
    {| Goal.id := "2";
       Goal.title := "Morning Gym Session";
       Goal.description := "Workout for 45 minutes";
       Goal.category := health;
       Goal.frequency := weekly;
       Goal.status := Status.active;
       Goal.targetCount := 3;
       Goal.currentCount := 2;
       Goal.streak := 3;
       Goal.bestStreak := 5;
       Goal.color := "#A1E8D9";
       Goal.icon := "🏋️‍♀️";
       Goal.createdAt := 1704412800000;
       Goal.lastCompleted := Some (now c);
       Goal.history :=
         weekHistory c (fun i => (i =? 0) || (i =? 2) || (i =? 4)) |};
    {| Goal.id := "3";
       Goal.title := "Read 30 Minutes";
       Goal.description := "Read non-fiction books";
       Goal.category := learning;
       Goal.frequency := daily;
       Goal.status := Status.active;
       Goal.targetCount := 1;
       Goal.currentCount := 1;
       Goal.streak := 5;
       Goal.bestStreak := 8;
       Goal.color := "#BDB2FF";
       Goal.icon := "📚";
       Goal.createdAt := 1704844800000;
       Goal.lastCompleted := Some (now c);
       Goal.history := weekHistory c (fun i => i <? 5) |} ].

Definition defaultDailyProgress (c : Clock) : list DailyProgress.t :=
  [ {| DailyProgress.date := today c;
       DailyProgress.goals :=
         [ {| goalId := "1"; completed := true |};
           {| goalId := "2"; completed := true |};
           {| goalId := "3"; completed := true |} ];
       DailyProgress.tasks := [] |} ].

(** The state of the component on a first run. *)
Definition defaultState (c : Clock) : State :=
  {| goals := defaultGoals c; dailyProgress := defaultDailyProgress c |}.

(** ** JavaScript numbers of the statistics *)

(** IEEE 754 binary64: 53 bits of precision, exponents below 1024. *)
Definition number := spec_float.

Definition ofZ (n : Z) : number := binary_normalize 53 1024 n 0 false.
Definition fdiv : number -> number -> number := SFdiv 53 1024.
Definition fmul : number -> number -> number := SFmul 53 1024.

(** [Math.round]: the integer nearest to [x], a tie going up; NaN, the
    infinities and the zeros are returned as they are, and a result of zero
    has the sign of [x]. *)
Definition Math_round (x : number) : number :=
  match x with
  | S754_finite s m e =>
      if 0 <=? e then x
      else
        let v := if s then Z.neg m else Z.pos m in
        let d := 2 ^ (- e) in
        let n := (2 * v + d) / (2 * d) in
        if n =? 0 then S754_zero s else ofZ n
  | _ => x
  end.

(** [x || 0] on numbers: NaN and the zeros are falsy. *)
Definition orZero (x : number) : number :=
  match x with
  | S754_nan | S754_zero _ => S754_zero false
  | _ => x
  end.

(** ** Statistics of the component *)

(** [Math.round((done / total) * 100) || 0] *)
Definition percent (done total : Z) : number :=
  orZero (Math_round (fmul (fdiv (ofZ done) (ofZ total)) (ofZ 100))).

Module TodayStats.
Record t := mk { total : Z; completed : Z; percentage : number }.
End TodayStats.

(** [goals.filter(g => g.status === 'active')] *)
Definition activeGoals (gs : list Goal.t) : list Goal.t :=
  filter (fun g => Goal.status g = Status.active) gs.

(** [todayProgress.goals.filter(g => g.completed)] *)
Definition completedRecords (l : list GoalProgress) : list GoalProgress :=
  List.filter completed l.

(** [todayStats], computed on a render of the day [rendered]. *)
Definition todayStats (rendered : string) (state : State) : TodayStats.t :=
  let todayProgress := Tracker.todayProgress rendered (dailyProgress state) in
  let total := Z.of_nat (length (activeGoals (goals state))) in
  let done := Z.of_nat
                (length (completedRecords (DailyProgress.goals todayProgress))) in
  {| TodayStats.total := total;
     TodayStats.completed := done;
     TodayStats.percentage := percent done total |}.

(** [array.sort((a, b) => b.streak - a.streak)]: the sort of an array is
    stable, so the result is the stable sort by decreasing streak, here by
    insertion from the right. *)
Fixpoint insertByStreak (x : Goal.t) (l : list Goal.t) : list Goal.t :=
  match l with
  | [] => [x]
  | y :: l' =>
      if Goal.streak x <? Goal.streak y then y :: insertByStreak x l'
      else x :: l
  end.

Definition sortByStreak (l : list Goal.t) : list Goal.t :=
  foldr insertByStreak [] l.

(** The streak leaders of the statistics tab:
    [goals.filter(active).sort(...).slice(0, 5)]. *)
Definition streakLeaders (state : State) : list Goal.t :=
  take 5 (sortByStreak (activeGoals (goals state))).

(** The counts of [todayStats] in the words of the specification: the
    number of active goals, and the number of active goals that the ledger
    shows completed on the day. *)
Fixpoint countActive (gs : list Goal.t) : Z :=
  match gs with
  | [] => 0
  | g :: gs' =>
      (if decide (Goal.status g = Status.active) then 1 else 0)
      + countActive gs'
  end.

Fixpoint countActiveCompleted (day : string) (ledger : list DailyProgress.t)
    (gs : list Goal.t) : Z :=
  match gs with
  | [] => 0
  | g :: gs' =>
      (if decide (Goal.status g = Status.active)
       then (if isCompletedOn day (Goal.id g) ledger then 1 else 0) else 0)
      + countActiveCompleted day ledger gs'
  end.

(** The number of records of a day that are flagged completed. *)
Fixpoint countFlagged (l : list GoalProgress) : Z :=
  match l with
  | [] => 0
  | r :: l' => (if completed r then 1 else 0) + countFlagged l'
  end.

(** The integer nearest to [100 * done / total], a tie going up. *)
Definition nearestPercent (done total : Z) : Z :=
  (200 * done + total) / (2 * total).

#[global] Instance number_eq_dec : EqDecision number.
Proof. solve_decision. Defined.

(** What the records of a day say of a goal: the flag of its first record,
    false without one. *)
Definition recordFlag (gid : string) (l : list GoalProgress) : bool :=
  default false (r ← findRecord gid l; Some (completed r)).

(** The number of active goals that the records [l] flag completed, and
    the number of active goals with a given id. *)
Fixpoint countActiveFlagged (l : list GoalProgress) (gs : list Goal.t) : Z :=
  match gs with
  | [] => 0
  | g :: gs' =>
      (if decide (Goal.status g = Status.active)
       then (if recordFlag (Goal.id g) l then 1 else 0) else 0)
      + countActiveFlagged l gs'
  end.

Fixpoint countActiveWithId (gid : string) (gs : list Goal.t) : Z :=
  match gs with
  | [] => 0
  | g :: gs' =>
      (if decide (Goal.status g = Status.active)
       then (if decide (Goal.id g = gid) then 1 else 0) else 0)
      + countActiveWithId gid gs'
  end.

(** Whether the percentage of [d] records over [t] active goals is the
    nearest integer. *)
Definition percentExact (t d : Z) : bool :=
  bool_decide (percent d t = ofZ (nearestPercent d t)).

(** ** JavaScript values and JSON documents *)

Inductive Error := SyntaxError | TypeError.

(** The completion of an evaluation: a value, or an exception thrown. *)
Inductive Completion (A : Type) := Normal (a : A) | Throw (e : Error).
Arguments Normal {A} a.
Arguments Throw {A} e.

#[global] Instance Completion_ret : MRet Completion := fun A a => Normal a.
#[global] Instance Completion_bind : MBind Completion :=
  fun A B f c => match c with Normal a => f a | Throw e => Throw e end.

(** The values a persisted document gives rise to.  A string is held by its
    UTF-8 encoding (a lone surrogate by the three bytes of its code point);
    [JDate v] is the [Date] that [new Date(v)] returns. *)
#[local] Unset Elimination Schemes.
Inductive JSValue :=
| JUndefined
| JNull
| JBool (b : bool)
| JNumber (x : number)
| JString (s : string)
| JArray (items : list JSValue)
| JObject (props : list (string * JSValue))
| JDate (arg : JSValue).
#[local] Set Elimination Schemes.

Definition charCode (c : ascii) : Z := Z.of_N (Ascii.N_of_ascii c).
Definition charOf (n : Z) : ascii := Ascii.ascii_of_N (Z.to_N n).
Definition isChar (n : Z) (c : ascii) : bool := charCode c =? n.

Definition isDigit (c : ascii) : bool :=
  (48 <=? charCode c) && (charCode c <=? 57).

(** JSON white space: space, tab, line feed, carriage return. *)
Definition isWs (c : ascii) : bool :=
  isChar 32 c || isChar 9 c || isChar 10 c || isChar 13 c.

Fixpoint skipWs (s : string) : string :=
  match s with
  | String c r => if isWs c then skipWs r else s
  | EmptyString => s
  end.

Fixpoint takeDigits (s : string) : list Z * string :=
  match s with
  | String c r =>
      if isDigit c
      then let '(ds, rest) := takeDigits r in (charCode c - 48 :: ds, rest)
      else ([], s)
  | EmptyString => ([], s)
  end.

Definition digitsValue (ds : list Z) : Z :=
  foldl (fun acc d => 10 * acc + d) 0 ds.

(** The binary64 number nearest to [m * 10 ^ e], [m] not negative. *)
Definition decimalToNumber (neg : bool) (m e : Z) : number :=
  if m =? 0 then S754_zero neg
  else if 0 <=? e
       then binary_normalize 53 1024
              (if neg then - (m * 10 ^ e) else m * 10 ^ e) 0 neg
       else SFdiv 53 1024 (S754_finite neg (Z.to_pos m) 0)
                          (S754_finite false (Z.to_pos (10 ^ (- e))) 0).

(** [-? int frac? exp?], the integer part without a leading zero. *)
Definition parseNumber (s : string) : option (number * string) :=
  let '(neg, s1) :=
    match s with
    | String c r => if isChar 45 c then (true, r) else (false, s)
    | EmptyString => (false, s)
    end in
  let '(int, s2) := takeDigits s1 in
  match int with
  | [] => None
  | 0 :: _ :: _ => None
  | _ =>
      fr ← match s2 with
           | String c r =>
               if isChar 46 c
               then let '(fr, s3) := takeDigits r in
                    match fr with [] => None | _ => Some (fr, s3) end
               else Some ([], s2)
           | EmptyString => Some ([], s2)
           end;
      ex ← match fr.2 with
           | String c r =>
               if isChar 101 c || isChar 69 c then
                 let '(eneg, r1) :=
                   match r with
                   | String c1 r1 =>
                       if isChar 45 c1 then (true, r1)
                       else if isChar 43 c1 then (false, r1)
                       else (false, r)
                   | EmptyString => (false, r)
                   end in
                 let '(ex, s4) := takeDigits r1 in
                 match ex with
                 | [] => None
                 | _ => Some (if eneg then - digitsValue ex
                              else digitsValue ex, s4)
                 end
               else Some (0, fr.2)
           | EmptyString => Some (0, fr.2)
           end;
      Some (decimalToNumber neg (digitsValue (int ++ fr.1))
              (ex.1 - Z.of_nat (length fr.1)), ex.2)
  end.

Definition hexVal (c : ascii) : option Z :=
  let n := charCode c in
  if isDigit c then Some (n - 48)
  else if (97 <=? n) && (n <=? 102) then Some (n - 87)
  else if (65 <=? n) && (n <=? 70) then Some (n - 55)
  else None.

(** Four hexadecimal digits. *)
Definition hex4 (s : string) : option (Z * string) :=
  match s with
  | String a (String b (String c (String d r))) =>
      a ← hexVal a; b ← hexVal b; c ← hexVal c; d ← hexVal d;
      Some (((a * 16 + b) * 16 + c) * 16 + d, r)
  | _ => None
  end.

(** The UTF-8 encoding of a code point (of a lone surrogate as well). *)
Definition utf8 (cp : Z) : string :=
  if cp <? 128 then String (charOf cp) EmptyString
  else if cp <? 2048 then
    String (charOf (192 + cp / 64))
      (String (charOf (128 + cp mod 64)) EmptyString)
  else if cp <? 65536 then
    String (charOf (224 + cp / 4096))
      (String (charOf (128 + cp / 64 mod 64))
         (String (charOf (128 + cp mod 64)) EmptyString))
  else
    String (charOf (240 + cp / 262144))
      (String (charOf (128 + cp / 4096 mod 64))
         (String (charOf (128 + cp / 64 mod 64))
            (String (charOf (128 + cp mod 64)) EmptyString))).

(** A [\uXXXX] escape, joined with a following low surrogate. *)
Definition parseUnicode (s : string) : option (string * string) :=
  '(hi, r) ← hex4 s;
  if (55296 <=? hi) && (hi <=? 56319) then
    match r with
    | String c1 (String c2 r2) =>
        if isChar 92 c1 && isChar 117 c2 then
          match hex4 r2 with
          | Some (lo, r3) =>
              if (56320 <=? lo) && (lo <=? 57343)
              then Some (utf8 (65536 + (hi - 55296) * 1024 + (lo - 56320)), r3)
              else Some (utf8 hi, r)
          | None => Some (utf8 hi, r)
          end
        else Some (utf8 hi, r)
    | _ => Some (utf8 hi, r)
    end
  else Some (utf8 hi, r).

(** The characters of a string after its opening quote, up to the closing
    quote. *)
Fixpoint parseChars (fuel : nat) (s : string) : option (string * string) :=
  match fuel, s with
  | S fuel', String c r =>
      if isChar 34 c then Some (EmptyString, r)
      else if isChar 92 c then
        match r with
        | String e r' =>
            '(decoded, rest) ←
              (if isChar 34 e || isChar 92 e || isChar 47 e
               then Some (String e EmptyString, r')
               else if isChar 98 e then Some (String (charOf 8) EmptyString, r')
               else if isChar 102 e then Some (String (charOf 12) EmptyString, r')
               else if isChar 110 e then Some (String (charOf 10) EmptyString, r')
               else if isChar 114 e then Some (String (charOf 13) EmptyString, r')
               else if isChar 116 e then Some (String (charOf 9) EmptyString, r')
               else if isChar 117 e then parseUnicode r'
               else None);
            '(str, rest') ← parseChars fuel' rest;
            Some (decoded +:+ str, rest')
        | EmptyString => None
        end
      else if charCode c <? 32 then None
      else '(str, rest) ← parseChars fuel' r; Some (String c str, rest)
  | _, _ => None
  end.

(** [s] without the prefix [p], when it starts with it. *)
Fixpoint dropPrefix (p s : string) : option string :=
  match p, s with
  | EmptyString, _ => Some s
  | String a p', String b s' =>
      if Ascii.eqb a b then dropPrefix p' s' else None
  | String _ _, EmptyString => None
  end.

(** A JSON value, then the elements of an array after its first bracket,
    and the members of an object after its first brace.  [fuel] bounds the
    depth of the calls; the length of the text is enough. *)
Fixpoint parseValue (fuel : nat) (s : string) : option (JSValue * string) :=
  match fuel with
  | O => None
  | S fuel' =>
      let s := skipWs s in
      match s with
      | EmptyString => None
      | String c r =>
          if isChar 110 c then r' ← dropPrefix "ull" r; Some (JNull, r')
          else if isChar 116 c then
            r' ← dropPrefix "rue" r; Some (JBool true, r')
          else if isChar 102 c then
            r' ← dropPrefix "alse" r; Some (JBool false, r')
          else if isChar 34 c then
            '(str, r') ← parseChars (String.length r) r;
            Some (JString str, r')
          else if isChar 91 c then
            match skipWs r with
            | String c' r' =>
                if isChar 93 c' then Some (JArray [], r')
                else '(items, rest) ← parseElems fuel' r;
                     Some (JArray items, rest)
            | EmptyString => None
            end
          else if isChar 123 c then
            match skipWs r with
            | String c' r' =>
                if isChar 125 c' then Some (JObject [], r')
                else '(props, rest) ← parseMembers fuel' r;
                     Some (JObject props, rest)
            | EmptyString => None
            end
          else '(x, r') ← parseNumber s; Some (JNumber x, r')
      end
  end
with parseElems (fuel : nat) (s : string)
  : option (list JSValue * string) :=
  match fuel with
  | O => None
  | S fuel' =>
      '(v, r) ← parseValue fuel' s;
      match skipWs r with
      | String c r' =>
          if isChar 44 c then
            '(items, rest) ← parseElems fuel' r'; Some (v :: items, rest)
          else if isChar 93 c then Some ([v], r')
          else None
      | EmptyString => None
      end
  end
with parseMembers (fuel : nat) (s : string)
  : option (list (string * JSValue) * string) :=
  match fuel with
  | O => None
  | S fuel' =>
      match skipWs s with
      | String q r0 =>
          if isChar 34 q then
            '(key, r1) ← parseChars (String.length r0) r0;
            match skipWs r1 with
            | String c r2 =>
                if isChar 58 c then
                  '(v, r) ← parseValue fuel' r2;
                  match skipWs r with
                  | String c' r' =>
                      if isChar 44 c' then
                        '(props, rest) ← parseMembers fuel' r';
                        Some ((key, v) :: props, rest)
                      else if isChar 125 c' then Some ([(key, v)], r')
                      else None
                  | EmptyString => None
                  end
                else None
            | EmptyString => None
            end
          else None
      | EmptyString => None
      end
  end.

(** [JSON.parse]: one value between white space; anything else throws a
    [SyntaxError]. *)
Definition JSON_parse (text : string) : Completion JSValue :=
  match parseValue (S (String.length text)) text with
  | Some (v, rest) =>
      match skipWs rest with
      | EmptyString => Normal v
      | String _ _ => Throw SyntaxError
      end
  | None => Throw SyntaxError
  end.

(** ** Loading the persisted state *)

(** Truthiness, as [||] and the conditional test it. *)
Definition truthy (v : JSValue) : bool :=
  match v with
  | JUndefined | JNull => false
  | JBool b => b
  | JNumber (S754_nan | S754_zero _) => false
  | JNumber _ => true
  | JString EmptyString => false
  | JString (String _ _) => true
  | JArray _ | JObject _ | JDate _ => true
  end.

(** [v || d] *)
Definition orElse (v d : JSValue) : JSValue := if truthy v then v else d.

(** The value of a property of an object built by [JSON.parse] or by an
    object literal: of the last member with the name. *)
Fixpoint lookupProp (name : string) (props : list (string * JSValue))
  : option JSValue :=
  match props with
  | [] => None
  | (k, v) :: rest =>
      match lookupProp name rest with
      | Some v' => Some v'
      | None => if decide (k = name) then Some v else None
      end
  end.

(** [v.name], for a name that no prototype defines, as are all the names
    the loaders read: a [TypeError] on [null] and [undefined], [undefined]
    on a value without the property. *)
Definition getField (v : JSValue) (name : string) : Completion JSValue :=
  match v with
  | JUndefined | JNull => Throw TypeError
  | JObject props => Normal (default JUndefined (lookupProp name props))
  | _ => Normal JUndefined
  end.

(** [localStorage]: [getItem] gives the string stored under a key, or
    [null]. *)
Definition Storage := string -> option string.

(** A storage holding one document. *)
Definition storageOf (key doc : string) : Storage :=
  fun k => if decide (k = key) then Some doc else None.

(** A storage holding the two documents of the goal tracker. *)
Definition storageOfBoth (goalsDoc progressDoc : string) : Storage :=
  fun k => if decide (k = "zen-goals") then Some goalsDoc
           else if decide (k = "zen-goal-progress") then Some progressDoc
           else None.

(** The first store of [src/store.ts], with tasks, goals and a timer. *)
Module SimpleStore.

Record t := mk {
  tasks : JSValue;
  goals : JSValue;
  timerMinutes : JSValue;
  timerSeconds : JSValue;
  isTimerRunning : bool
}.

(** The state of a first run. *)
Definition empty : t :=
  {| tasks := JArray [];
     goals := JArray [];
     timerMinutes := JNumber (ofZ 25);
     timerSeconds := JNumber (ofZ 0);
     isTimerRunning := false |}.

Section Load.

Variable parse : string -> Completion JSValue.
Variable storage : Storage.

(** [loadState] *)
Definition loadState : JSValue :=
  match storage "solaceflow-storage" with
  | Some saved =>
      if truthy (JString saved) then
        match parse saved with
        | Normal v => v
        | Throw _ => JObject []
        end
      else JObject []
  | None => JObject []
  end.

(** The initial fields of the store created from [initialState]. *)
Definition create (initialState : JSValue) : Completion t :=
  savedTasks ← getField initialState "tasks";
  savedGoals ← getField initialState "goals";
  minutes ← getField initialState "timerMinutes";
  seconds ← getField initialState "timerSeconds";
  mret {| tasks := orElse savedTasks (JArray []);
          goals := orElse savedGoals (JArray []);
          timerMinutes := orElse minutes (JNumber (ofZ 25));
          timerSeconds := orElse seconds (JNumber (ofZ 0));
          isTimerRunning := false |}.

(** The module of the store, evaluated at startup. *)
Definition init : Completion t := create loadState.

End Load.

End SimpleStore.

(** The UTF-16 code units of a string, each as a string of its own: one
    for a code point of one, two or three bytes, and the two surrogates of
    a code point of four bytes.  (A byte that starts no sequence stands for
    itself.) *)
Fixpoint codeUnits (s : string) : list string :=
  match s with
  | EmptyString => []
  | String a r =>
      let one := String a EmptyString in
      if charCode a <? 192 then one :: codeUnits r
      else if charCode a <? 224 then
        match r with
        | String b r' => String a (String b EmptyString) :: codeUnits r'
        | EmptyString => [one]
        end
      else if charCode a <? 240 then
        match r with
        | String b (String c r') =>
            String a (String b (String c EmptyString)) :: codeUnits r'
        | _ => one :: codeUnits r
        end
      else
        match r with
        | String b (String c (String d r')) =>
            let cp :=
              (charCode a - 240) * 262144 + (charCode b - 128) * 4096
              + (charCode c - 128) * 64 + (charCode d - 128) in
            utf8 (55296 + (cp - 65536) / 1024)
            :: utf8 (56320 + (cp - 65536) mod 1024) :: codeUnits r'
        | _ => one :: codeUnits r
        end
  end.

(** Whether [ToPrimitive] returns on a value of a parsed document, for
    [new Date(v)] and for the [join] of an array.  An object whose own
    property [toString] hides the method of [Object.prototype] has no
    primitive value: no value of a document is callable, and [valueOf]
    returns the object itself; the conversion raises a [TypeError].  The
    string of an array is the [join] of the strings of its elements, [null]
    apart. *)
Fixpoint hasPrimitive (v : JSValue) : bool :=
  match v with
  | JObject props =>
      match lookupProp "toString" props with
      | Some _ => false
      | None => true
      end
  | JArray items => forallb hasPrimitive items
  | _ => true
  end.

(** [new Date(v)] *)
Definition newDate (v : JSValue) : Completion JSValue :=
  if hasPrimitive v then Normal (JDate v) else Throw TypeError.

(** The persisted state of the [GoalTracker] component. *)
Module TrackerStorage.

(** An initial value of the component: its default, or a stored value. *)
Inductive Initial := Default | Stored (v : JSValue).

(** The members an object spread copies: the properties of an object, the
    elements of an array and the code units of a string under their
    indices, nothing of another value. *)
Definition spread (v : JSValue) : list (string * JSValue) :=
  match v with
  | JObject props => props
  | JArray items => imap (fun i x => (pretty i, x)) items
  | JString s => imap (fun i u => (pretty i, JString u)) (codeUnits s)
  | _ => []
  end.

(** The callback of the [map] over the stored goals. *)
Definition reviveGoal (goal : JSValue) : Completion JSValue :=
  created ← getField goal "createdAt";
  createdAt ← newDate created;
  last ← getField goal "lastCompleted";
  lastCompleted ← (if truthy last then newDate last else mret JNull);
  mret (JObject
          (spread goal ++
           [("createdAt", createdAt); ("lastCompleted", lastCompleted)])).

Fixpoint mapCompletion (f : JSValue -> Completion JSValue)
    (items : list JSValue) : Completion (list JSValue) :=
  match items with
  | [] => mret []
  | x :: rest =>
      y ← f x; ys ← mapCompletion f rest; mret (y :: ys)
  end.

(** [v.map(f)]: only an array has a [map]. *)
Definition arrayMap (f : JSValue -> Completion JSValue) (v : JSValue)
  : Completion JSValue :=
  match v with
  | JArray items => ys ← mapCompletion f items; mret (JArray ys)
  | _ => Throw TypeError
  end.

Section Load.

Variable parse : string -> Completion JSValue.
Variable storage : Storage.

(** The body of the [try] of [loadFromStorage], for a truthy [savedGoals]. *)
Definition loadSaved (savedGoals : string) : Completion (JSValue * JSValue) :=
  parsed ← parse savedGoals;
  revived ← arrayMap reviveGoal parsed;
  progress ←
    match storage "zen-goal-progress" with
    | Some savedProgress =>
        if truthy (JString savedProgress) then parse savedProgress
        else mret (JArray [])
    | None => mret (JArray [])
    end;
  mret (revived, progress).

(** [loadFromStorage]: the goals and the progress, or [null]. *)
Definition loadFromStorage : option (JSValue * JSValue) :=
  match storage "zen-goals" with
  | Some savedGoals =>
      if truthy (JString savedGoals) then
        match loadSaved savedGoals with
        | Normal loaded => Some loaded
        | Throw _ => None
        end
      else None
  | None => None
  end.

(** [loaded?.goals || defaultGoals] *)
Definition initialGoals : Initial :=
  match loadFromStorage with
  | Some (savedGoals, _) =>
      if truthy savedGoals then Stored savedGoals else Default
  | None => Default
  end.

(** [loaded?.progress || defaultDailyProgress] *)
Definition initialProgress : Initial :=
  match loadFromStorage with
  | Some (_, progress) => if truthy progress then Stored progress else Default
  | None => Default
  end.

End Load.

End TrackerStorage.

(** ** Sample clocks and states *)

(** 08:00 UTC on 2024-03-01, and the same hour one, two and three days
    later. *)
Definition day1 : Clock := clockAt 1709280000000.
Definition day2 : Clock := clockAt (1709280000000 + msPerDay).
Definition day3 : Clock := clockAt (1709280000000 + 2 * msPerDay).
Definition day4 : Clock := clockAt (1709280000000 + 3 * msPerDay).

(** A goals document of one goal, whose [createdAt] is an object with a
    [toString] property that is null, which [new Date] cannot convert. *)
Definition quoted (s : string) : string :=
  String (charOf 34) (s +:+ String (charOf 34) EmptyString).

Definition unconvertibleGoals : string :=
  "[{" +:+ quoted "createdAt" +:+ ":{" +:+ quoted "toString" +:+ ":null}}]".

(** 00:30 on 2024-04-01 in London, which is 23:30 UTC on 2024-03-31: the
    day before in local time is the day the clocks went forward, and
    [setDate(getDate() - 1)] gives 00:30 UTC on 2024-03-31, 23 hours
    earlier. *)
Definition londonNight : Clock :=
  {| now := 1711927800000; dayBefore := 1711927800000 - 23 * 3600000 |}.

(** One second and two seconds after [day2]. *)
Definition day2a : Clock := clockAt (1709280000000 + msPerDay + 1000).
Definition day2b : Clock := clockAt (1709280000000 + msPerDay + 2000).

(** A goal just created, alone in a state with an empty ledger. *)
Definition freshGoal : Goal.t :=
  newGoal day1 "g1" "Read 30 Minutes" "" learning daily 1 "#BDB2FF" "🎓".

Definition freshState : State :=
  addGoal freshGoal {| goals := []; dailyProgress := [] |}.

(** A state in which the ledger shows a goal completed today while its
    counter is 0, as after [updateGoal(id, { currentCount: 0 })] or an
    import. *)
Definition zeroCountGoal : Goal.t :=
  {| Goal.id := "g1";
     Goal.title := "Read 30 Minutes";
     Goal.description := "";
     Goal.category := learning;
     Goal.frequency := daily;
     Goal.status := Status.active;
     Goal.targetCount := 1;
     Goal.currentCount := 0;
     Goal.streak := 1;
     Goal.bestStreak := 1;
     Goal.color := "#BDB2FF";
     Goal.icon := "🎓";
     Goal.createdAt := now day1;
     Goal.lastCompleted := Some (now day1);
     Goal.history := weekHistory day1 (fun _ => false) |}.

Definition zeroCountState : State :=
  {| goals := [zeroCountGoal];
     dailyProgress :=
       [ {| DailyProgress.date := today day1;
            DailyProgress.goals := [ {| goalId := "g1"; completed := true |} ];
            DailyProgress.tasks := [] |} ] |}.

(** The first-run state of the component after the first goal was paused,
    and after all three were. *)
Definition onePaused : State :=
  Tracker.updateGoalStatus "1" Status.paused (defaultState day1).

Definition allPaused : State :=
  Tracker.updateGoalStatus "3" Status.paused
    (Tracker.updateGoalStatus "2" Status.paused onePaused).

(** The invariant of the streak counters of a goal. *)
Definition streakInv (g : Goal.t) : Prop :=
  0 <= Goal.streak g <= Goal.bestStreak g.

(* ================================================================= *)
(** * The rest of the stores and of the component *)

(** ** The ledger and the checklist of the goal tracker *)

(** The ledger is well formed when no two entries have the same date and no
    entry has two records of the same goal. *)
Definition wfLedger (ledger : list DailyProgress.t) : Prop :=
  NoDup (DailyProgress.date <$> ledger) /\
  Forall (fun d => NoDup (goalId <$> DailyProgress.goals d)) ledger.

(** The number of entries of the ledger that show a goal completed. *)
Fixpoint flaggedDays (gid : string) (ledger : list DailyProgress.t) : Z :=
  match ledger with
  | [] => 0
  | d :: rest =>
      (if recordFlag gid (DailyProgress.goals d) then 1 else 0)
      + flaggedDays gid rest
  end.

(** The fields of a goal that no toggle writes. *)
Definition staticFields (g : Goal.t) :=
  (Goal.id g, Goal.title g, Goal.description g, Goal.category g,
   Goal.frequency g, Goal.status g, Goal.targetCount g, Goal.color g,
   Goal.icon g, Goal.createdAt g, Goal.history g).

(** The rewrite of the ledger by a toggle, entry by entry. *)
Definition toggleDay (v : Impl) (c : Clock) (gid : string)
    (ledger : list DailyProgress.t) (d : DailyProgress.t) : DailyProgress.t :=
  if isCompletedOn (decisionDay v c) gid ledger
  then withGoals d (setFlag gid false (DailyProgress.goals d))
  else completeDay gid d.

#[global] Instance GoalFrequency_eq_dec : EqDecision GoalFrequency.
Proof. solve_decision. Defined.

#[global] Instance GoalCategory_eq_dec : EqDecision GoalCategory.
Proof. solve_decision. Defined.

(** [Math.min] of two numbers: NaN when either is; of two zeros the
    negative one. *)
Definition Math_min (a b : number) : number :=
  match a, b with
  | S754_nan, _ | _, S754_nan => S754_nan
  | S754_zero sa, S754_zero sb => S754_zero (sa || sb)
  | _, _ => if SFltb b a then b else a
  end.

(** The view of a goal on the checklist, [getGoalProgress]. *)
Module Progress.
Record t := mk {
  isCompletedToday : bool;
  progress : number;
  needsCompletion : bool
}.
End Progress.

Definition getGoalProgress (c : Clock) (state : State) (goal : Goal.t)
  : Progress.t :=
  let isCompletedToday :=
    isCompletedOn (today c) (Goal.id goal) (dailyProgress state) in
  {| Progress.isCompletedToday := isCompletedToday;
     Progress.progress :=
       Math_min (ofZ 100)
         (fmul (fdiv (ofZ (Goal.currentCount goal))
                     (ofZ (Goal.targetCount goal)))
               (ofZ 100));
     Progress.needsCompletion :=
       bool_decide (Goal.frequency goal = daily) && negb isCompletedToday |}.

(** [updateGoalStatus] of either implementation. *)
Definition updateGoalStatus (v : Impl) (gid : string) (st : Status.t)
    (state : State) : State :=
  match v with
  | store => Store.updateGoalStatus gid st state
  | component _ => Tracker.updateGoalStatus gid st state
  end.

(** The counters of a goal are consistent when the streak is not negative
    and not above the number of completions. *)
Definition countInv (g : Goal.t) : Prop :=
  0 <= Goal.streak g <= Goal.currentCount g.

(** ** Overall and category statistics *)

(** [Math.max(...xs, 0)] on integers. *)
Definition maxWithZero (xs : list Z) : Z := foldr Z.max 0 xs.

(** [goals.reduce((sum, goal) => sum + f(goal), 0)] *)
Definition sumOf (f : Goal.t -> Z) (gs : list Goal.t) : Z :=
  foldl (fun sum goal => sum + f goal) 0 gs.

(** [overallStats] of the component. *)
Module OverallStats.
Record t := mk {
  totalGoals : Z;
  activeGoals : Z;
  totalStreaks : Z;
  totalCompletions : Z;
  bestStreak : Z
}.
End OverallStats.

Definition overallStats (state : State) : OverallStats.t :=
  {| OverallStats.totalGoals := Z.of_nat (length (goals state));
     OverallStats.activeGoals :=
       Z.of_nat (length (activeGoals (goals state)));
     OverallStats.totalStreaks := sumOf Goal.streak (goals state);
     OverallStats.totalCompletions := sumOf Goal.currentCount (goals state);
     OverallStats.bestStreak :=
       maxWithZero (map Goal.bestStreak (goals state)) |}.

(** [getGoalStats] of the store. *)
Module GoalStats.
Record t := mk {
  totalGoals : Z;
  activeGoals : Z;
  totalStreaks : Z;
  completedToday : Z;
  bestStreak : Z
}.
End GoalStats.

Definition getGoalStats (c : Clock) (state : State) : GoalStats.t :=
  {| GoalStats.totalGoals := Z.of_nat (length (goals state));
     GoalStats.activeGoals := Z.of_nat (length (activeGoals (goals state)));
     GoalStats.totalStreaks := sumOf Goal.streak (goals state);
     GoalStats.completedToday :=
       match findDay (today c) (dailyProgress state) with
       | Some todayProgress =>
           Z.of_nat (length (completedRecords
                               (DailyProgress.goals todayProgress)))
       | None => 0
       end;
     GoalStats.bestStreak :=
       maxWithZero (map Goal.bestStreak (goals state)) |}.

(** The table of the categories of the component. *)
Module Category.
Record t := mk {
  id : GoalCategory;
  name : string;
  icon : string;
  color : string;
  description : string
}.
End Category.

Definition categories : list Category.t :=
  [ Category.mk health "Health & Fitness" "💪" "#A1E8D9" "Physical wellbeing";
    Category.mk learning "Learning" "🎓" "#BDB2FF" "Knowledge & skills";
    Category.mk productivity "Productivity" "📊" "#FF9BC9" "Work & efficiency";
    Category.mk personal "Personal Growth" "🌱" "#FFD6A5" "Self-improvement";
    Category.mk creative "Creative" "🎨" "#FFC8DD" "Art & expression";
    Category.mk other "Other" "✨" "#D6CCC2" "Miscellaneous goals" ].

(** One row of [categoryStats]. *)
Module CategoryStats.
Record t := mk {
  category : Category.t;
  count : Z;
  completed : Z;
  active : Z
}.
End CategoryStats.

Definition categoryStats (state : State) : list CategoryStats.t :=
  map (fun category =>
         let mine :=
           filter (fun g => Goal.category g = Category.id category)
                  (goals state) in
         {| CategoryStats.category := category;
            CategoryStats.count := Z.of_nat (length mine);
            CategoryStats.completed := sumOf Goal.currentCount mine;
            CategoryStats.active :=
              Z.of_nat
                (length (filter (fun g => Goal.category g = Category.id category
                                          /\ Goal.status g = Status.active)
                                (goals state))) |})
      categories.

(** The sum of a list of integers. *)
Definition sumZ (xs : list Z) : Z := foldr Z.add 0 xs.

(** Decreasing order of streak. *)
Definition byStreak (a b : Goal.t) : Prop := Goal.streak b <= Goal.streak a.

(** ** The first store of [src/store.ts]: tasks, daily goals and a timer *)

Module Simple.

Record Task := mkTask {
  taskId : string;
  taskTitle : string;
  taskCompleted : bool;
  priority : Z
}.

Record Goal := mkGoal {
  id : string;
  title : string;
  completed : bool;
  streak : Z;
  lastCompleted : option string
}.

Record State := mkState {
  tasks : list Task;
  goals : list Goal;
  timerMinutes : Z;
  timerSeconds : Z;
  isTimerRunning : bool
}.

(** What the date expressions of [toggleGoal] evaluate to:
    [new Date().toDateString()] and
    [new Date(Date.now() - 86400000).toDateString()]. *)
Record Clock := mkClock { todayString : string; yesterdayString : string }.

(** [toggleTask] *)
Definition toggleTask (tid : string) (state : State) : State :=
  {| tasks :=
       map (fun task =>
              if decide (taskId task = tid)
              then {| taskId := taskId task;
                      taskTitle := taskTitle task;
                      taskCompleted := negb (taskCompleted task);
                      priority := priority task |}
              else task) (tasks state);
     goals := goals state;
     timerMinutes := timerMinutes state;
     timerSeconds := timerSeconds state;
     isTimerRunning := isTimerRunning state |}.

(** [deleteTask] *)
Definition deleteTask (tid : string) (state : State) : State :=
  {| tasks := filter (fun task => taskId task ≠ tid) (tasks state);
     goals := goals state;
     timerMinutes := timerMinutes state;
     timerSeconds := timerSeconds state;
     isTimerRunning := isTimerRunning state |}.

Section ToggleGoal.

(** [new Date(s).toDateString()], the date string of a stored string. *)
Variable redate : string -> string.

(** The goal object built by [toggleGoal] for the goal of the id. *)
Definition toggled (c : Clock) (goal : Goal) : Goal :=
  let newCompleted := negb (completed goal) in
  let newStreak :=
    if newCompleted then
      let lastCompletedDate :=
        match lastCompleted goal with
        | Some (String a s) => Some (redate (String a s))
        | _ => None
        end in
      match lastCompletedDate with
      | None | Some EmptyString => streak goal + 1
      | Some d =>
          if bool_decide (d = yesterdayString c)
             || bool_decide (d = todayString c)
          then streak goal + 1 else 1
      end
    else streak goal in
  {| id := id goal;
     title := title goal;
     completed := newCompleted;
     streak := newStreak;
     lastCompleted :=
       if newCompleted then Some (todayString c) else lastCompleted goal |}.

(** [toggleGoal] *)
Definition toggleGoal (c : Clock) (gid : string) (state : State) : State :=
  {| tasks := tasks state;
     goals := map (fun goal => if decide (id goal = gid)
                               then toggled c goal else goal) (goals state);
     timerMinutes := timerMinutes state;
     timerSeconds := timerSeconds state;
     isTimerRunning := isTimerRunning state |}.

End ToggleGoal.

(** [tickTimer] *)
Definition tickTimer (state : State) : State :=
  if (timerMinutes state =? 0) && (timerSeconds state =? 0) then
    {| tasks := tasks state;
       goals := goals state;
       timerMinutes := timerMinutes state;
       timerSeconds := timerSeconds state;
       isTimerRunning := false |}
  else if 0 <? timerSeconds state then
    {| tasks := tasks state;
       goals := goals state;
       timerMinutes := timerMinutes state;
       timerSeconds := timerSeconds state - 1;
       isTimerRunning := isTimerRunning state |}
  else
    {| tasks := tasks state;
       goals := goals state;
       timerMinutes := timerMinutes state - 1;
       timerSeconds := 59;
       isTimerRunning := isTimerRunning state |}.

(** [resetTimer] *)
Definition resetTimer (state : State) : State :=
  {| tasks := tasks state;
     goals := goals state;
     timerMinutes := 25;
     timerSeconds := 0;
     isTimerRunning := false |}.

(** The seconds left on the timer. *)
Definition secondsLeft (state : State) : Z :=
  60 * timerMinutes state + timerSeconds state.

End Simple.

(** A state of the first store: one task, one goal last completed the day
    before, and 1:05 left on a running timer. *)
Definition simpleClock : Simple.Clock :=
  {| Simple.todayString := "Mon Mar 04 2024";
     Simple.yesterdayString := "Sun Mar 03 2024" |}.

Definition simpleState : Simple.State :=
  {| Simple.tasks :=
       [{| Simple.taskId := "1709539200000";
           Simple.taskTitle := "Write the report";
           Simple.taskCompleted := false;
           Simple.priority := 2 |}];
     Simple.goals :=
       [{| Simple.id := "1709539200001";
           Simple.title := "Meditate";
           Simple.completed := false;
           Simple.streak := 3;
           Simple.lastCompleted := Some "Sun Mar 03 2024" |}];
     Simple.timerMinutes := 1;
     Simple.timerSeconds := 5;
     Simple.isTimerRunning := true |}.

(** ** The second store of [src/store.ts]: projects, tasks, ideas, resources
    and the focus timer *)

Module SDLCPhase.
Inductive t :=
  planning | analysis | design | implementation | testing | deployment
  | maintenance.

#[global] Instance eq_dec : EqDecision t.
Proof. solve_decision. Defined.
End SDLCPhase.

Module TimerMode.
Inductive t := focus | shortBreak | longBreak.
End TimerMode.

Module ResourceType.
Inductive t := image | document | link | audio | video | other.
End ResourceType.

Module Project.
Record t := mk {
  id : string;
  name : string;
  description : string;
  color : string;
  icon : string;
  createdAt : Date;
  isActive : bool
}.
End Project.

Module Task.
Record t := mk {
  id : string;
  title : string;
  description : string;
  completed : bool;
  priority : Z;
  phase : SDLCPhase.t;
  createdAt : Date;
  dueDate : option Date;
  projectId : string;
  ideaId : option string
}.
End Task.

Module Idea.
Record t := mk {
  id : string;
  projectId : string;
  title : string;
  description : string;
  phase : SDLCPhase.t;
  status : Status.t;
  priority : Z;
  tags : list string;
  createdAt : Date;
  updatedAt : Date
}.
End Idea.

Module Resource.
Record t := mk {
  id : string;
  projectId : string;
  title : string;
  url : option string;
  file : option (string * Z * string);
  type : ResourceType.t;
  description : string;
  tags : list string;
  createdAt : Date
}.
End Resource.

Module TimerSession.
Record t := mk {
  id : string;
  mode : TimerMode.t;
  duration : Z;
  completedAt : Date;
  focusType : option string
}.
End TimerSession.

Module Timer.
Record t := mk {
  currentTime : Z;
  isRunning : bool;
  mode : TimerMode.t;
  selectedDuration : Z;
  completedSessions : Z;
  totalFocusTime : Z
}.
End Timer.

Module FullStore.

(** The data that the project, task, idea, resource and timer actions read
    and write; [set] merges what an action returns into the state. *)
Record t := mk {
  projects : list Project.t;
  tasks : list Task.t;
  ideas : list Idea.t;
  resources : list Resource.t;
  dailyProgress : list DailyProgress.t;
  timer : Timer.t;
  timerHistory : list TimerSession.t;
  activeProjectId : string
}.

(** [s || d] on strings. *)
Definition orString (s d : string) : string :=
  match s with EmptyString => d | String _ _ => s end.

(** [newProjects[0]?.id || ''] *)
Definition firstProjectId (ps : list Project.t) : string :=
  match ps with
  | [] => EmptyString
  | p :: _ => orString (Project.id p) EmptyString
  end.

(** [deleteProject] *)
Definition deleteProject (pid : string) (state : t) : t :=
  let newProjects := filter (fun project => Project.id project ≠ pid)
                            (projects state) in
  {| projects := newProjects;
     tasks := filter (fun task => Task.projectId task ≠ pid) (tasks state);
     ideas := filter (fun idea => Idea.projectId idea ≠ pid) (ideas state);
     resources :=
       filter (fun resource => Resource.projectId resource ≠ pid)
              (resources state);
     dailyProgress := dailyProgress state;
     timer := timer state;
     timerHistory := timerHistory state;
     activeProjectId :=
       if decide (activeProjectId state = pid)
       then firstProjectId newProjects
       else activeProjectId state |}.

(** [deleteTask] *)
Definition deleteTask (tid : string) (state : t) : t :=
  {| projects := projects state;
     tasks := filter (fun task => Task.id task ≠ tid) (tasks state);
     ideas := ideas state;
     resources := resources state;
     dailyProgress := dailyProgress state;
     timer := timer state;
     timerHistory := timerHistory state;
     activeProjectId := activeProjectId state |}.

(** [deleteIdea] *)
Definition deleteIdea (iid : string) (state : t) : t :=
  {| projects := projects state;
     tasks := filter (fun task => Task.ideaId task ≠ Some iid) (tasks state);
     ideas := filter (fun idea => Idea.id idea ≠ iid) (ideas state);
     resources := resources state;
     dailyProgress := dailyProgress state;
     timer := timer state;
     timerHistory := timerHistory state;
     activeProjectId := activeProjectId state |}.

(** [{ ...task, completed: !task.completed }] *)
Definition flipTask (task : Task.t) : Task.t :=
  {| Task.id := Task.id task;
     Task.title := Task.title task;
     Task.description := Task.description task;
     Task.completed := negb (Task.completed task);
     Task.priority := Task.priority task;
     Task.phase := Task.phase task;
     Task.createdAt := Task.createdAt task;
     Task.dueDate := Task.dueDate task;
     Task.projectId := Task.projectId task;
     Task.ideaId := Task.ideaId task |}.

(** The task records of an entry after [toggleTask]: the first record of
    the task is flipped in place, or a completed record is pushed. *)
Fixpoint flipFirstRecord (tid : string) (l : list TaskProgress)
  : option (list TaskProgress) :=
  match l with
  | [] => None
  | r :: rest =>
      if decide (taskId r = tid)
      then Some ({| taskId := taskId r;
                    taskCompleted := negb (taskCompleted r) |} :: rest)
      else (fun rest' => r :: rest') <$> flipFirstRecord tid rest
  end.

Definition toggleTaskRecord (tid : string) (l : list TaskProgress)
  : list TaskProgress :=
  default (l ++ [{| taskId := tid; taskCompleted := true |}])
          (flipFirstRecord tid l).

(** The entry found by [dailyProgress.find(p => p.date === today)] is
    changed in place: the first entry of the day, the others as they are. *)
Fixpoint updateFirstDay (day : string)
    (f : DailyProgress.t -> DailyProgress.t) (ledger : list DailyProgress.t)
  : list DailyProgress.t :=
  match ledger with
  | [] => []
  | d :: rest =>
      if decide (DailyProgress.date d = day) then f d :: rest
      else d :: updateFirstDay day f rest
  end.

Definition withTasks (d : DailyProgress.t) (ts : list TaskProgress)
  : DailyProgress.t :=
  {| DailyProgress.date := DailyProgress.date d;
     DailyProgress.goals := DailyProgress.goals d;
     DailyProgress.tasks := ts |}.

(** [toggleTask] *)
Definition toggleTask (c : Clock) (tid : string) (state : t) : t :=
  {| projects := projects state;
     tasks := map (fun task => if decide (Task.id task = tid)
                               then flipTask task else task) (tasks state);
     ideas := ideas state;
     resources := resources state;
     dailyProgress :=
       updateFirstDay (today c)
         (fun d => withTasks d (toggleTaskRecord tid (DailyProgress.tasks d)))
         (dailyProgress state);
     timer := timer state;
     timerHistory := timerHistory state;
     activeProjectId := activeProjectId state |}.

(** The timer actions write [timer] and [timerHistory] only. *)
Definition withTimer (state : t) (tm : Timer.t)
    (history : list TimerSession.t) : t :=
  {| projects := projects state;
     tasks := tasks state;
     ideas := ideas state;
     resources := resources state;
     dailyProgress := dailyProgress state;
     timer := tm;
     timerHistory := history;
     activeProjectId := activeProjectId state |}.

(** [startTimer] *)
Definition startTimer (duration : Z) (mode : TimerMode.t) (state : t) : t :=
  withTimer state
    {| Timer.currentTime := duration;
       Timer.isRunning := true;
       Timer.mode := mode;
       Timer.selectedDuration := duration;
       Timer.completedSessions := Timer.completedSessions (timer state);
       Timer.totalFocusTime := Timer.totalFocusTime (timer state) |}
    (timerHistory state).

(** [pauseTimer] *)
Definition pauseTimer (state : t) : t :=
  withTimer state
    {| Timer.currentTime := Timer.currentTime (timer state);
       Timer.isRunning := false;
       Timer.mode := Timer.mode (timer state);
       Timer.selectedDuration := Timer.selectedDuration (timer state);
       Timer.completedSessions := Timer.completedSessions (timer state);
       Timer.totalFocusTime := Timer.totalFocusTime (timer state) |}
    (timerHistory state).

(** [resetTimer] *)
Definition resetTimer (state : t) : t :=
  withTimer state
    {| Timer.currentTime := Timer.selectedDuration (timer state);
       Timer.isRunning := false;
       Timer.mode := Timer.mode (timer state);
       Timer.selectedDuration := Timer.selectedDuration (timer state);
       Timer.completedSessions := Timer.completedSessions (timer state);
       Timer.totalFocusTime := Timer.totalFocusTime (timer state) |}
    (timerHistory state).

(** [completeTimer], which is also the branch of [tickTimer] at zero. *)
Definition completeTimer (c : Clock) (state : t) : t :=
  let newTotalTime :=
    Timer.totalFocusTime (timer state)
    + Timer.selectedDuration (timer state) in
  let newSession :=
    {| TimerSession.id := pretty (now c);
       TimerSession.mode := Timer.mode (timer state);
       TimerSession.duration := Timer.selectedDuration (timer state);
       TimerSession.completedAt := now c;
       TimerSession.focusType := None |} in
  withTimer state
    {| Timer.currentTime := 0;
       Timer.isRunning := false;
       Timer.mode := Timer.mode (timer state);
       Timer.selectedDuration := Timer.selectedDuration (timer state);
       Timer.completedSessions := Timer.completedSessions (timer state) + 1;
       Timer.totalFocusTime := newTotalTime |}
    (newSession :: timerHistory state).

(** [tickTimer] *)
Definition tickTimer (c : Clock) (state : t) : t :=
  if Timer.currentTime (timer state) <=? 0 then completeTimer c state
  else
    withTimer state
      {| Timer.currentTime := Timer.currentTime (timer state) - 1;
         Timer.isRunning := Timer.isRunning (timer state);
         Timer.mode := Timer.mode (timer state);
         Timer.selectedDuration := Timer.selectedDuration (timer state);
         Timer.completedSessions := Timer.completedSessions (timer state);
         Timer.totalFocusTime := Timer.totalFocusTime (timer state) |}
      (timerHistory state).

(** The timer actions of the store. *)
Inductive TimerAction :=
| StartTimer (duration : Z) (mode : TimerMode.t)
| PauseTimer
| ResetTimer
| TickTimer (c : Clock)
| CompleteTimer (c : Clock).

Definition timerStep (state : t) (a : TimerAction) : t :=
  match a with
  | StartTimer duration mode => startTimer duration mode state
  | PauseTimer => pauseTimer state
  | ResetTimer => resetTimer state
  | TickTimer c => tickTimer c state
  | CompleteTimer c => completeTimer c state
  end.

(** [getProjectStats] *)
Module ProjectStats.
Record t := mk {
  totalTasks : Z;
  completedTasks : Z;
  totalIdeas : Z;
  phaseCounts : SDLCPhase.t -> Z
}.
End ProjectStats.

(** [phaseCounts[idea.phase]++] *)
Definition bump (counts : SDLCPhase.t -> Z) (phase : SDLCPhase.t)
  : SDLCPhase.t -> Z :=
  fun p => if decide (p = phase) then counts p + 1 else counts p.

Definition getProjectStats (pid : string) (state : t) : ProjectStats.t :=
  let projectTasks :=
    filter (fun task => Task.projectId task = pid) (tasks state) in
  let projectIdeas :=
    filter (fun idea => Idea.projectId idea = pid) (ideas state) in
  {| ProjectStats.totalTasks := Z.of_nat (length projectTasks);
     ProjectStats.completedTasks :=
       Z.of_nat (length (List.filter Task.completed projectTasks));
     ProjectStats.totalIdeas := Z.of_nat (length projectIdeas);
     ProjectStats.phaseCounts :=
       foldl (fun counts idea => bump counts (Idea.phase idea))
             (fun _ => 0) projectIdeas |}.

(** The seven phases. *)
Definition allPhases : list SDLCPhase.t :=
  [SDLCPhase.planning; SDLCPhase.analysis; SDLCPhase.design;
   SDLCPhase.implementation; SDLCPhase.testing; SDLCPhase.deployment;
   SDLCPhase.maintenance].

End FullStore.

(** [deleteProject] of the [ProjectTracker] component of
    [src/FocusTimer.tsx], on its projects and active project. *)
Module ProjectTracker.

Record t := mk { projects : list Project.t; activeProjectId : string }.

Definition deleteProject (pid : string) (state : t) : t :=
  if (length (projects state) <=? 1)%nat then state
  else
    let remaining := filter (fun project => Project.id project ≠ pid)
                            (projects state) in
    {| projects := remaining;
       activeProjectId :=
         if decide (activeProjectId state = pid)
         then FullStore.firstProjectId remaining
         else activeProjectId state |}.

End ProjectTracker.

(** The active project is valid when it is one of the projects, or the
    empty id. *)
Definition validActive (ps : list Project.t) (active : string) : Prop :=
  active = EmptyString \/ active ∈ Project.id <$> ps.

(** The sessions of the history account for the counters of the timer. *)
Definition timerInv (state : FullStore.t) : Prop :=
  Timer.completedSessions (FullStore.timer state) =
    Z.of_nat (length (FullStore.timerHistory state)) /\
  Timer.totalFocusTime (FullStore.timer state) =
    foldr Z.add 0 (TimerSession.duration <$> FullStore.timerHistory state).

(** The sum of the counts of the seven phases. *)
Definition phaseTotal (counts : SDLCPhase.t -> Z) : Z :=
  foldr Z.add 0 (counts <$> FullStore.allPhases).

(** The projects of a first run, [defaultProjects]. *)
Definition defaultProjects (c : Clock) : list Project.t :=
  [{| Project.id := "default-1";
      Project.name := "Website Redesign";
      Project.description := "Create beautiful e-commerce site";
      Project.color := "#FF9BC9";
      Project.icon := "🌸";
      Project.createdAt := now c;
      Project.isActive := true |};
   {| Project.id := "default-2";
      Project.name := "Mindfulness App";
      Project.description := "Meditation and relaxation mobile app";
      Project.color := "#A1E8D9";
      Project.icon := "🧘‍♀️";
      Project.createdAt := now c;
      Project.isActive := true |}].

(** The second store at a first run, without its goals. *)
Definition initialStore (c : Clock) : FullStore.t :=
  {| FullStore.projects := defaultProjects c;
     FullStore.tasks := [];
     FullStore.ideas := [];
     FullStore.resources := [];
     FullStore.dailyProgress := [];
     FullStore.timer :=
       {| Timer.currentTime := 25 * 60;
          Timer.isRunning := false;
          Timer.mode := TimerMode.focus;
          Timer.selectedDuration := 25 * 60;
          Timer.completedSessions := 0;
          Timer.totalFocusTime := 0 |};
     FullStore.timerHistory := [];
     FullStore.activeProjectId :=
       FullStore.firstProjectId (defaultProjects c) |}.

(** The store with a task and an idea of the first project, and an entry of
    the ledger for the first sample day. *)
Definition sampleTask : Task.t :=
  {| Task.id := "t1";
     Task.title := "Draw the wireframes";
     Task.description := "";
     Task.completed := false;
     Task.priority := 2;
     Task.phase := SDLCPhase.design;
     Task.createdAt := now day1;
     Task.dueDate := None;
     Task.projectId := "default-1";
     Task.ideaId := Some "i1" |}.

Definition sampleIdea : Idea.t :=
  {| Idea.id := "i1";
     Idea.projectId := "default-1";
     Idea.title := "Landing page";
     Idea.description := "";
     Idea.phase := SDLCPhase.design;
     Idea.status := Status.active;
     Idea.priority := 2;
     Idea.tags := [];
     Idea.createdAt := now day1;
     Idea.updatedAt := now day1 |}.

Definition sampleDay : DailyProgress.t :=
  {| DailyProgress.date := today day1;
     DailyProgress.goals := [];
     DailyProgress.tasks := [] |}.

Definition sampleStore : FullStore.t :=
  {| FullStore.projects := defaultProjects day1;
     FullStore.tasks := [sampleTask];
     FullStore.ideas := [sampleIdea];
     FullStore.resources := [];
     FullStore.dailyProgress := [sampleDay];
     FullStore.timer := FullStore.timer (initialStore day1);
     FullStore.timerHistory := [];
     FullStore.activeProjectId := "default-1" |}.

Definition sampleTracker : ProjectTracker.t :=
  {| ProjectTracker.projects := defaultProjects day1;
     ProjectTracker.activeProjectId := "default-1" |}.

(** ** Stored goals that cannot be read *)

(** A stored goal that the [map] of [loadFromStorage] cannot read. *)
Definition unreadable (v : JSValue) : bool :=
  match v with JNull | JUndefined => true | _ => false end.

(* ================================================================= *)
(** * Theorems *)

(** ** The models of the runtime on known values *)

Example isoDate_known :
  isoDate 0 = "1970-01-01" /\
  isoDate (-1) = "1969-12-31" /\
  isoDate 951782400000 = "2000-02-29" /\
  isoDate 1735689599999 = "2024-12-31" /\
  isoDate 253402300800000 = "+010000-01-01".
Proof. vm_compute. done. Qed.

Example sample_days :
  today day1 = "2024-03-01" /\ yesterdayStr day1 = "2024-02-29" /\
  today day2 = "2024-03-02" /\ today day4 = "2024-03-04".
Proof. vm_compute. done. Qed.

Example JSON_parse_known :
  JSON_parse " [1, 2.5, true, null] "
    = Normal (JArray [JNumber (ofZ 1);
                      JNumber (S754_finite false 5629499534213120 (-51));
                      JBool true; JNull]) /\
  JSON_parse "{}" = Normal (JObject []) /\
  JSON_parse "0.1"
    = Normal (JNumber (S754_finite false 7205759403792794 (-56))) /\
  JSON_parse "[1,]" = Throw SyntaxError /\
  JSON_parse "01" = Throw SyntaxError /\
  JSON_parse EmptyString = Throw SyntaxError.
Proof. vm_compute. done. Qed.

(** ** Basic facts *)

Section Lookups.

Lemma find_id_None gid (l : list Goal.t) :
  List.find (fun g => bool_decide (Goal.id g = gid)) l = None <->
  Forall (fun g => Goal.id g ≠ gid) l.
Proof.
  induction l as [|g l IH]; simpl.
  - split; [constructor | reflexivity].
  - case_bool_decide as Hg.
    + split; [discriminate | intros H; inversion H; contradiction].
    + rewrite IH. split; [by constructor | by inversion 1].
Qed.

Lemma find_id_Some gid (l : list Goal.t) g :
  List.find (fun g => bool_decide (Goal.id g = gid)) l = Some g ->
  g ∈ l /\ Goal.id g = gid.
Proof.
  intros H. apply List.find_some in H as [Hin Hb].
  apply bool_decide_eq_true in Hb. by rewrite list_elem_of_In.
Qed.

Lemma findDay_None day ledger :
  findDay day ledger = None <->
  Forall (fun d => DailyProgress.date d ≠ day) ledger.
Proof.
  unfold findDay. induction ledger as [|d l IH]; simpl.
  - split; [constructor | reflexivity].
  - case_bool_decide as Hd.
    + split; [discriminate | intros H; inversion H; contradiction].
    + rewrite IH. split; [by constructor | by inversion 1].
Qed.

Lemma findDay_Some day ledger d :
  findDay day ledger = Some d -> DailyProgress.date d = day.
Proof.
  unfold findDay. intros H. apply List.find_some in H as [_ Hb].
  by apply bool_decide_eq_true in Hb.
Qed.

Lemma findRecord_None gid l :
  findRecord gid l = None <-> Forall (fun r => goalId r ≠ gid) l.
Proof.
  unfold findRecord. induction l as [|r l IH]; simpl.
  - split; [constructor | reflexivity].
  - case_bool_decide as Hr.
    + split; [discriminate | intros H; inversion H; contradiction].
    + rewrite IH. split; [by constructor | by inversion 1].
Qed.

Lemma completeProgressMap_absent c gid ledger :
  findDay (today c) ledger = None -> completeProgressMap c gid ledger = ledger.
Proof.
  rewrite findDay_None. unfold completeProgressMap.
  induction 1 as [|d l Hd _ IH]; simpl; [done|].
  rewrite IH. by rewrite decide_False.
Qed.

(** The undo branch changes nothing of a ledger without an entry for
    today. *)
Lemma undoProgress_absent c gid ledger :
  findDay (today c) ledger = None -> undoProgress c gid ledger = ledger.
Proof.
  rewrite findDay_None. unfold undoProgress.
  induction 1 as [|d l Hd _ IH]; simpl; [done|].
  rewrite IH. by rewrite decide_False.
Qed.

End Lookups.

(** The flag that the handler of the component reads in the
    [todayProgress] of its render. *)
Lemma Tracker_isCompletedToday rendered gid ledger :
  default false
    (g ← findRecord gid
           (DailyProgress.goals (Tracker.todayProgress rendered ledger));
     Some (completed g)) =
  isCompletedOn rendered gid ledger.
Proof.
  unfold Tracker.todayProgress, isCompletedOn, completedFlag.
  by destruct (findDay rendered ledger).
Qed.

(** The component, rendered on the day of the call, computes what the store
    computes. *)
Lemma Tracker_toggle_Store c gid state :
  Tracker.toggleGoalCompletion (today c) c gid state =
  Store.toggleGoalCompletion c gid state.
Proof.
  unfold Tracker.toggleGoalCompletion, Store.toggleGoalCompletion.
  destruct (List.find _ (goals state)); [|done].
  unfold Tracker.todayProgress.
  destruct (findDay (today c) (dailyProgress state)) as [p|] eqn:Hp; simpl.
  - done.
  - by rewrite completeProgressMap_absent.
Qed.

(** A render of an earlier day decides the branch by the entry of that
    day: the handler of a component rendered on 2024-03-01, called the day
    after, undoes the completion of the first day and leaves the ledger as
    it was. *)
Example stale_render_takes_undo_branch :
  let s1 := toggleCompletion (component (today day1)) day1 "g1" freshState in
  let s2 := toggleCompletion (component (today day1)) day2 "g1" s1 in
  Goal.streak <$> goals s1 !! 0%nat = Some 1 /\
  Goal.streak <$> goals s2 !! 0%nat = Some 0 /\
  Goal.currentCount <$> goals s2 !! 0%nat = Some 0 /\
  dailyProgress s2 = dailyProgress s1.
Proof. vm_compute. done. Qed.

Lemma hasGoal_find gid state :
  hasGoal gid state =
  bool_decide
    (is_Some (List.find (fun g => bool_decide (Goal.id g = gid))
                (goals state))).
Proof.
  unfold hasGoal.
  destruct (List.find _ (goals state)) as [g|] eqn:Hf.
  - apply find_id_Some in Hf as [Hin Hid].
    rewrite !bool_decide_eq_true_2; [done | by eexists |].
    apply Exists_exists; eauto.
  - apply find_id_None in Hf.
    rewrite !bool_decide_eq_false_2; [done | by intros [? [=]] |].
    intros Hex. apply Exists_exists in Hex as (g & Hin & Hid).
    rewrite Forall_forall in Hf. by apply (Hf g).
Qed.

(** A toggle, by cases on whether the goal exists. *)
Lemma toggleCompletion_unfold v c gid state :
  toggleCompletion v c gid state =
  if hasGoal gid state then
    {| goals :=
         map (fun g => if decide (Goal.id g = gid)
                       then toggleGoal v c gid state g else g) (goals state);
       dailyProgress := toggleProgress v c gid (dailyProgress state) |}
  else state.
Proof.
  rewrite hasGoal_find. destruct v as [|rendered]; simpl.
  - unfold Store.toggleGoalCompletion.
    destruct (List.find _ (goals state)) as [g|];
      [rewrite bool_decide_eq_true_2 by (by eexists)
      |by rewrite bool_decide_eq_false_2 by (by intros [? [=]])].
    unfold toggleProgress, toggleGoal, isCompletedOn, completedFlag,
      completeProgress. simpl.
    destruct (default false _); reflexivity.
  - unfold Tracker.toggleGoalCompletion.
    destruct (List.find _ (goals state)) as [g|];
      [rewrite bool_decide_eq_true_2 by (by eexists)
      |by rewrite bool_decide_eq_false_2 by (by intros [? [=]])].
    rewrite Tracker_isCompletedToday.
    unfold toggleProgress, toggleGoal, completeProgress. simpl.
    destruct (isCompletedOn rendered gid (dailyProgress state)); [done|].
    f_equal.
    destruct (findDay (today c) (dailyProgress state)) eqn:Hp; [done|].
    by rewrite completeProgressMap_absent.
Qed.

(** ** The goal list under a toggle *)

Lemma toggle_goals_lookup v c gid state i g :
  goals state !! i = Some g ->
  goals (toggleCompletion v c gid state) !! i =
  Some (if hasGoal gid state && bool_decide (Goal.id g = gid)
        then toggleGoal v c gid state g else g).
Proof.
  intros Hi. rewrite toggleCompletion_unfold.
  destruct (hasGoal gid state); simpl; [|done].
  rewrite list_lookup_fmap, Hi. simpl.
  by destruct (decide (Goal.id g = gid));
    [rewrite bool_decide_eq_true_2 | rewrite bool_decide_eq_false_2].
Qed.

Lemma toggle_goals_length v c gid state :
  length (goals (toggleCompletion v c gid state)) = length (goals state).
Proof.
  rewrite toggleCompletion_unfold.
  destruct (hasGoal gid state); simpl; [apply length_map | done].
Qed.

Lemma hasGoal_lookup gid state i g :
  goals state !! i = Some g -> Goal.id g = gid -> hasGoal gid state = true.
Proof.
  intros Hi Hid. apply bool_decide_eq_true_2, Exists_exists.
  exists g. split; [|done]. by eapply list_elem_of_lookup_2.
Qed.

Lemma toggleGoal_id v c gid state g :
  Goal.id (toggleGoal v c gid state g) = Goal.id g.
Proof. unfold toggleGoal. by destruct (isCompletedOn _ _ _). Qed.

(** The toggled goal, when it exists. *)
Lemma toggle_goals_lookup_eq v c gid state i g :
  goals state !! i = Some g -> Goal.id g = gid ->
  goals (toggleCompletion v c gid state) !! i =
  Some (toggleGoal v c gid state g).
Proof.
  intros Hi Hid. rewrite (toggle_goals_lookup _ _ _ _ _ _ Hi).
  rewrite (hasGoal_lookup _ _ _ _ Hi Hid).
  by rewrite bool_decide_eq_true_2.
Qed.

Lemma toggle_goals_lookup_ne v c gid state i g :
  goals state !! i = Some g -> Goal.id g ≠ gid ->
  goals (toggleCompletion v c gid state) !! i = Some g.
Proof.
  intros Hi Hid. rewrite (toggle_goals_lookup _ _ _ _ _ _ Hi).
  rewrite bool_decide_eq_false_2 by done. by rewrite andb_false_r.
Qed.

(** ** Streak arithmetic of one toggle *)

Lemma undoGoal_inv g : streakInv g -> streakInv (undoGoal g).
Proof. unfold streakInv, undoGoal. simpl. destruct (Z.ltb_spec 0 (Goal.streak g)); lia. Qed.

Lemma completeGoal_inv c ledger gid g :
  streakInv g -> streakInv (completeGoal c ledger gid g).
Proof.
  unfold streakInv, completeGoal. simpl.
  destruct (isCompletedOn _ _ _); lia.
Qed.

Lemma toggleGoal_inv v c gid state g :
  streakInv g -> streakInv (toggleGoal v c gid state g).
Proof.
  unfold toggleGoal. destruct (isCompletedOn _ _ _);
    [apply undoGoal_inv | apply completeGoal_inv].
Qed.

Lemma toggleGoal_best_mono v c gid state g :
  Goal.bestStreak g <= Goal.bestStreak (toggleGoal v c gid state g).
Proof.
  unfold toggleGoal, undoGoal, completeGoal.
  destruct (isCompletedOn _ _ _); simpl; lia.
Qed.

(** ** Sequences of toggles *)

Lemma run_snoc ops (op : Call) state :
  run (ops ++ [op]) state =
  toggleCompletion op.1.1 op.1.2 op.2 (run ops state).
Proof. unfold run. by rewrite foldl_app. Qed.

Lemma toggle_step_inv v c gid state i g :
  goals state !! i = Some g -> streakInv g ->
  exists g', goals (toggleCompletion v c gid state) !! i = Some g' /\
             Goal.id g' = Goal.id g /\ streakInv g' /\
             Goal.bestStreak g <= Goal.bestStreak g'.
Proof.
  intros Hi Hinv. rewrite (toggle_goals_lookup _ _ _ _ _ _ Hi).
  destruct (hasGoal gid state && bool_decide (Goal.id g = gid)).
  - eexists. split; [done|].
    auto using toggleGoal_id, toggleGoal_inv, toggleGoal_best_mono.
  - exists g. split; [done|]. split; [done|]. split; [done|]. lia.
Qed.

Lemma run_inv ops : forall state i g,
  goals state !! i = Some g -> streakInv g ->
  exists g', goals (run ops state) !! i = Some g' /\
             Goal.id g' = Goal.id g /\ streakInv g'.
Proof.
  induction ops as [|[[v c] gid] ops IH]; intros state i g Hi Hinv; simpl.
  - by exists g.
  - destruct (toggle_step_inv v c gid state i g Hi Hinv)
      as (g1 & Hi1 & Hid1 & Hinv1 & _).
    destruct (IH _ _ _ Hi1 Hinv1) as (g' & Hi' & Hid' & Hinv').
    exists g'. split; [done|]. split; [congruence | done].
Qed.

(** ** The ledger under a toggle *)

Lemma withGoals_date day gs :
  DailyProgress.date (withGoals day gs) = DailyProgress.date day.
Proof. reflexivity. Qed.

Lemma completeDay_date gid day :
  DailyProgress.date (completeDay gid day) = DailyProgress.date day.
Proof. unfold completeDay. by destruct (findRecord _ _). Qed.

(** A [map] that rewrites the entries of one day only. *)
Lemma map_day_lookup (f : DailyProgress.t -> DailyProgress.t) day ledger i d :
  (forall x, DailyProgress.date (f x) = DailyProgress.date x) ->
  DailyProgress.date d ≠ day ->
  map (fun x => if decide (DailyProgress.date x = day) then f x else x) ledger
    !! i = Some d <->
  ledger !! i = Some d.
Proof.
  intros Hf Hd. rewrite list_lookup_fmap.
  destruct (ledger !! i) as [x|]; simpl; [|done].
  destruct (decide (DailyProgress.date x = day)) as [Hx|Hx].
  - split; intros [= <-]; exfalso; apply Hd; [by rewrite Hf | done].
  - done.
Qed.

Lemma toggleProgress_frame v c gid ledger i d :
  DailyProgress.date d ≠ today c ->
  toggleProgress v c gid ledger !! i = Some d <-> ledger !! i = Some d.
Proof.
  intros Hd. unfold toggleProgress, undoProgress, completeProgress,
    completeProgressMap.
  destruct (isCompletedOn _ _ _).
  - apply (map_day_lookup
             (fun x => withGoals x (setFlag gid false (DailyProgress.goals x))));
      [done | done].
  - destruct (findDay _ _).
    + apply (map_day_lookup (completeDay gid));
        [intros x; apply completeDay_date | done].
    + split.
      * intros H. apply lookup_app_Some in H as [H|[_ H]]; [done|].
        apply list_lookup_singleton_Some in H as [_ <-]. by destruct Hd.
      * intros H. by apply lookup_app_l_Some.
Qed.

Lemma toggle_ledger v c gid state :
  dailyProgress (toggleCompletion v c gid state) =
  if hasGoal gid state then toggleProgress v c gid (dailyProgress state)
  else dailyProgress state.
Proof. rewrite toggleCompletion_unfold. by destruct (hasGoal _ _). Qed.

(** ** Reading the ledger after a toggle *)

Section FindByKey.

Context {A : Type} (key : A -> string).

Lemma find_key_map (f : A -> A) k l :
  (forall x, key (f x) = key x) ->
  List.find (fun x => bool_decide (key x = k)) (map f l) =
  f <$> List.find (fun x => bool_decide (key x = k)) l.
Proof.
  intros Hf. induction l as [|x l IH]; simpl; [done|].
  rewrite Hf. by destruct (bool_decide (key x = k)).
Qed.

Lemma find_key_app k l1 l2 :
  List.find (fun x => bool_decide (key x = k)) (l1 ++ l2) =
  match List.find (fun x => bool_decide (key x = k)) l1 with
  | Some x => Some x
  | None => List.find (fun x => bool_decide (key x = k)) l2
  end.
Proof.
  induction l1 as [|x l1 IH]; simpl; [done|].
  by destruct (bool_decide (key x = k)).
Qed.

(** A [map] that only rewrites elements with another key. *)
Lemma find_key_map_other (f : A -> A) k k' l :
  (forall x, key (f x) = key x) -> k ≠ k' ->
  List.find (fun x => bool_decide (key x = k))
    (map (fun x => if decide (key x = k') then f x else x) l) =
  List.find (fun x => bool_decide (key x = k)) l.
Proof.
  intros Hf Hk. induction l as [|x l IH]; simpl; [done|].
  destruct (decide (key x = k')) as [Hx|Hx].
  - rewrite Hf, IH. rewrite !bool_decide_eq_false_2 by congruence. done.
  - rewrite IH. done.
Qed.

End FindByKey.

Lemma findRecord_setFlag gid gid' b l :
  findRecord gid (setFlag gid' b l) =
  (fun r => if decide (goalId r = gid')
            then {| goalId := goalId r; completed := b |} else r)
    <$> findRecord gid l.
Proof.
  unfold findRecord, setFlag. apply (find_key_map goalId).
  intros r. by destruct (decide _).
Qed.

Lemma completedFlag_other_day v c gid gid' day ledger :
  day ≠ today c ->
  completedFlag day gid' (toggleProgress v c gid ledger) =
  completedFlag day gid' ledger.
Proof.
  intros Hday. unfold completedFlag. f_equal.
  unfold toggleProgress, undoProgress, completeProgress, completeProgressMap,
    findDay.
  destruct (isCompletedOn _ _ _).
  - by apply (find_key_map_other DailyProgress.date
                (fun x => withGoals x (setFlag gid false (DailyProgress.goals x)))).
  - destruct (List.find _ ledger) eqn:Hf.
    + apply (find_key_map_other DailyProgress.date (completeDay gid));
        [intros x; apply completeDay_date | done].
    + rewrite (find_key_app DailyProgress.date). simpl.
      rewrite bool_decide_eq_false_2 by done.
      by destruct (List.find (fun x => bool_decide (DailyProgress.date x = day))
                     ledger).
Qed.

Lemma isCompletedOn_other_day v c gid gid' day ledger :
  day ≠ today c ->
  isCompletedOn day gid' (toggleProgress v c gid ledger) =
  isCompletedOn day gid' ledger.
Proof.
  intros Hday. unfold isCompletedOn.
  by rewrite completedFlag_other_day.
Qed.

Lemma findRecord_id gid l r : findRecord gid l = Some r -> goalId r = gid.
Proof.
  unfold findRecord. intros Hr. apply List.find_some in Hr as [_ Hb].
  by apply bool_decide_eq_true in Hb.
Qed.

(** After the undo branch the ledger does not show the goal completed
    today. *)
Lemma isCompletedOn_undoProgress c gid ledger :
  isCompletedOn (today c) gid (undoProgress c gid ledger) = false.
Proof.
  unfold isCompletedOn, completedFlag, undoProgress, findDay.
  rewrite (find_key_map DailyProgress.date)
    by (intros x; by destruct (decide _)).
  fold (findDay (today c) ledger).
  destruct (findDay (today c) ledger) as [p|] eqn:Hp; simpl; [|done].
  rewrite decide_True by (by eapply findDay_Some).
  simpl. rewrite findRecord_setFlag.
  destruct (findRecord gid (DailyProgress.goals p)) as [r|] eqn:Hr; simpl;
    [|done].
  by rewrite decide_True by (by eapply findRecord_id).
Qed.

(** After the mark-as-completed branch it does. *)
Lemma isCompletedOn_completeProgress c gid ledger :
  isCompletedOn (today c) gid (completeProgress c gid ledger) = true.
Proof.
  unfold isCompletedOn, completedFlag, completeProgress.
  destruct (findDay (today c) ledger) as [p|] eqn:Hp.
  - unfold completeProgressMap, findDay.
    rewrite (find_key_map DailyProgress.date)
      by (intros x; destruct (decide _); [apply completeDay_date | done]).
    fold (findDay (today c) ledger). rewrite Hp. simpl.
    rewrite decide_True by (by eapply findDay_Some).
    unfold completeDay.
    destruct (findRecord gid (DailyProgress.goals p)) as [r|] eqn:Hr; simpl.
    + rewrite findRecord_setFlag, Hr. simpl.
      by rewrite decide_True by (by eapply findRecord_id).
    + unfold findRecord. rewrite (find_key_app goalId).
      fold (findRecord gid (DailyProgress.goals p)). rewrite Hr. simpl.
      by rewrite bool_decide_eq_true_2.
  - unfold findDay. rewrite (find_key_app DailyProgress.date).
    fold (findDay (today c) ledger). rewrite Hp. simpl.
    rewrite bool_decide_eq_true_2 by done. simpl.
    by rewrite bool_decide_eq_true_2.
Qed.

(** After a toggle the ledger shows for today the contrary of what the
    entry that decided the branch showed. *)
Lemma isCompletedOn_toggle v c gid ledger :
  isCompletedOn (today c) gid (toggleProgress v c gid ledger) =
  negb (isCompletedOn (decisionDay v c) gid ledger).
Proof.
  unfold toggleProgress.
  destruct (isCompletedOn (decisionDay v c) gid ledger); simpl.
  - apply isCompletedOn_undoProgress.
  - apply isCompletedOn_completeProgress.
Qed.

(** The goal at position [i] and the ledger after a toggle of its id. *)
Lemma toggle_at v c gid state i g :
  goals state !! i = Some g -> Goal.id g = gid ->
  goals (toggleCompletion v c gid state) !! i =
    Some (toggleGoal v c gid state g) /\
  dailyProgress (toggleCompletion v c gid state) =
    toggleProgress v c gid (dailyProgress state).
Proof.
  intros Hi Hid. split; [by apply toggle_goals_lookup_eq|].
  by rewrite toggle_ledger, (hasGoal_lookup _ _ _ _ Hi Hid).
Qed.

(* ================================================================= *)
(** * The toggle *)

(** C8.  A toggle whose goal id matches no goal of the state is a no-op: the
    state (goal list and daily-progress ledger) is returned as it was, and
    nothing is raised (the call returns a state). *)
Theorem toggle_unknown_goal_noop v c gid state :
  Forall (fun g => Goal.id g ≠ gid) (goals state) ->
  toggleCompletion v c gid state = state.
Proof.
  intros Hnone. rewrite toggleCompletion_unfold, hasGoal_find.
  apply find_id_None in Hnone. rewrite Hnone.
  by rewrite bool_decide_eq_false_2 by (by intros [? [=]]).
Qed.

Lemma toggle_unknown_goal_noop_witness :
  toggleCompletion (component (today day1)) day1 "no such goal"
    (defaultState day1) =
  defaultState day1.
Proof.
  apply (toggle_unknown_goal_noop (component (today day1)) day1
           "no such goal" (defaultState day1)).
  repeat constructor; discriminate.
Defined.

(** C10.  A toggle of [gid] leaves every goal whose id is not [gid] as it
    was, at its position, and leaves every ledger entry whose date is not
    today as it was, at its position; it adds no entry of another day. *)
Theorem toggle_frame v c gid state :
  length (goals (toggleCompletion v c gid state)) = length (goals state) /\
  (forall i g, goals state !! i = Some g -> Goal.id g ≠ gid ->
     goals (toggleCompletion v c gid state) !! i = Some g) /\
  (forall i d, DailyProgress.date d ≠ today c ->
     (dailyProgress (toggleCompletion v c gid state) !! i = Some d <->
      dailyProgress state !! i = Some d)).
Proof.
  split; [apply toggle_goals_length|].
  split; [intros i g; apply toggle_goals_lookup_ne|].
  intros i d Hd. rewrite toggle_ledger.
  destruct (hasGoal gid state); [by apply toggleProgress_frame | done].
Qed.

Lemma toggle_frame_witness :
  goals (toggleCompletion (component (today day1)) day1 "1"
           (defaultState day1)) !! 1%nat
    = goals (defaultState day1) !! 1%nat /\
  (dailyProgress (toggleCompletion store day2 "g1"
                    (toggleCompletion store day1 "g1" freshState)) !! 0%nat
     = Some (newDay day1 "g1") <->
   dailyProgress (toggleCompletion store day1 "g1" freshState) !! 0%nat
     = Some (newDay day1 "g1")).
Proof.
  split.
  - destruct (goals (defaultState day1) !! 1%nat) as [g|] eqn:Hg;
      [|discriminate].
    apply (proj1 (proj2 (toggle_frame (component (today day1)) day1 "1"
                           (defaultState day1)))
             1%nat g Hg).
    injection Hg as <-. discriminate.
  - apply (proj2 (proj2 (toggle_frame store day2 "g1"
                           (toggleCompletion store day1 "g1" freshState)))
             0%nat (newDay day1 "g1")).
    vm_compute. discriminate.
Defined.

(** C7.  Along every sequence of toggles, a goal whose streak is not
    negative, as the streak 0 of a new goal, keeps a streak that is not
    negative after every call. *)
Theorem streak_nonnegative state i g (ops : list Call) :
  goals state !! i = Some g ->
  0 <= Goal.streak g ->
  exists g', goals (run ops state) !! i = Some g' /\
             Goal.id g' = Goal.id g /\ 0 <= Goal.streak g'.
Proof.
  revert state g.
  induction ops as [|[[v c] gid] ops IH]; intros state g Hi Hpos; simpl.
  - by exists g.
  - pose proof (toggle_goals_lookup v c gid state i g Hi) as Hi1.
    destruct (IH _ _ Hi1) as (g' & Hi' & Hid' & Hpos').
    + destruct (_ && _); [|done].
      unfold toggleGoal, undoGoal, completeGoal.
      destruct (isCompletedOn (decisionDay v c) _ _); simpl.
      * destruct (Z.ltb_spec 0 (Goal.streak g)); lia.
      * destruct (isCompletedOn _ _ _); lia.
    + exists g'. split; [done|]. split; [|done].
      rewrite Hid'. destruct (_ && _); [apply toggleGoal_id | done].
Qed.

Lemma streak_nonnegative_witness :
  exists g',
    goals (run [(store, day1, "g1"); (store, day1, "g1");
                (component (today day1), day2, "g1")]
               freshState) !! 0%nat = Some g' /\
    Goal.id g' = "g1" /\ 0 <= Goal.streak g'.
Proof.
  apply (streak_nonnegative freshState 0%nat freshGoal
           [(store, day1, "g1"); (store, day1, "g1");
            (component (today day1), day2, "g1")]).
  - reflexivity.
  - simpl. lia.
Defined.

(** C4.  Along every sequence of toggles, for a goal that starts with
    [0 <= streak <= bestStreak], as the 0 and 0 of a new goal: after each
    call [bestStreak >= streak]; [bestStreak] after a call is at least what
    it was before the call; and a call that takes the undo branch leaves
    [bestStreak] as it was. *)
Theorem bestStreak_high_water_mark state i g (ops : list Call) (op : Call) :
  goals state !! i = Some g ->
  0 <= Goal.streak g <= Goal.bestStreak g ->
  exists g1 g2,
    goals (run ops state) !! i = Some g1 /\
    goals (run (ops ++ [op]) state) !! i = Some g2 /\
    Goal.streak g1 <= Goal.bestStreak g1 /\
    Goal.streak g2 <= Goal.bestStreak g2 /\
    Goal.bestStreak g1 <= Goal.bestStreak g2 /\
    (isCompletedOn (decisionDay op.1.1 op.1.2) op.2
       (dailyProgress (run ops state)) = true ->
     Goal.bestStreak g2 = Goal.bestStreak g1).
Proof.
  intros Hi Hinv.
  destruct (run_inv ops state i g Hi Hinv) as (g1 & Hi1 & _ & Hinv1).
  exists g1. rewrite run_snoc.
  rewrite (toggle_goals_lookup _ _ _ _ _ _ Hi1).
  eexists. split; [done|]. split; [done|].
  destruct (_ && _).
  - pose proof (toggleGoal_inv op.1.1 op.1.2 op.2 (run ops state) g1 Hinv1)
      as Hinv2.
    pose proof (toggleGoal_best_mono op.1.1 op.1.2 op.2 (run ops state) g1).
    unfold streakInv in *. split; [lia|]. split; [lia|]. split; [lia|].
    intros Hundo. unfold toggleGoal. by rewrite Hundo.
  - unfold streakInv in *. split; [lia|]. split; [lia|]. split; [lia|]. done.
Qed.

Lemma bestStreak_high_water_mark_witness :
  exists g1 g2,
    goals (run [(store, day1, "g1"); (store, day2, "g1")] freshState)
      !! 0%nat = Some g1 /\
    goals (run ([(store, day1, "g1"); (store, day2, "g1")]
                ++ [(component (today day2), day2, "g1")])
               freshState) !! 0%nat = Some g2 /\
    Goal.streak g1 <= Goal.bestStreak g1 /\
    Goal.streak g2 <= Goal.bestStreak g2 /\
    Goal.bestStreak g1 <= Goal.bestStreak g2 /\
    (isCompletedOn
       (decisionDay (component (today day2), day2, "g1").1.1
                    (component (today day2), day2, "g1").1.2)
       (component (today day2), day2, "g1").2
       (dailyProgress
          (run [(store, day1, "g1"); (store, day2, "g1")] freshState))
       = true ->
     Goal.bestStreak g2 = Goal.bestStreak g1).
Proof.
  apply (bestStreak_high_water_mark freshState 0%nat freshGoal
           [(store, day1, "g1"); (store, day2, "g1")]
           (component (today day2), day2, "g1")).
  - reflexivity.
  - simpl. lia.
Defined.

(** The streak of the mark-as-completed branch, which a call takes when the
    entry that decides (of today in the store, of the day of the render in
    the component) does not show the goal completed: [streak + 1] when the
    ledger shows the goal completed on the day before, and 1 otherwise. *)
Lemma complete_branch_streak v c gid state i g :
  goals state !! i = Some g -> Goal.id g = gid ->
  isCompletedOn (decisionDay v c) gid (dailyProgress state) = false ->
  exists g',
    goals (toggleCompletion v c gid state) !! i = Some g' /\
    Goal.streak g' =
      (if isCompletedOn (yesterdayStr c) gid (dailyProgress state)
       then Goal.streak g + 1 else 1) /\
    Goal.bestStreak g' = Z.max (Goal.bestStreak g) (Goal.streak g').
Proof.
  intros Hi Hid Hnot.
  destruct (toggle_at v c gid state i g Hi Hid) as [Hg _].
  eexists. split; [exact Hg|].
  unfold toggleGoal. rewrite Hnot. done.
Qed.

(** The key of yesterday is taken with [setDate] in local time and read in
    UTC.  On the clock [londonNight] it is the key of today, and a goal
    completed on 2024-03-30 and toggled then, for 2024-03-31, starts a new
    streak in the store as well. *)
Example yesterday_key_of_a_short_day :
  let s1 :=
    toggleCompletion store (clockAt 1711800000000) "g1" freshState in
  let s2 := toggleCompletion store londonNight "g1" s1 in
  today (clockAt 1711800000000) = "2024-03-30" /\
  today londonNight = "2024-03-31" /\
  yesterdayStr londonNight = "2024-03-31" /\
  isCompletedOn "2024-03-30" "g1" (dailyProgress s1) = true /\
  Goal.streak <$> goals s2 !! 0%nat = Some 1.
Proof. vm_compute. done. Qed.

(** C1.  The store does what the claim says: a new goal toggled on
    2024-03-01, on 2024-03-02 and on 2024-03-04 has streak and best streak
    1 and 1, then 2 and 2, then 1 and 2.  The component does not: its
    handler decides the branch from the [todayProgress] of its render.  On
    a page rendered last on 2024-03-01, by the toggle of that day, the
    ledger on 2024-03-02 shows the goal completed yesterday and not
    completed today, and yet the call takes the undo branch: streak 0 and
    counter 0 instead of streak 2, and nothing is recorded for the day. *)
Theorem chained_streak_stale_render :
  let counters (state : State) :=
    (fun g => (Goal.streak g, Goal.bestStreak g, Goal.currentCount g))
      <$> goals state !! 0%nat in
  let t1 := toggleCompletion store day1 "g1" freshState in
  let t2 := toggleCompletion store day2 "g1" t1 in
  let t4 := toggleCompletion store day4 "g1" t2 in
  let s1 := toggleCompletion (component (today day1)) day1 "g1" freshState in
  let s2 := toggleCompletion (component (today day1)) day2 "g1" s1 in
  (counters t1 = Some (1, 1, 1) /\ counters t2 = Some (2, 2, 2) /\
   counters t4 = Some (1, 2, 3)) /\
  s1 = t1 /\
  isCompletedOn (today day2) "g1" (dailyProgress s1) = false /\
  isCompletedOn (yesterdayStr day2) "g1" (dailyProgress s1) = true /\
  counters s2 = Some (0, 1, 0) /\
  dailyProgress s2 = dailyProgress s1.
Proof. vm_compute. done. Qed.

(** C6, as the claim states it, fails: the undo branch tests the counter
    before the decrement against 1.  With a counter of 0 the resulting
    counter is 0 and [lastCompleted] is kept. *)
Lemma undo_keeps_timestamp_at_zero :
  Goal.currentCount <$>
    goals (toggleCompletion store day1 "g1" zeroCountState) !! 0%nat = Some 0 /\
  Goal.lastCompleted <$>
    goals (toggleCompletion store day1 "g1" zeroCountState) !! 0%nat
    = Some (Some 1709280000000) /\
  isCompletedOn (today day1) "g1" (dailyProgress zeroCountState) = true.
Proof. vm_compute. done. Qed.

(** C6, amended.  For a goal the ledger shows completed today (in the entry
    that decides the branch: of today in the store and in a component
    rendered today, of the day of the render otherwise), the undo
    branch sets [currentCount] to [max 0 (currentCount - 1)], and sets
    [lastCompleted] to null exactly when [currentCount] was 1 before the
    call; otherwise [lastCompleted] keeps its value.  When [currentCount]
    was at least 1, this is: null if and only if the resulting
    [currentCount] is 0. *)
Theorem undo_count_and_timestamp v c gid state i g :
  goals state !! i = Some g -> Goal.id g = gid ->
  isCompletedOn (decisionDay v c) gid (dailyProgress state) = true ->
  exists g',
    goals (toggleCompletion v c gid state) !! i = Some g' /\
    Goal.currentCount g' = Z.max 0 (Goal.currentCount g - 1) /\
    Goal.lastCompleted g' =
      (if Goal.currentCount g =? 1 then None else Goal.lastCompleted g) /\
    (1 <= Goal.currentCount g ->
     Goal.lastCompleted g' =
       if Goal.currentCount g' =? 0 then None else Goal.lastCompleted g).
Proof.
  intros Hi Hid Hdone.
  destruct (toggle_at v c gid state i g Hi Hid) as [Hg _].
  eexists. split; [exact Hg|].
  unfold toggleGoal. rewrite Hdone. simpl.
  split; [done|]. split; [done|]. intros Hc.
  destruct (Z.eqb_spec (Goal.currentCount g) 1) as [->|Hne]; [done|].
  rewrite (proj2 (Z.eqb_neq _ 0)) by lia. done.
Qed.

Lemma undo_count_and_timestamp_witness :
  exists g',
    goals (toggleCompletion (component (today day1)) day1 "2"
             (defaultState day1)) !! 1%nat
      = Some g' /\
    Goal.currentCount g' = Z.max 0 (2 - 1) /\
    Goal.lastCompleted g' = Some (now day1) /\
    (1 <= 2 ->
     Goal.lastCompleted g' =
       if Goal.currentCount g' =? 0 then None else Some (now day1)).
Proof.
  destruct (undo_count_and_timestamp (component (today day1)) day1 "2"
              (defaultState day1) 1%nat
              {| Goal.id := "2";
                 Goal.title := "Morning Gym Session";
                 Goal.description := "Workout for 45 minutes";
                 Goal.category := health;
                 Goal.frequency := weekly;
                 Goal.status := Status.active;
                 Goal.targetCount := 3;
                 Goal.currentCount := 2;
                 Goal.streak := 3;
                 Goal.bestStreak := 5;
                 Goal.color := "#A1E8D9";
                 Goal.icon := "🏋️‍♀️";
                 Goal.createdAt := 1704412800000;
                 Goal.lastCompleted := Some (now day1);
                 Goal.history :=
                   weekHistory day1
                     (fun i => (i =? 0) || (i =? 2) || (i =? 4)) |})
    as (g' & Hg' & Hc & Hl & Hl'); [reflexivity | reflexivity | reflexivity |].
  exists g'. split; [exact Hg'|]. split; [exact Hc|]. split; [exact Hl|].
  exact Hl'.
Defined.

(** C2, as the claim states it, fails on the streak: on a first run of the
    component the goal "1" has streak 2 and is completed today, with no
    entry for yesterday; two toggles leave streak 1. *)
Lemma toggle_twice_loses_streak :
  Goal.streak <$> goals (defaultState day1) !! 0%nat = Some 2 /\
  Goal.streak <$>
    goals (toggleCompletion (component (today day1)) day1 "1"
             (toggleCompletion (component (today day1)) day1 "1"
                (defaultState day1)))
      !! 0%nat = Some 1.
Proof. vm_compute. done. Qed.

(** C2, amended.  Two toggles of an existing goal in immediate succession
    on the same day, each made with the entry of today in hand (as the
    store always is, and a handler of the component when its render is of
    that day), restore what the ledger says of the goal today; they
    restore [currentCount] when it was at least 0 (at least 1 for a goal
    completed today); they restore [streak] when the ledger shows the goal
    completed yesterday and [streak] was at least 0 (at least 1 for a goal
    completed today), and otherwise leave streak 0 (1 for a goal completed
    today); [bestStreak] may stay higher and is never lower. *)
Theorem toggle_twice v1 v2 c1 c2 gid state i g :
  goals state !! i = Some g -> Goal.id g = gid ->
  today c2 = today c1 -> yesterdayStr c2 = yesterdayStr c1 ->
  yesterdayStr c1 ≠ today c1 ->
  decisionDay v1 c1 = today c1 -> decisionDay v2 c2 = today c2 ->
  let s2 := toggleCompletion v2 c2 gid (toggleCompletion v1 c1 gid state) in
  let doneToday := isCompletedOn (today c1) gid (dailyProgress state) in
  let chained := isCompletedOn (yesterdayStr c1) gid (dailyProgress state) in
  let least := if doneToday then 1 else 0 in
  exists g2,
    goals s2 !! i = Some g2 /\
    isCompletedOn (today c1) gid (dailyProgress s2) = doneToday /\
    (least <= Goal.currentCount g ->
     Goal.currentCount g2 = Goal.currentCount g) /\
    (chained = true -> least <= Goal.streak g ->
     Goal.streak g2 = Goal.streak g) /\
    (chained = false -> Goal.streak g2 = least) /\
    Goal.bestStreak g <= Goal.bestStreak g2.
Proof.
  intros Hi Hid Ht Hy Hyt Hv1 Hv2 s2 doneToday chained least.
  destruct (toggle_at v1 c1 gid state i g Hi Hid) as [Hg1 Hl1].
  set (s1 := toggleCompletion v1 c1 gid state) in *.
  set (g1 := toggleGoal v1 c1 gid state g) in *.
  assert (Hid1 : Goal.id g1 = gid)
    by (unfold g1; by rewrite toggleGoal_id).
  destruct (toggle_at v2 c2 gid s1 i g1 Hg1 Hid1) as [Hg2 Hl2].
  fold s2 in Hg2, Hl2.
  assert (Hd1 : isCompletedOn (today c1) gid (dailyProgress s1) =
                negb doneToday)
    by (by rewrite Hl1, isCompletedOn_toggle, Hv1).
  exists (toggleGoal v2 c2 gid s1 g1). split; [exact Hg2|].
  split.
  { rewrite Hl2, <- Ht, isCompletedOn_toggle, Hv2, Ht, Hd1.
    apply negb_involutive. }
  unfold g1, toggleGoal. rewrite Hv1, Hv2, Ht, Hd1.
  fold doneToday. unfold completeGoal.
  rewrite Hy, Hl1.
  rewrite (isCompletedOn_other_day v1 c1 gid gid (yesterdayStr c1)) by done.
  fold chained. subst least.
  destruct doneToday, chained; simpl;
    repeat split; intros; try discriminate;
    repeat match goal with
      | |- context [0 <? ?x] => destruct (Z.ltb_spec 0 x)
      end; lia.
Qed.

Lemma toggle_twice_witness :
  exists g2,
    goals (toggleCompletion (component (today day2)) day2a "g1"
             (toggleCompletion store day2 "g1"
                (toggleCompletion store day1 "g1" freshState))) !! 0%nat
      = Some g2 /\
    isCompletedOn (today day2) "g1"
      (dailyProgress
         (toggleCompletion (component (today day2)) day2a "g1"
            (toggleCompletion store day2 "g1"
               (toggleCompletion store day1 "g1" freshState)))) = false /\
    (0 <= 1 -> Goal.currentCount g2 = 1) /\
    (true = true -> 0 <= 1 -> Goal.streak g2 = 1) /\
    (true = false -> Goal.streak g2 = 0) /\
    1 <= Goal.bestStreak g2.
Proof.
  destruct (toggle_twice store (component (today day2)) day2 day2a "g1"
              (toggleCompletion store day1 "g1" freshState) 0%nat
              (toggleGoal store day1 "g1" freshState freshGoal))
    as (g2 & H1 & H2 & H3 & H4 & H5 & H6);
    [reflexivity | reflexivity | reflexivity | reflexivity
    | vm_compute; discriminate | reflexivity | reflexivity |].
  exists g2. split; [exact H1|]. split; [exact H2|]. split; [exact H3|].
  split; [exact H4|]. split; [exact H5 | exact H6].
Defined.

(* ================================================================= *)
(** * Deletion *)

Lemma insertByStreak_Forall (P : Goal.t -> Prop) x l :
  P x -> Forall P l -> Forall P (insertByStreak x l).
Proof.
  intros Hx. induction 1 as [|y l Hy Hl IH]; simpl.
  - by constructor.
  - destruct (Goal.streak x <? Goal.streak y); by repeat constructor.
Qed.

Lemma sortByStreak_Forall (P : Goal.t -> Prop) l :
  Forall P l -> Forall P (sortByStreak l).
Proof.
  unfold sortByStreak. induction 1 as [|x l Hx Hl IH]; simpl.
  - constructor.
  - by apply insertByStreak_Forall.
Qed.

Lemma streakLeaders_Forall (P : Goal.t -> Prop) state :
  Forall P (goals state) -> Forall P (streakLeaders state).
Proof.
  intros H. unfold streakLeaders, activeGoals.
  apply Forall_take, sortByStreak_Forall.
  apply Forall_forall. intros g Hg. apply list_elem_of_filter in Hg as [_ Hg].
  rewrite Forall_forall in H. by apply H.
Qed.

Lemma deleteGoal_unfold v gid state :
  deleteGoal v gid state =
  {| goals := filter (fun g => Goal.id g ≠ gid) (goals state);
     dailyProgress := dailyProgress state |}.
Proof. by destruct v. Qed.

(** C3, as the claim states it, fails: [deleteGoal] filters the goal list
    and leaves the ledger alone.  After the deletion of goal "1" on a first
    run the entry of today still holds its record, and [todayStats] still
    counts it: 3 completed of 2 active goals. *)
Lemma deleteGoal_leaves_ledger_records :
  completedFlag (today day1) "1"
    (dailyProgress
       (deleteGoal (component (today day1)) "1" (defaultState day1)))
    = Some true /\
  TodayStats.total
    (todayStats (today day1)
       (deleteGoal (component (today day1)) "1" (defaultState day1)))
    = 2 /\
  TodayStats.completed
    (todayStats (today day1)
       (deleteGoal (component (today day1)) "1" (defaultState day1)))
    = 3.
Proof. vm_compute. done. Qed.

(** C3, amended.  After [deleteGoal(id)] no goal of the goal list has the
    id, and so no streak leader has it; the daily-progress ledger is left as
    it was, records of the id included, and [todayStats] counts the same
    completed records as before. *)
Theorem deleteGoal_removes_goal_only v gid state :
  Forall (fun g => Goal.id g ≠ gid) (goals (deleteGoal v gid state)) /\
  Forall (fun g => Goal.id g ≠ gid) (streakLeaders (deleteGoal v gid state)) /\
  dailyProgress (deleteGoal v gid state) = dailyProgress state /\
  (forall day,
     completedFlag day gid (dailyProgress (deleteGoal v gid state)) =
     completedFlag day gid (dailyProgress state)) /\
  (forall rendered,
     TodayStats.completed (todayStats rendered (deleteGoal v gid state)) =
     TodayStats.completed (todayStats rendered state)).
Proof.
  rewrite deleteGoal_unfold.
  assert (Hgone : Forall (fun g => Goal.id g ≠ gid)
                    (filter (fun g => Goal.id g ≠ gid) (goals state))).
  { apply Forall_forall. intros g Hg.
    by apply list_elem_of_filter in Hg as [Hg _]. }
  split; [exact Hgone|].
  split; [by apply streakLeaders_Forall|].
  repeat split.
Qed.

(* ================================================================= *)
(** * Statistics of today *)

Lemma countActive_length gs :
  Z.of_nat (length (activeGoals gs)) = countActive gs.
Proof.
  unfold activeGoals. induction gs as [|g gs IH]; simpl; [done|].
  rewrite filter_cons. destruct (decide _); simpl length; lia.
Qed.

Lemma countFlagged_length l :
  Z.of_nat (length (completedRecords l)) = countFlagged l.
Proof.
  unfold completedRecords. induction l as [|r l IH]; simpl; [done|].
  destruct (completed r); simpl length; lia.
Qed.

(** Up to 39 active goals, of which any number is completed. *)
Lemma percentExact_below_40 :
  forallb (fun t => forallb (percentExact t) (seqZ 0 (t + 1))) (seqZ 1 39)
  = true.
Proof. vm_compute. reflexivity. Qed.

Lemma percent_exact_below_40 d t :
  0 < t < 40 -> 0 <= d <= t -> percent d t = ofZ (nearestPercent d t).
Proof.
  intros Ht Hd.
  assert (Ht' : In t (seqZ 1 39)) by (apply list_elem_of_In, elem_of_seqZ; lia).
  assert (Hd' : In d (seqZ 0 (t + 1)))
    by (apply list_elem_of_In, elem_of_seqZ; lia).
  pose proof (proj1 (forallb_forall _ _) percentExact_below_40 t Ht') as Hrow.
  pose proof (proj1 (forallb_forall _ _) Hrow d Hd') as Hcell.
  exact (proj1 (bool_decide_eq_true _) Hcell).
Qed.

(** On a ledger entry whose records belong to distinct active goals, the
    completed records are as many as the active goals completed that day. *)
Lemma isCompletedOn_entry day gid ledger :
  isCompletedOn day gid ledger =
  recordFlag gid (DailyProgress.goals (Tracker.todayProgress day ledger)).
Proof.
  unfold isCompletedOn, completedFlag, recordFlag, Tracker.todayProgress.
  by destruct (findDay day ledger).
Qed.

Lemma countActiveCompleted_entry day ledger gs :
  countActiveCompleted day ledger gs =
  countActiveFlagged
    (DailyProgress.goals (Tracker.todayProgress day ledger)) gs.
Proof.
  induction gs as [|g gs IH]; simpl; [done|].
  by rewrite IH, isCompletedOn_entry.
Qed.

Lemma countActiveFlagged_nil gs : countActiveFlagged [] gs = 0.
Proof.
  induction gs as [|g gs IH]; simpl; [done|].
  rewrite IH. by destruct (decide _).
Qed.

Lemma recordFlag_absent gid l :
  gid ∉ goalId <$> l -> recordFlag gid l = false.
Proof.
  intros Hnot. unfold recordFlag.
  assert (Hnone : findRecord gid l = None).
  { apply findRecord_None, Forall_forall. intros r Hr Heq.
    apply Hnot. rewrite <- Heq. by apply list_elem_of_fmap_2. }
  by rewrite Hnone.
Qed.

Lemma countActiveFlagged_cons r l gs :
  goalId r ∉ goalId <$> l ->
  countActiveFlagged (r :: l) gs =
  (if completed r then countActiveWithId (goalId r) gs else 0)
  + countActiveFlagged l gs.
Proof.
  intros Hfresh. induction gs as [|g gs IH]; simpl.
  - by destruct (completed r).
  - rewrite IH. unfold recordFlag at 1, findRecord. simpl.
    fold (findRecord (Goal.id g) l). fold (recordFlag (Goal.id g) l).
    destruct (decide (Goal.status g = Status.active)).
    + destruct (decide (Goal.id g = goalId r)) as [Heq|Hne].
      * rewrite bool_decide_eq_true_2 by done. simpl.
        rewrite Heq, (recordFlag_absent _ _ Hfresh).
        destruct (completed r); lia.
      * rewrite bool_decide_eq_false_2 by done.
        fold (recordFlag (Goal.id g) l).
        destruct (completed r), (recordFlag (Goal.id g) l); lia.
    + destruct (completed r); lia.
Qed.

Lemma countActiveWithId_absent gid gs :
  gid ∉ Goal.id <$> gs -> countActiveWithId gid gs = 0.
Proof.
  induction gs as [|g gs IH]; simpl; [done|].
  intros Hnot. apply not_elem_of_cons in Hnot as [Hne Hnot].
  rewrite IH by done.
  destruct (decide (Goal.status g = _)); [|done].
  by rewrite decide_False.
Qed.

Lemma countActiveWithId_unique gid gs :
  NoDup (Goal.id <$> gs) ->
  Exists (fun g => Goal.id g = gid /\ Goal.status g = Status.active) gs ->
  countActiveWithId gid gs = 1.
Proof.
  induction gs as [|g gs IH]; simpl; intros Hnd Hex.
  - by apply Exists_nil in Hex.
  - apply NoDup_cons in Hnd as [Hfresh Hnd].
    destruct (decide (Goal.id g = gid)) as [Heq|Hne].
    + rewrite countActiveWithId_absent by (by rewrite <- Heq).
      apply Exists_cons in Hex as [[_ Hact]|Hex].
      * by rewrite decide_True.
      * exfalso. apply Exists_exists in Hex as (g' & Hin & Hid & _).
        apply Hfresh. rewrite Heq, <- Hid. by apply list_elem_of_fmap_2.
    + apply Exists_cons in Hex as [[Hid _]|Hex]; [done|].
      rewrite IH by done. by destruct (decide (Goal.status g = _)).
Qed.

Lemma countFlagged_active_goals l gs :
  NoDup (Goal.id <$> gs) ->
  NoDup (goalId <$> l) ->
  Forall (fun r => completed r = true ->
                   Exists (fun g => Goal.id g = goalId r /\
                                    Goal.status g = Status.active) gs) l ->
  countFlagged l = countActiveFlagged l gs.
Proof.
  intros Hgs Hl Hall. induction Hall as [|r l Hr Hall IH]; simpl.
  - by rewrite countActiveFlagged_nil.
  - simpl in Hl. apply NoDup_cons in Hl as [Hfresh Hl].
    rewrite countActiveFlagged_cons, IH by done.
    destruct (completed r); [|done].
    by rewrite countActiveWithId_unique by auto.
Qed.

(** With no active goal and a completed record, the quotient is infinite and
    [|| 0] keeps it. *)
Example todayStats_all_paused :
  TodayStats.total (todayStats (today day1) allPaused) = 0 /\
  TodayStats.completed (todayStats (today day1) allPaused) = 3 /\
  TodayStats.percentage (todayStats (today day1) allPaused)
    = S754_infinity false.
Proof. vm_compute. done. Qed.

(** The quotient is taken in binary64: 23 of 40 gives 57.49999999999999 and
    the percentage 57, where the nearest integer to 57.5, a tie going up,
    is 58. *)
Example percent_23_of_40 :
  percent 23 40 = ofZ 57 /\ nearestPercent 23 40 = 58.
Proof. vm_compute. done. Qed.

(** C5, as the claim states it, fails: [completed] counts the records of
    today that are flagged completed, whatever the status of their goals.
    With the first of three completed goals paused, 3 are counted where 2
    active goals are completed today. *)
Lemma todayStats_counts_paused_goals :
  TodayStats.total (todayStats (today day1) onePaused) = 2 /\
  TodayStats.completed (todayStats (today day1) onePaused) = 3 /\
  countActiveCompleted (today day1) (dailyProgress onePaused)
    (goals onePaused) = 2.
Proof. vm_compute. done. Qed.

(** C5, amended.  [todayStats] returns [total], the number of goals whose
    status is active; [completed], the number of records flagged completed
    in the ledger entry of today (0 without an entry), whatever the status
    of their goals; and, for a positive [total], [percentage] equal to
    [Math.round(completed / total * 100)] in binary64 (zero as 0).  The
    percentage is exactly 0 when [total] and [completed] are 0, and for
    fewer than 40 active goals, of which at most [total] are counted
    completed, it is the integer nearest to [100 * completed / total].  When
    the goals have distinct ids and the completed records of the entry
    belong to distinct active goals, [completed] is the number of active
    goals completed today. *)
Theorem todayStats_counts rendered state :
  let stats := todayStats rendered state in
  let entry := Tracker.todayProgress rendered (dailyProgress state) in
  TodayStats.total stats = countActive (goals state) /\
  TodayStats.completed stats = countFlagged (DailyProgress.goals entry) /\
  (0 < TodayStats.total stats ->
   TodayStats.percentage stats =
     orZero (Math_round
               (fmul (fdiv (ofZ (TodayStats.completed stats))
                           (ofZ (TodayStats.total stats)))
                     (ofZ 100)))) /\
  (TodayStats.total stats = 0 -> TodayStats.completed stats = 0 ->
   TodayStats.percentage stats = S754_zero false) /\
  (0 < TodayStats.total stats < 40 ->
   TodayStats.completed stats <= TodayStats.total stats ->
   TodayStats.percentage stats =
     ofZ (nearestPercent (TodayStats.completed stats)
                         (TodayStats.total stats))) /\
  (NoDup (Goal.id <$> goals state) ->
   NoDup (goalId <$> DailyProgress.goals entry) ->
   Forall (fun r => completed r = true ->
                    Exists (fun g => Goal.id g = goalId r /\
                                     Goal.status g = Status.active)
                           (goals state))
          (DailyProgress.goals entry) ->
   TodayStats.completed stats =
     countActiveCompleted rendered (dailyProgress state) (goals state)).
Proof.
  simpl. split; [apply countActive_length|].
  split; [apply countFlagged_length|].
  split; [reflexivity|]. split; [|split].
  - intros -> ->. reflexivity.
  - intros Ht Hd. apply percent_exact_below_40; [done | lia].
  - intros Hgs Hl Hall.
    rewrite countFlagged_length, countActiveCompleted_entry.
    by apply countFlagged_active_goals.
Qed.

Lemma todayStats_counts_witness :
  let stats := todayStats (today day1) (defaultState day1) in
  let none :=
    todayStats (today day1) {| goals := []; dailyProgress := [] |} in
  TodayStats.percentage stats =
    ofZ (nearestPercent (TodayStats.completed stats)
                        (TodayStats.total stats)) /\
  TodayStats.percentage none = S754_zero false /\
  TodayStats.completed stats =
    countActiveCompleted (today day1) (dailyProgress (defaultState day1))
      (goals (defaultState day1)).
Proof.
  intros stats none.
  destruct (todayStats_counts (today day1) (defaultState day1))
    as (_ & _ & _ & _ & Hexact & Hactive).
  destruct (todayStats_counts (today day1)
              {| goals := []; dailyProgress := [] |})
    as (_ & _ & _ & Hzero & _).
  split; [|split].
  - apply Hexact; clear; vm_compute; [split; reflexivity | discriminate].
  - apply Hzero; reflexivity.
  - apply Hactive; clear; apply (bool_decide_unpack _); vm_compute; exact I.
Defined.

(* ================================================================= *)
(** * Loading *)

Lemma initial_of_null parse storage :
  TrackerStorage.loadFromStorage parse storage = None ->
  TrackerStorage.initialGoals parse storage = TrackerStorage.Default /\
  TrackerStorage.initialProgress parse storage = TrackerStorage.Default.
Proof.
  intros H. unfold TrackerStorage.initialGoals, TrackerStorage.initialProgress.
  by rewrite H.
Qed.

(** C9, as the claim states it, fails: no loader validates the shape of a
    document that parses.  The document [null] parses, [loadState] returns
    [null], and the creation of the store raises a [TypeError] on
    [initialState.tasks].  In the component the goals document [[1]] with
    the progress document [5] is loaded as it is. *)
Lemma load_accepts_any_parsed_document :
  JSON_parse "null" = Normal JNull /\
  SimpleStore.loadState JSON_parse (storageOf "solaceflow-storage" "null")
    = JNull /\
  SimpleStore.init JSON_parse (storageOf "solaceflow-storage" "null")
    = Throw TypeError /\
  TrackerStorage.initialProgress JSON_parse
    (fun key => if decide (key = "zen-goals") then Some "[1]"
                else if decide (key = "zen-goal-progress") then Some "5"
                else None)
    = TrackerStorage.Stored (JNumber (ofZ 5)).
Proof. vm_compute. done. Qed.

(** C9, amended.  When the stored document fails to parse, the load returns
    the empty or default initial state and raises nothing: [loadState]
    returns [{}] and the store starts empty; [loadFromStorage] returns null,
    for a goals document or a non-empty progress document that fails to
    parse, and the component starts from its defaults.  The shape of a
    document that parses is not validated: [loadState] returns the value it
    parses to, whatever it is, and [loadFromStorage], when the [map] over
    the parsed goals returns, returns its result with the value the
    progress document parses to, whatever it is. *)
Theorem load_falls_back_when_parse_fails parse storage :
  (forall saved e,
     storage "solaceflow-storage" = Some saved -> parse saved = Throw e ->
     SimpleStore.loadState parse storage = JObject [] /\
     SimpleStore.init parse storage = Normal SimpleStore.empty) /\
  (forall saved e,
     storage "zen-goals" = Some saved -> parse saved = Throw e ->
     TrackerStorage.loadFromStorage parse storage = None /\
     TrackerStorage.initialGoals parse storage = TrackerStorage.Default /\
     TrackerStorage.initialProgress parse storage = TrackerStorage.Default) /\
  (forall saved e,
     storage "zen-goal-progress" = Some saved -> saved ≠ EmptyString ->
     parse saved = Throw e ->
     TrackerStorage.loadFromStorage parse storage = None /\
     TrackerStorage.initialGoals parse storage = TrackerStorage.Default /\
     TrackerStorage.initialProgress parse storage = TrackerStorage.Default) /\
  (forall saved v,
     storage "solaceflow-storage" = Some saved -> saved ≠ EmptyString ->
     parse saved = Normal v ->
     SimpleStore.loadState parse storage = v) /\
  (forall savedGoals parsed revived savedProgress progress,
     storage "zen-goals" = Some savedGoals -> savedGoals ≠ EmptyString ->
     parse savedGoals = Normal parsed ->
     TrackerStorage.arrayMap TrackerStorage.reviveGoal parsed
       = Normal revived ->
     storage "zen-goal-progress" = Some savedProgress ->
     savedProgress ≠ EmptyString ->
     parse savedProgress = Normal progress ->
     TrackerStorage.loadFromStorage parse storage = Some (revived, progress)).
Proof.
  split; [|split; [|split; [|split]]].
  - intros saved e Hdoc Hfail.
    assert (Hload : SimpleStore.loadState parse storage = JObject []).
    { unfold SimpleStore.loadState. rewrite Hdoc, Hfail.
      by destruct (truthy _). }
    split; [exact Hload|].
    unfold SimpleStore.init. rewrite Hload. reflexivity.
  - intros saved e Hdoc Hfail.
    assert (Hload : TrackerStorage.loadFromStorage parse storage = None).
    { unfold TrackerStorage.loadFromStorage, TrackerStorage.loadSaved.
      rewrite Hdoc, Hfail. by destruct (truthy _). }
    split; [exact Hload | by apply initial_of_null].
  - intros saved e Hdoc Hne Hfail.
    assert (Hload : TrackerStorage.loadFromStorage parse storage = None).
    { unfold TrackerStorage.loadFromStorage, TrackerStorage.loadSaved.
      destruct (storage "zen-goals") as [savedGoals|]; [|done].
      destruct (truthy (JString savedGoals)); [|done].
      destruct (parse savedGoals) as [parsed|]; [|done]. simpl.
      destruct (TrackerStorage.arrayMap _ parsed) as [revived|]; [|done].
      simpl. rewrite Hdoc. destruct saved as [|ch rest]; [done|].
      by rewrite Hfail. }
    split; [exact Hload | by apply initial_of_null].
  - intros saved v Hdoc Hne Hparse. unfold SimpleStore.loadState.
    rewrite Hdoc, Hparse. by destruct saved.
  - intros savedGoals parsed revived savedProgress progress
      Hgoals Hne Hparsed Hmap Hprogress Hne' Hparsed'.
    unfold TrackerStorage.loadFromStorage, TrackerStorage.loadSaved.
    rewrite Hgoals. destruct savedGoals as [|ch rest]; [done|]. simpl.
    rewrite Hparsed. simpl. rewrite Hmap. simpl. rewrite Hprogress.
    destruct savedProgress as [|ch' rest']; [done|]. simpl.
    by rewrite Hparsed'.
Qed.

Lemma load_falls_back_when_parse_fails_witness :
  (SimpleStore.loadState JSON_parse
     (storageOf "solaceflow-storage" "{tasks:[]}") = JObject [] /\
   SimpleStore.init JSON_parse
     (storageOf "solaceflow-storage" "{tasks:[]}")
     = Normal SimpleStore.empty) /\
  (TrackerStorage.loadFromStorage JSON_parse (storageOf "zen-goals" "[1,]")
     = None /\
   TrackerStorage.initialGoals JSON_parse (storageOf "zen-goals" "[1,]")
     = TrackerStorage.Default /\
   TrackerStorage.initialProgress JSON_parse (storageOf "zen-goals" "[1,]")
     = TrackerStorage.Default) /\
  (TrackerStorage.loadFromStorage JSON_parse (storageOfBoth "[{}]" "oops")
     = None /\
   TrackerStorage.initialGoals JSON_parse (storageOfBoth "[{}]" "oops")
     = TrackerStorage.Default /\
   TrackerStorage.initialProgress JSON_parse (storageOfBoth "[{}]" "oops")
     = TrackerStorage.Default) /\
  SimpleStore.loadState JSON_parse (storageOf "solaceflow-storage" "[7]")
    = JArray [JNumber (ofZ 7)] /\
  TrackerStorage.loadFromStorage JSON_parse (storageOfBoth "[{}]" "true")
    = Some (JArray [JObject [("createdAt", JDate JUndefined);
                             ("lastCompleted", JNull)]],
            JBool true).
Proof.
  split; [|split; [|split; [|split]]].
  - apply (proj1 (load_falls_back_when_parse_fails JSON_parse
                    (storageOf "solaceflow-storage" "{tasks:[]}"))
             "{tasks:[]}" SyntaxError); reflexivity.
  - apply (proj1 (proj2 (load_falls_back_when_parse_fails JSON_parse
                           (storageOf "zen-goals" "[1,]")))
             "[1,]" SyntaxError); reflexivity.
  - apply (proj1 (proj2 (proj2 (load_falls_back_when_parse_fails JSON_parse
                                  (storageOfBoth "[{}]" "oops"))))
             "oops" SyntaxError); [reflexivity | discriminate | reflexivity].
  - apply (proj1 (proj2 (proj2 (proj2
             (load_falls_back_when_parse_fails JSON_parse
                (storageOf "solaceflow-storage" "[7]")))))
             "[7]" (JArray [JNumber (ofZ 7)]));
      [reflexivity | discriminate | reflexivity].
  - apply (proj2 (proj2 (proj2 (proj2
             (load_falls_back_when_parse_fails JSON_parse
                (storageOfBoth "[{}]" "true")))))
             "[{}]" (JArray [JObject []])
             (JArray [JObject [("createdAt", JDate JUndefined);
                               ("lastCompleted", JNull)]])
             "true" (JBool true));
      [reflexivity | discriminate | reflexivity | reflexivity
      | reflexivity | discriminate | reflexivity].
Defined.

(* ================================================================= *)
(** * Further properties *)

(** ** Flags of the records under the two rewrites of a day *)

Lemma recordFlag_setFlag_other gid gid' b l :
  gid' ≠ gid -> recordFlag gid' (setFlag gid b l) = recordFlag gid' l.
Proof.
  intros Hne. unfold recordFlag. rewrite findRecord_setFlag.
  destruct (findRecord gid' l) as [r|] eqn:Hr; simpl; [|done].
  apply findRecord_id in Hr. by rewrite decide_False by congruence.
Qed.

Lemma recordFlag_setFlag_false gid l :
  recordFlag gid (setFlag gid false l) = false.
Proof.
  unfold recordFlag. rewrite findRecord_setFlag.
  destruct (findRecord gid l) as [r|] eqn:Hr; simpl; [|done].
  apply findRecord_id in Hr. by rewrite decide_True.
Qed.

Lemma recordFlag_completeDay gid d :
  recordFlag gid (DailyProgress.goals (completeDay gid d)) = true.
Proof.
  unfold completeDay, recordFlag.
  destruct (findRecord gid (DailyProgress.goals d)) as [r|] eqn:Hr; simpl.
  - rewrite findRecord_setFlag, Hr. simpl.
    apply findRecord_id in Hr. by rewrite decide_True.
  - unfold findRecord. rewrite (find_key_app goalId).
    fold (findRecord gid (DailyProgress.goals d)). rewrite Hr. simpl.
    by rewrite bool_decide_eq_true_2.
Qed.

Lemma recordFlag_completeDay_other gid gid' d :
  gid' ≠ gid ->
  recordFlag gid' (DailyProgress.goals (completeDay gid d)) =
  recordFlag gid' (DailyProgress.goals d).
Proof.
  intros Hne. unfold completeDay.
  destruct (findRecord gid (DailyProgress.goals d)); simpl.
  - by apply recordFlag_setFlag_other.
  - unfold recordFlag, findRecord. rewrite (find_key_app goalId). simpl.
    rewrite bool_decide_eq_false_2 by congruence.
    by destruct (List.find _ (DailyProgress.goals d)).
Qed.

(** What the ledger shows of a goal on a day is the flag of the first entry
    of the day. *)
Lemma isCompletedOn_findDay day gid ledger :
  isCompletedOn day gid ledger =
  match findDay day ledger with
  | Some p => recordFlag gid (DailyProgress.goals p)
  | None => false
  end.
Proof.
  unfold isCompletedOn, completedFlag, recordFlag.
  by destruct (findDay day ledger).
Qed.

Lemma toggleDay_date v c gid ledger d :
  DailyProgress.date (toggleDay v c gid ledger d) = DailyProgress.date d.
Proof.
  unfold toggleDay. destruct (isCompletedOn _ _ _); [done|].
  apply completeDay_date.
Qed.

(** The ledger after a toggle: the entries of today are rewritten; without
    one, the mark-as-completed branch pushes an entry and the undo branch,
    which a handler of an earlier render can take, changes nothing. *)
Lemma toggleProgress_cases v c gid ledger :
  toggleProgress v c gid ledger =
  match findDay (today c) ledger with
  | Some _ =>
      map (fun d => if decide (DailyProgress.date d = today c)
                    then toggleDay v c gid ledger d else d) ledger
  | None =>
      if isCompletedOn (decisionDay v c) gid ledger then ledger
      else ledger ++ [newDay c gid]
  end.
Proof.
  unfold toggleProgress, toggleDay.
  destruct (findDay (today c) ledger) as [p|] eqn:Hp.
  - unfold undoProgress, completeProgress, completeProgressMap. rewrite Hp.
    by destruct (isCompletedOn _ _ _).
  - unfold completeProgress. rewrite Hp.
    destruct (isCompletedOn _ _ _); [by apply undoProgress_absent | done].
Qed.

Lemma toggleDay_flag v c gid ledger d :
  recordFlag gid (DailyProgress.goals (toggleDay v c gid ledger d)) =
  negb (isCompletedOn (decisionDay v c) gid ledger).
Proof.
  unfold toggleDay. destruct (isCompletedOn _ _ _); simpl.
  - apply recordFlag_setFlag_false.
  - apply recordFlag_completeDay.
Qed.

Lemma toggleDay_flag_other v c gid gid' ledger d :
  gid' ≠ gid ->
  recordFlag gid' (DailyProgress.goals (toggleDay v c gid ledger d)) =
  recordFlag gid' (DailyProgress.goals d).
Proof.
  intros Hne. unfold toggleDay. destruct (isCompletedOn _ _ _); simpl.
  - by apply recordFlag_setFlag_other.
  - by apply recordFlag_completeDay_other.
Qed.

Lemma isCompletedOn_other_goal v c gid gid' day ledger :
  gid' ≠ gid ->
  isCompletedOn day gid' (toggleProgress v c gid ledger) =
  isCompletedOn day gid' ledger.
Proof.
  intros Hne. rewrite !isCompletedOn_findDay, toggleProgress_cases.
  destruct (findDay (today c) ledger) as [p|] eqn:Hp.
  - unfold findDay. rewrite (find_key_map DailyProgress.date)
      by (intros x; destruct (decide _); [apply toggleDay_date | done]).
    destruct (List.find _ ledger) as [q|]; simpl; [|done].
    destruct (decide _); [by apply toggleDay_flag_other | done].
  - destruct (isCompletedOn (decisionDay v c) gid ledger); [done|].
    unfold findDay. rewrite (find_key_app DailyProgress.date).
    destruct (List.find _ ledger) as [q|] eqn:Hq; [done|]. simpl.
    case_bool_decide; [|done]. simpl.
    unfold recordFlag, findRecord. simpl.
    by rewrite bool_decide_eq_false_2 by congruence.
Qed.

(** ** Well-formed ledgers *)

Lemma setFlag_ids gid b l : goalId <$> setFlag gid b l = goalId <$> l.
Proof.
  unfold setFlag. rewrite <- list_fmap_compose. apply list_fmap_ext.
  intros i r _. simpl. by destruct (decide _).
Qed.

Lemma toggleDay_ids_NoDup v c gid ledger d :
  NoDup (goalId <$> DailyProgress.goals d) ->
  NoDup (goalId <$> DailyProgress.goals (toggleDay v c gid ledger d)).
Proof.
  intros Hd. unfold toggleDay, completeDay.
  destruct (isCompletedOn _ _ _); simpl; [by rewrite setFlag_ids|].
  destruct (findRecord gid (DailyProgress.goals d)) eqn:Hr; simpl.
  - by rewrite setFlag_ids.
  - rewrite fmap_app. simpl. apply NoDup_app. split; [done|]. split.
    + intros x Hx Hx'. apply list_elem_of_singleton in Hx' as ->.
      apply findRecord_None in Hr. rewrite Forall_forall in Hr.
      apply list_elem_of_fmap in Hx as (r & Hid & Hin).
      by apply (Hr r Hin).
    + apply NoDup_singleton.
Qed.

Lemma toggleProgress_wf v c gid ledger :
  wfLedger ledger -> wfLedger (toggleProgress v c gid ledger).
Proof.
  intros [Hdates Hrecs]. rewrite toggleProgress_cases.
  destruct (findDay (today c) ledger) as [p|] eqn:Hp;
    [|destruct (isCompletedOn (decisionDay v c) gid ledger); [done|]];
    split.
  - rewrite <- list_fmap_compose.
    erewrite list_fmap_ext; [exact Hdates|].
    intros i d _. simpl. destruct (decide _); [apply toggleDay_date | done].
  - apply Forall_fmap. eapply Forall_impl; [exact Hrecs|].
    intros d Hd. simpl. destruct (decide _); [|done].
    by apply toggleDay_ids_NoDup.
  - rewrite fmap_app. simpl. apply NoDup_app. split; [done|]. split.
    + intros x Hx Hx'. apply list_elem_of_singleton in Hx' as ->.
      apply findDay_None in Hp. rewrite Forall_forall in Hp.
      apply list_elem_of_fmap in Hx as (d & Hid & Hin).
      by apply (Hp d Hin).
    + apply NoDup_singleton.
  - apply Forall_app. split; [done|].
    constructor; [apply NoDup_singleton | constructor].
Qed.

(** ** The days the ledger shows a goal completed *)

Lemma flaggedDays_app gid l1 l2 :
  flaggedDays gid (l1 ++ l2) = flaggedDays gid l1 + flaggedDays gid l2.
Proof. induction l1 as [|d l1 IH]; simpl; [done|]. rewrite IH. lia. Qed.

Lemma flaggedDays_nonneg gid ledger : 0 <= flaggedDays gid ledger.
Proof.
  induction ledger as [|d l IH]; simpl; [done|].
  destruct (recordFlag _ _); lia.
Qed.

Lemma flaggedDays_map_same gid (G : DailyProgress.t -> DailyProgress.t) l :
  (forall d, recordFlag gid (DailyProgress.goals (G d)) =
             recordFlag gid (DailyProgress.goals d)) ->
  flaggedDays gid (map G l) = flaggedDays gid l.
Proof.
  intros HG. induction l as [|d l IH]; simpl; [done|]. by rewrite HG, IH.
Qed.

Lemma map_day_absent (F : DailyProgress.t -> DailyProgress.t) day ledger :
  day ∉ DailyProgress.date <$> ledger ->
  map (fun d => if decide (DailyProgress.date d = day) then F d else d) ledger
  = ledger.
Proof.
  induction ledger as [|d l IH]; simpl; [done|].
  intros Hnot. apply not_elem_of_cons in Hnot as [Hne Hnot].
  rewrite IH by done. by rewrite decide_False.
Qed.

(** With one entry a day, the rewrite of a day changes the count by the
    change of its entry. *)
Lemma flaggedDays_map_day gid (F : DailyProgress.t -> DailyProgress.t)
    day ledger p :
  NoDup (DailyProgress.date <$> ledger) ->
  findDay day ledger = Some p ->
  flaggedDays gid
    (map (fun d => if decide (DailyProgress.date d = day) then F d else d)
         ledger) =
  flaggedDays gid ledger
  - (if recordFlag gid (DailyProgress.goals p) then 1 else 0)
  + (if recordFlag gid (DailyProgress.goals (F p)) then 1 else 0).
Proof.
  unfold findDay. induction ledger as [|d l IH]; simpl; [done|].
  intros Hnd Hp. apply NoDup_cons in Hnd as [Hfresh Hnd].
  destruct (decide (DailyProgress.date d = day)) as [Hd|Hd].
  - rewrite bool_decide_eq_true_2 in Hp by done. injection Hp as <-.
    rewrite map_day_absent by (by rewrite <- Hd).
    destruct (recordFlag gid (DailyProgress.goals d)),
             (recordFlag gid (DailyProgress.goals (F d))); lia.
  - rewrite bool_decide_eq_false_2 in Hp by done.
    rewrite IH by done. lia.
Qed.

(** A call made with the entry of today in hand changes the number of
    days completed by one. *)
Lemma flaggedDays_toggle v c gid ledger :
  decisionDay v c = today c ->
  NoDup (DailyProgress.date <$> ledger) ->
  flaggedDays gid (toggleProgress v c gid ledger) =
  flaggedDays gid ledger
  + (if isCompletedOn (today c) gid ledger then -1 else 1).
Proof.
  intros Hv Hnd. rewrite toggleProgress_cases, Hv.
  destruct (findDay (today c) ledger) as [p|] eqn:Hp.
  - rewrite (flaggedDays_map_day gid _ _ _ p Hnd Hp), toggleDay_flag, Hv.
    rewrite (isCompletedOn_findDay (today c)), Hp.
    destruct (recordFlag gid (DailyProgress.goals p)); simpl; lia.
  - rewrite (isCompletedOn_findDay (today c)), Hp.
    rewrite flaggedDays_app. simpl.
    unfold recordFlag, findRecord. simpl.
    rewrite bool_decide_eq_true_2 by done. simpl. lia.
Qed.

Lemma flaggedDays_toggle_other v c gid gid' ledger :
  gid' ≠ gid ->
  flaggedDays gid' (toggleProgress v c gid ledger) = flaggedDays gid' ledger.
Proof.
  intros Hne. rewrite toggleProgress_cases.
  destruct (findDay (today c) ledger) as [p|] eqn:Hp.
  - apply flaggedDays_map_same. intros d.
    destruct (decide _); [by apply toggleDay_flag_other | done].
  - destruct (isCompletedOn (decisionDay v c) gid ledger); [done|].
    rewrite flaggedDays_app. simpl.
    unfold recordFlag, findRecord. simpl.
    rewrite bool_decide_eq_false_2 by congruence. simpl. lia.
Qed.

Lemma flaggedDays_positive day gid ledger :
  isCompletedOn day gid ledger = true -> 1 <= flaggedDays gid ledger.
Proof.
  rewrite isCompletedOn_findDay. unfold findDay.
  induction ledger as [|d l IH]; simpl; [done|].
  case_bool_decide.
  - intros ->. pose proof (flaggedDays_nonneg gid l). lia.
  - intros H'. specialize (IH H'). destruct (recordFlag _ _); lia.
Qed.

Lemma toggleProgress_dates_NoDup v c gid ledger :
  NoDup (DailyProgress.date <$> ledger) ->
  NoDup (DailyProgress.date <$> toggleProgress v c gid ledger).
Proof.
  intros Hdates. rewrite toggleProgress_cases.
  destruct (findDay (today c) ledger) as [p|] eqn:Hp;
    [|destruct (isCompletedOn (decisionDay v c) gid ledger); [done|]].
  - rewrite <- list_fmap_compose.
    erewrite list_fmap_ext; [exact Hdates|].
    intros i d _. simpl. destruct (decide _); [apply toggleDay_date | done].
  - rewrite fmap_app. simpl. apply NoDup_app. split; [done|]. split.
    + intros x Hx Hx'. apply list_elem_of_singleton in Hx' as ->.
      apply findDay_None in Hp. rewrite Forall_forall in Hp.
      apply list_elem_of_fmap in Hx as (d & Hid & Hin).
      by apply (Hp d Hin).
    + apply NoDup_singleton.
Qed.

(* ================================================================= *)
(** ** The toggle, the checklist and the status *)

(** X1.  A click on the checklist of the component flips what the
    checklist shows of the goal, also on a page rendered on an earlier day:
    with [c0] the clock of the render and [c] the clock of the click,
    [getGoalProgress] at the time of the click, on the state the handler
    gives, says completed today exactly when [getGoalProgress] of the render
    did not, and says that the goal still needs its completion exactly when
    the goal is daily and the render showed it completed. *)
Theorem toggle_flips_checklist_state c0 c gid state i g :
  goals state !! i = Some g -> Goal.id g = gid ->
  let state' := toggleCompletion (component (today c0)) c gid state in
  exists g',
    goals state' !! i = Some g' /\
    Progress.isCompletedToday (getGoalProgress c state' g') =
      negb (Progress.isCompletedToday (getGoalProgress c0 state g)) /\
    Progress.needsCompletion (getGoalProgress c state' g') =
      bool_decide (Goal.frequency g = daily) &&
      Progress.isCompletedToday (getGoalProgress c0 state g).
Proof.
  intros Hi Hid state'.
  destruct (toggle_at (component (today c0)) c gid state i g Hi Hid)
    as [Hg Hl].
  eexists. split; [exact Hg|].
  unfold getGoalProgress. simpl. subst state'.
  rewrite toggleGoal_id, Hl, Hid, isCompletedOn_toggle.
  split; [done|]. rewrite negb_involutive.
  unfold toggleGoal. by destruct (isCompletedOn _ _ _).
Qed.

Lemma toggle_flips_checklist_state_witness :
  let state' :=
    toggleCompletion (component (today day1)) day2 "g1"
      (toggleCompletion store day1 "g1" freshState) in
  exists g',
    goals state' !! 0%nat = Some g' /\
    Progress.isCompletedToday (getGoalProgress day2 state' g') =
      negb (Progress.isCompletedToday
              (getGoalProgress day1
                 (toggleCompletion store day1 "g1" freshState)
                 (toggleGoal store day1 "g1" freshState freshGoal))) /\
    Progress.needsCompletion (getGoalProgress day2 state' g') =
      bool_decide
        (Goal.frequency (toggleGoal store day1 "g1" freshState freshGoal)
         = daily) &&
      Progress.isCompletedToday
        (getGoalProgress day1
           (toggleCompletion store day1 "g1" freshState)
           (toggleGoal store day1 "g1" freshState freshGoal)).
Proof.
  apply (toggle_flips_checklist_state day1 day2 "g1"
           (toggleCompletion store day1 "g1" freshState) 0%nat
           (toggleGoal store day1 "g1" freshState freshGoal));
    reflexivity.
Defined.

(** X2.  A toggle changes one flag of the ledger at most: for every
    other goal id, and for the goal itself on every other day, the ledger
    shows after the call what it showed before. *)
Theorem toggle_keeps_other_flags v c gid state gid' day :
  gid' ≠ gid \/ day ≠ today c ->
  isCompletedOn day gid' (dailyProgress (toggleCompletion v c gid state)) =
  isCompletedOn day gid' (dailyProgress state).
Proof.
  intros Hother. rewrite toggle_ledger.
  destruct (hasGoal gid state); [|done].
  destruct Hother as [Hne|Hne].
  - by apply isCompletedOn_other_goal.
  - by apply isCompletedOn_other_day.
Qed.

Lemma toggle_keeps_other_flags_witness :
  isCompletedOn (today day1) "2"
    (dailyProgress
       (toggleCompletion (component (today day1)) day1 "1"
          (defaultState day1))) =
  isCompletedOn (today day1) "2" (dailyProgress (defaultState day1)).
Proof.
  apply (toggle_keeps_other_flags (component (today day1)) day1 "1"
           (defaultState day1) "2" (today day1)).
  left. discriminate.
Defined.

(** X3.  A ledger with one entry per date and, in each entry, one
    record per goal stays so under any sequence of toggles, whatever the
    clocks and the goal ids: a toggle never adds a second entry for a day
    nor a second record for a goal. *)
Theorem toggles_keep_ledger_well_formed (ops : list Call) state :
  wfLedger (dailyProgress state) ->
  wfLedger (dailyProgress (run ops state)).
Proof.
  revert state.
  induction ops as [|[[v c] gid] ops IH]; intros state Hwf; simpl.
  - done.
  - apply IH. rewrite toggle_ledger.
    destruct (hasGoal gid state); [by apply toggleProgress_wf | done].
Qed.

Lemma toggles_keep_ledger_well_formed_witness :
  wfLedger
    (dailyProgress
       (run [(component (today day1), day1, "1");
             (component (today day1), day2, "2"); (store, day2, "2")]
            (defaultState day1))).
Proof.
  apply (toggles_keep_ledger_well_formed
           [(component (today day1), day1, "1");
            (component (today day1), day2, "2"); (store, day2, "2")]
           (defaultState day1)).
  split; apply (bool_decide_unpack _); vm_compute; exact I.
Defined.

Lemma toggle_step_count v c gid state i g :
  decisionDay v c = today c ->
  goals state !! i = Some g ->
  NoDup (DailyProgress.date <$> dailyProgress state) ->
  Goal.currentCount g = flaggedDays (Goal.id g) (dailyProgress state) ->
  exists g',
    goals (toggleCompletion v c gid state) !! i = Some g' /\
    Goal.id g' = Goal.id g /\
    NoDup (DailyProgress.date <$>
             dailyProgress (toggleCompletion v c gid state)) /\
    Goal.currentCount g' =
      flaggedDays (Goal.id g) (dailyProgress (toggleCompletion v c gid state)).
Proof.
  intros Hv Hi Hnd Hcount.
  destruct (decide (Goal.id g = gid)) as [Hid|Hid].
  - destruct (toggle_at v c gid state i g Hi Hid) as [Hg Hl].
    eexists. split; [exact Hg|]. split; [apply toggleGoal_id|].
    rewrite Hl. split; [by apply toggleProgress_dates_NoDup|].
    rewrite Hid, flaggedDays_toggle by done.
    rewrite Hid in Hcount. unfold toggleGoal. rewrite Hv.
    destruct (isCompletedOn (today c) gid (dailyProgress state)) eqn:Hdone;
      simpl.
    + apply flaggedDays_positive in Hdone. lia.
    + lia.
  - exists g. split; [by apply toggle_goals_lookup_ne|]. split; [done|].
    rewrite toggle_ledger. destruct (hasGoal gid state); [|done].
    split; [by apply toggleProgress_dates_NoDup|].
    by rewrite flaggedDays_toggle_other.
Qed.

(** X4.  When the dates of the ledger are distinct and the counter of
    a goal is the number of entries that show it completed, then after any
    sequence of toggles (any clocks, any goal ids), each made with the
    entry of today in hand (in the store; in the component from a render
    of the day of the call), the counter is again the number of entries
    that show the goal completed; so it is at least 1 as long as the ledger
    shows the goal completed on some day. *)
Theorem count_is_days_completed state i g (ops : list Call) :
  Forall freshCall ops ->
  goals state !! i = Some g ->
  NoDup (DailyProgress.date <$> dailyProgress state) ->
  Goal.currentCount g = flaggedDays (Goal.id g) (dailyProgress state) ->
  exists g',
    goals (run ops state) !! i = Some g' /\
    Goal.currentCount g' =
      flaggedDays (Goal.id g) (dailyProgress (run ops state)) /\
    (forall day,
       isCompletedOn day (Goal.id g) (dailyProgress (run ops state)) = true ->
       1 <= Goal.currentCount g').
Proof.
  intros Hfresh. revert state g.
  induction Hfresh as [|[[v c] gid] ops Hv _ IH];
    intros state g Hi Hnd Hcount; simpl.
  - exists g. split; [done|]. split; [done|].
    intros day Hday. apply flaggedDays_positive in Hday. lia.
  - destruct (toggle_step_count v c gid state i g Hv Hi Hnd Hcount)
      as (g1 & Hi1 & Hid1 & Hnd1 & Hcount1).
    rewrite <- Hid1 in Hcount1.
    destruct (IH _ _ Hi1 Hnd1 Hcount1) as (g' & Hi' & Hc' & Hpos).
    rewrite Hid1 in Hc', Hpos. by exists g'.
Qed.

Lemma count_is_days_completed_witness :
  exists g',
    goals (run [(store, day1, "g1"); (component (today day2), day2, "g1");
                (store, day2a, "g1")] freshState)
      !! 0%nat = Some g' /\
    Goal.currentCount g' =
      flaggedDays (Goal.id freshGoal)
        (dailyProgress
           (run [(store, day1, "g1"); (component (today day2), day2, "g1");
                 (store, day2a, "g1")] freshState))
    /\
    (forall day,
       isCompletedOn day (Goal.id freshGoal)
         (dailyProgress
            (run [(store, day1, "g1"); (component (today day2), day2, "g1");
                  (store, day2a, "g1")] freshState))
         = true ->
       1 <= Goal.currentCount g').
Proof.
  apply (count_is_days_completed freshState 0%nat freshGoal
           [(store, day1, "g1"); (component (today day2), day2, "g1");
            (store, day2a, "g1")]).
  - repeat constructor.
  - reflexivity.
  - constructor.
  - reflexivity.
Defined.

(** Without the entry of today in hand the counter and the ledger part: the
    handler of a page rendered on 2024-03-01 and clicked the day after
    takes the completion of the first day off the counter and leaves it in
    the ledger. *)
Example stale_render_parts_count_and_ledger :
  let s2 :=
    run [(component (today day1), day1, "g1");
         (component (today day1), day2, "g1")] freshState in
  Goal.currentCount <$> goals s2 !! 0%nat = Some 0 /\
  flaggedDays "g1" (dailyProgress s2) = 1.
Proof. vm_compute. done. Qed.

Lemma toggleGoal_countInv v c gid state g :
  countInv g -> countInv (toggleGoal v c gid state g).
Proof.
  unfold countInv, toggleGoal, undoGoal, completeGoal.
  destruct (isCompletedOn (decisionDay v c) _ _); simpl.
  - destruct (Z.ltb_spec 0 (Goal.streak g)); lia.
  - destruct (isCompletedOn _ _ _); lia.
Qed.

(** X5.  A goal whose streak is between 0 and its counter, as it is at
    creation, keeps its streak between 0 and its counter under any sequence
    of toggles. *)
Theorem streak_within_count state i g (ops : list Call) :
  goals state !! i = Some g ->
  0 <= Goal.streak g <= Goal.currentCount g ->
  exists g',
    goals (run ops state) !! i = Some g' /\
    0 <= Goal.streak g' <= Goal.currentCount g'.
Proof.
  revert state g.
  induction ops as [|[[v c] gid] ops IH]; intros state g Hi Hinv; simpl.
  - by exists g.
  - apply (IH _ _ (toggle_goals_lookup v c gid state i g Hi)).
    destruct (_ && _); [by apply toggleGoal_countInv | done].
Qed.

Lemma streak_within_count_witness :
  exists g',
    goals (run [(store, day1, "g1"); (component (today day1), day2, "g1");
                (store, day4, "g1")] freshState)
      !! 0%nat = Some g' /\
    0 <= Goal.streak g' <= Goal.currentCount g'.
Proof.
  apply (streak_within_count freshState 0%nat freshGoal
           [(store, day1, "g1"); (component (today day1), day2, "g1");
            (store, day4, "g1")]).
  - reflexivity.
  - simpl. lia.
Defined.

(** X6.  No sequence of toggles changes the id, title, description,
    category, frequency, status, target, colour, icon, creation date or
    history of a goal: the seven-day [history] written at creation is never
    updated by a completion. *)
Theorem toggles_keep_static_fields state i g (ops : list Call) :
  goals state !! i = Some g ->
  exists g',
    goals (run ops state) !! i = Some g' /\
    staticFields g' = staticFields g.
Proof.
  revert state g.
  induction ops as [|[[v c] gid] ops IH]; intros state g Hi; simpl.
  - by exists g.
  - destruct (IH _ _ (toggle_goals_lookup v c gid state i g Hi))
      as (g' & Hi' & Hs).
    exists g'. split; [done|]. rewrite Hs.
    destruct (_ && _); [|done].
    unfold toggleGoal. by destruct (isCompletedOn _ _ _).
Qed.

Lemma toggles_keep_static_fields_witness :
  exists g',
    goals (run [(store, day1, "g1"); (component (today day1), day2, "g1")]
               freshState) !! 0%nat = Some g' /\
    staticFields g' = staticFields freshGoal.
Proof.
  apply (toggles_keep_static_fields freshState 0%nat freshGoal
           [(store, day1, "g1"); (component (today day1), day2, "g1")]).
  reflexivity.
Defined.

(** X7.  Three toggles of a goal at three instants of one day, each made
    with the entry of today in hand, for a goal not completed today whose
    counter is not negative (and whose streak is not negative when
    yesterday is completed), on a day whose key differs from yesterday's:
    they leave the goal, its time of last completion included, and every
    flag of the ledger as the third call alone would have: undoing a
    completion and completing again makes no counter drift. *)
Theorem three_toggles_as_one v1 v2 v3 c1 c2 c3 gid state i g :
  goals state !! i = Some g -> Goal.id g = gid ->
  today c2 = today c1 -> today c3 = today c1 ->
  yesterdayStr c3 = yesterdayStr c1 ->
  yesterdayStr c1 ≠ today c1 ->
  decisionDay v1 c1 = today c1 -> decisionDay v2 c2 = today c2 ->
  decisionDay v3 c3 = today c3 ->
  isCompletedOn (today c1) gid (dailyProgress state) = false ->
  0 <= Goal.currentCount g ->
  (isCompletedOn (yesterdayStr c1) gid (dailyProgress state) = true ->
   0 <= Goal.streak g) ->
  let once := toggleCompletion v3 c3 gid state in
  let s3 :=
    toggleCompletion v3 c3 gid
      (toggleCompletion v2 c2 gid (toggleCompletion v1 c1 gid state)) in
  goals s3 !! i = goals once !! i /\
  (forall day gid',
     isCompletedOn day gid' (dailyProgress s3) =
     isCompletedOn day gid' (dailyProgress once)).
Proof.
  intros Hi Hid Ht2 Ht3 Hy3 Hy Hv1 Hv2 Hv3 Hnot Hc Hs once s3.
  destruct (toggle_at v3 c3 gid state i g Hi Hid) as [Hg Hl].
  fold once in Hg, Hl.
  destruct (toggle_at v1 c1 gid state i g Hi Hid) as [Hg1 Hl1].
  set (s1 := toggleCompletion v1 c1 gid state) in *.
  set (g1 := toggleGoal v1 c1 gid state g) in *.
  assert (Hid1 : Goal.id g1 = gid) by (unfold g1; by rewrite toggleGoal_id).
  destruct (toggle_at v2 c2 gid s1 i g1 Hg1 Hid1) as [Hg2 Hl2].
  set (s2 := toggleCompletion v2 c2 gid s1) in *.
  set (g2 := toggleGoal v2 c2 gid s1 g1) in *.
  assert (Hid2 : Goal.id g2 = gid) by (unfold g2; by rewrite toggleGoal_id).
  destruct (toggle_at v3 c3 gid s2 i g2 Hg2 Hid2) as [Hg3 Hl3].
  fold s3 in Hg3, Hl3.
  assert (Hd1 : isCompletedOn (today c1) gid (dailyProgress s1) = true)
    by (by rewrite Hl1, isCompletedOn_toggle, Hv1, Hnot).
  assert (Hd2 : isCompletedOn (today c1) gid (dailyProgress s2) = false)
    by (by rewrite Hl2, <- Ht2, isCompletedOn_toggle, Hv2, Ht2, Hd1).
  assert (Hy2 : isCompletedOn (yesterdayStr c1) gid (dailyProgress s2) =
                isCompletedOn (yesterdayStr c1) gid (dailyProgress state)).
  { rewrite Hl2, Hl1.
    rewrite (isCompletedOn_other_day v2 c2 gid gid (yesterdayStr c1))
      by (by rewrite Ht2).
    by rewrite (isCompletedOn_other_day v1 c1 gid gid (yesterdayStr c1)). }
  split.
  - rewrite Hg3, Hg. f_equal.
    unfold g2, g1, toggleGoal.
    rewrite Hv1, Hv2, Hv3, Ht2, Ht3, Hd2, Hd1, Hnot.
    unfold completeGoal at 1 3. rewrite Hy3, Hy2.
    unfold undoGoal, completeGoal. simpl.
    destruct (isCompletedOn (yesterdayStr c1) gid (dailyProgress state));
      simpl.
    + specialize (Hs eq_refl).
      rewrite (proj2 (Z.ltb_lt 0 (Goal.streak g + 1))) by lia.
      f_equal; lia.
    + f_equal; lia.
  - intros day gid'.
    destruct (decide (gid' = gid)) as [->|Hne].
    + destruct (decide (day = today c1)) as [->|Hday].
      * rewrite Hl3, Hl, <- Ht3, !isCompletedOn_toggle, Hv3, Ht3.
        by rewrite Hd2, Hnot.
      * rewrite Hl3, Hl2, Hl1, Hl.
        rewrite !(isCompletedOn_other_day v3 c3 gid gid day)
          by (by rewrite Ht3).
        rewrite (isCompletedOn_other_day v2 c2 gid gid day)
          by (by rewrite Ht2).
        by rewrite (isCompletedOn_other_day v1 c1 gid gid day).
    + rewrite Hl3, Hl2, Hl1, Hl.
      by rewrite !(isCompletedOn_other_goal _ _ gid gid' day).
Qed.

Lemma three_toggles_as_one_witness :
  let once :=
    toggleCompletion store day2b "g1"
      (toggleCompletion store day1 "g1" freshState) in
  let s3 :=
    toggleCompletion store day2b "g1"
      (toggleCompletion (component (today day2)) day2a "g1"
         (toggleCompletion (component (today day2)) day2 "g1"
            (toggleCompletion store day1 "g1" freshState))) in
  goals s3 !! 0%nat = goals once !! 0%nat /\
  (forall day gid',
     isCompletedOn day gid' (dailyProgress s3) =
     isCompletedOn day gid' (dailyProgress once)).
Proof.
  apply (three_toggles_as_one (component (today day2))
           (component (today day2)) store day2 day2a day2b "g1"
           (toggleCompletion store day1 "g1" freshState) 0%nat
           (toggleGoal store day1 "g1" freshState freshGoal));
    try reflexivity.
  - vm_compute. discriminate.
  - vm_compute. discriminate.
  - intros _. vm_compute. discriminate.
Defined.

Lemma updateGoalStatus_unfold v gid st state :
  updateGoalStatus v gid st state =
  {| goals :=
       map (fun g => if decide (Goal.id g = gid) then withStatus g st else g)
           (goals state);
     dailyProgress := dailyProgress state |}.
Proof. by destruct v. Qed.

Lemma hasGoal_map_id (f : Goal.t -> Goal.t) gid gs ledger ledger' :
  (forall g, Goal.id (f g) = Goal.id g) ->
  hasGoal gid {| goals := map f gs; dailyProgress := ledger |} =
  hasGoal gid {| goals := gs; dailyProgress := ledger' |}.
Proof.
  intros Hf. unfold hasGoal. simpl. apply bool_decide_ext.
  rewrite Exists_fmap. apply Exists_proper; [|done].
  intros g. simpl. by rewrite Hf.
Qed.

(** X8.  Toggling the completion of a goal and setting the status of
    a goal (the same or another one) commute, in either implementation: the
    toggle neither reads nor writes the status, so a paused or completed
    goal is toggled like an active one. *)
Theorem toggle_commutes_with_status v v' c gid gid' st state :
  toggleCompletion v c gid (updateGoalStatus v' gid' st state) =
  updateGoalStatus v' gid' st (toggleCompletion v c gid state).
Proof.
  rewrite !updateGoalStatus_unfold, !toggleCompletion_unfold.
  rewrite (hasGoal_map_id _ gid (goals state) _ (dailyProgress state))
    by (intros g; by destruct (decide _)).
  replace {| goals := goals state; dailyProgress := dailyProgress state |}
    with state by (by destruct state).
  destruct (hasGoal gid state); simpl; [|done].
  f_equal. rewrite <- !list_fmap_compose. apply list_fmap_ext.
  intros i g _. simpl. unfold toggleGoal. simpl.
  destruct (isCompletedOn (decisionDay v c) gid (dailyProgress state));
    repeat (case_decide; simpl in *); done.
Qed.

(** X9.  After [deleteGoal] of an id, a toggle of that id changes
    nothing, whatever the ledger still holds for the id. *)
Theorem toggle_after_delete_is_noop v v' c gid state :
  toggleCompletion v c gid (deleteGoal v' gid state) = deleteGoal v' gid state.
Proof.
  rewrite toggleCompletion_unfold, deleteGoal_unfold.
  assert (Hno : hasGoal gid
                  {| goals := filter (fun g => Goal.id g ≠ gid) (goals state);
                     dailyProgress := dailyProgress state |} = false).
  { apply bool_decide_eq_false_2. simpl. intros Hex.
    apply Exists_exists in Hex as (g & Hin & Hid).
    by apply list_elem_of_filter in Hin as [Hne _]. }
  by rewrite Hno.
Qed.

(** X10.  A toggle keeps the dates of the ledger in their order and adds
    at most one, at the end: the date of today, exactly when the goal
    exists, the ledger has no entry for today and the call takes the
    mark-as-completed branch.  Without an entry for today the store always
    takes that branch; a handler of the component that belongs to a render
    of an earlier day takes the undo branch when the entry of that day
    shows the goal completed, and then adds nothing. *)
Theorem toggle_ledger_dates v c gid state :
  (DailyProgress.date <$> dailyProgress (toggleCompletion v c gid state) =
   (DailyProgress.date <$> dailyProgress state) ++
   match findDay (today c) (dailyProgress state) with
   | None =>
       if hasGoal gid state &&
          negb (isCompletedOn (decisionDay v c) gid (dailyProgress state))
       then [today c] else []
   | Some _ => []
   end) /\
  (findDay (today c) (dailyProgress state) = None ->
   isCompletedOn (today c) gid (dailyProgress state) = false).
Proof.
  split.
  - rewrite toggle_ledger.
    destruct (hasGoal gid state); simpl.
    + rewrite toggleProgress_cases.
      destruct (findDay _ _).
      * rewrite app_nil_r, <- list_fmap_compose. apply list_fmap_ext.
        intros i d _. simpl.
        destruct (decide _); [apply toggleDay_date|done].
      * destruct (isCompletedOn _ _ _); simpl;
          [by rewrite app_nil_r | by rewrite fmap_app].
    + destruct (findDay _ _); by rewrite app_nil_r.
  - intros Hnone. by rewrite isCompletedOn_findDay, Hnone.
Qed.

(** ** Creation of a goal *)

(** X11.  Adding a goal whose id no goal of the state has and then
    deleting that id gives the state back. *)
Theorem addGoal_then_deleteGoal v g state :
  Forall (fun g' => Goal.id g' ≠ Goal.id g) (goals state) ->
  deleteGoal v (Goal.id g) (addGoal g state) = state.
Proof.
  intros Hfresh. rewrite deleteGoal_unfold. destruct state as [gs ledger].
  unfold addGoal. simpl in *. f_equal.
  rewrite filter_cons_False by (by intros Hne).
  induction Hfresh as [|g' gs Hne _ IH]; [done|].
  by rewrite filter_cons_True, IH.
Qed.

Lemma addGoal_then_deleteGoal_witness :
  deleteGoal store (Goal.id freshGoal) (addGoal freshGoal (defaultState day1))
  = defaultState day1.
Proof.
  apply (addGoal_then_deleteGoal store freshGoal (defaultState day1)).
  apply (bool_decide_unpack _). vm_compute. exact I.
Defined.

(** X12.  The first toggle of a goal just created puts it at the head of
    the goals with streak, best streak and counter all 1 and the time of the
    call as last completion, for any state it is added to whose ledger does
    not show the id completed on the day that decides the branch (today; in
    the component the day of the render); when the ledger does (a record
    left by a deleted goal of the same id), the three stay 0, no last
    completion is set, and the record of today, if any, is switched off. *)
Theorem newGoal_first_toggle v c c' gid ttl desc cat freq target col ico state :
  let g := newGoal c gid ttl desc cat freq target col ico in
  let state' := toggleCompletion v c' gid (addGoal g state) in
  let orphan := isCompletedOn (decisionDay v c') gid (dailyProgress state) in
  exists g',
    goals state' !! 0%nat = Some g' /\
    Goal.streak g' = Goal.currentCount g' /\
    Goal.bestStreak g' = Goal.currentCount g' /\
    Goal.currentCount g' = (if orphan then 0 else 1) /\
    Goal.lastCompleted g' = (if orphan then None else Some (now c')) /\
    isCompletedOn (today c') gid (dailyProgress state') = negb orphan.
Proof.
  intros g state' orphan.
  destruct (toggle_at v c' gid (addGoal g state) 0%nat g eq_refl eq_refl)
    as [Hg Hl].
  eexists. split; [exact Hg|].
  subst state'. rewrite Hl, isCompletedOn_toggle.
  unfold toggleGoal, completeGoal. simpl. fold orphan.
  destruct orphan; simpl.
  - done.
  - by destruct (isCompletedOn (yesterdayStr c') gid (dailyProgress state)).
Qed.

(** ** Overall and category statistics *)

Lemma sumOf_from f gs acc :
  foldl (fun sum goal => sum + f goal) acc gs = acc + sumOf f gs.
Proof.
  unfold sumOf. revert acc. induction gs as [|g gs IH]; intros acc; simpl.
  - lia.
  - rewrite IH, (IH (0 + f g)). lia.
Qed.

Lemma sumOf_cons f g gs : sumOf f (g :: gs) = f g + sumOf f gs.
Proof. unfold sumOf at 1. simpl. rewrite sumOf_from. lia. Qed.

Lemma maxWithZero_bound xs :
  0 <= maxWithZero xs /\ Forall (fun x => x <= maxWithZero xs) xs.
Proof.
  induction xs as [|x xs [IH0 IH]]; [by split|].
  change (maxWithZero (x :: xs)) with (Z.max x (maxWithZero xs)).
  split; [lia|]. constructor; [lia|].
  eapply Forall_impl; [exact IH|]. simpl. lia.
Qed.

Lemma maxWithZero_attained xs :
  maxWithZero xs = 0 \/ maxWithZero xs ∈ xs.
Proof.
  induction xs as [|x xs IH]; [by left|].
  change (maxWithZero (x :: xs)) with (Z.max x (maxWithZero xs)).
  destruct (Z.max_spec x (maxWithZero xs)) as [[_ ->]|[_ ->]].
  - destruct IH as [IH|IH]; [by left | right; by apply list_elem_of_further].
  - right. apply list_elem_of_here.
Qed.

(** X13.  [overallStats.bestStreak], which [getGoalStats] of the store
    computes the same way, is not negative, is at least the best streak of
    every goal, and is 0 or the best streak of some goal; the number of
    active goals is between 0 and the number of goals. *)
Theorem bestStreak_is_the_maximum c state :
  let stats := overallStats state in
  GoalStats.bestStreak (getGoalStats c state) = OverallStats.bestStreak stats /\
  0 <= OverallStats.bestStreak stats /\
  Forall (fun g => Goal.bestStreak g <= OverallStats.bestStreak stats)
         (goals state) /\
  (OverallStats.bestStreak stats = 0 \/
   Exists (fun g => Goal.bestStreak g = OverallStats.bestStreak stats)
          (goals state)) /\
  0 <= OverallStats.activeGoals stats <= OverallStats.totalGoals stats.
Proof.
  simpl.
  destruct (maxWithZero_bound (map Goal.bestStreak (goals state)))
    as [H0 Hall].
  split; [done|]. split; [done|]. split.
  { rewrite Forall_forall in Hall. apply Forall_forall. intros g Hg.
    apply Hall. by apply (list_elem_of_fmap_2 Goal.bestStreak). }
  split.
  { destruct (maxWithZero_attained (map Goal.bestStreak (goals state)))
      as [Hz|Hin]; [by left|right].
    apply list_elem_of_fmap in Hin as (g & Hg & Hin).
    apply Exists_exists. by exists g. }
  unfold activeGoals.
  pose proof (length_filter (fun g => Goal.status g = Status.active)
                (goals state)).
  lia.
Qed.

Lemma sumZ_app xs ys : sumZ (xs ++ ys) = sumZ xs + sumZ ys.
Proof. induction xs as [|x xs IH]; simpl; [done|]. rewrite IH. lia. Qed.

(** X14.  The rows of [categoryStats] partition the goals: over the six
    categories the counts add up to [overallStats.totalGoals], the active
    counts to [overallStats.activeGoals] and the completions to
    [overallStats.totalCompletions]. *)
Theorem categoryStats_partition state :
  let rows := categoryStats state in
  let stats := overallStats state in
  sumZ (CategoryStats.count <$> rows) = OverallStats.totalGoals stats /\
  sumZ (CategoryStats.active <$> rows) = OverallStats.activeGoals stats /\
  sumZ (CategoryStats.completed <$> rows) =
    OverallStats.totalCompletions stats.
Proof.
  simpl. unfold categoryStats, categories, activeGoals. simpl.
  induction (goals state) as [|g gs (IH1 & IH2 & IH3)]; [done|].
  rewrite !filter_cons. rewrite sumOf_cons.
  split; [|split].
  - destruct g as [? ? ? [] ? ? ? ? ? ? ? ? ? ? ?]; simpl in *;
      repeat (destruct (decide _) as [|]; try discriminate; try congruence);
      simpl length in *; lia.
  - destruct g as [? ? ? [] ? st ? ? ? ? ? ? ? ? ?]; simpl in *;
      destruct (decide (st = Status.active));
      repeat (destruct (decide _) as [Hd|Hd];
              try (destruct Hd; discriminate || congruence);
              try (exfalso; apply Hd; by split));
      simpl length in *; lia.
  - destruct g as [? ? ? [] ? ? ? ? ? ? ? ? ? ? ?]; simpl in *;
      repeat (destruct (decide _) as [|]; try discriminate; try congruence);
      rewrite ?sumOf_cons; simpl in *; lia.
Qed.

(** ** The streak leaders *)

Lemma insertByStreak_perm x l : insertByStreak x l ≡ₚ x :: l.
Proof.
  induction l as [|y l IH]; simpl; [done|].
  destruct (Goal.streak x <? Goal.streak y); [|done].
  rewrite IH. apply Permutation_swap.
Qed.

Lemma sortByStreak_perm l : sortByStreak l ≡ₚ l.
Proof.
  unfold sortByStreak. induction l as [|x l IH]; simpl; [done|].
  by rewrite insertByStreak_perm, IH.
Qed.

Lemma insertByStreak_sorted x l :
  StronglySorted byStreak l -> StronglySorted byStreak (insertByStreak x l).
Proof.
  induction 1 as [|y l Hl IH Hy]; simpl.
  - repeat constructor.
  - destruct (Z.ltb_spec (Goal.streak x) (Goal.streak y)) as [Hlt|Hge].
    + constructor; [done|].
      rewrite insertByStreak_perm. constructor; [unfold byStreak; lia | done].
    + constructor; [by constructor|].
      constructor; [done|].
      eapply Forall_impl; [exact Hy|]. unfold byStreak. intros z Hz. lia.
Qed.

Lemma sortByStreak_sorted l : StronglySorted byStreak (sortByStreak l).
Proof.
  unfold sortByStreak. induction l as [|x l IH]; simpl.
  - constructor.
  - by apply insertByStreak_sorted.
Qed.

(** The sort is stable: goals of equal streak keep their order. *)
Lemma insertByStreak_filter k x l :
  filter (fun g => Goal.streak g = k) (insertByStreak x l) =
  filter (fun g => Goal.streak g = k) (x :: l).
Proof.
  induction l as [|y l IH]; simpl; [done|].
  destruct (Z.ltb_spec (Goal.streak x) (Goal.streak y)) as [Hlt|Hge]; [|done].
  rewrite (filter_cons _ y (insertByStreak x l)), IH, !filter_cons.
  destruct (decide (Goal.streak x = k)), (decide (Goal.streak y = k));
    try done. lia.
Qed.

Lemma sortByStreak_stable k l :
  filter (fun g => Goal.streak g = k) (sortByStreak l) =
  filter (fun g => Goal.streak g = k) l.
Proof.
  unfold sortByStreak. induction l as [|x l IH]; simpl; [done|].
  by rewrite insertByStreak_filter, !filter_cons, IH.
Qed.

Lemma StronglySorted_app_cross {A} (R : A -> A -> Prop) l1 l2 :
  StronglySorted R (l1 ++ l2) -> Forall (fun x => Forall (R x) l2) l1.
Proof.
  induction l1 as [|x l1 IH]; simpl; [constructor|].
  intros Hs. apply StronglySorted_inv in Hs as [Hs Hx].
  constructor; [|by apply IH].
  by apply Forall_app in Hx as [_ Hx].
Qed.

Lemma StronglySorted_app_left {A} (R : A -> A -> Prop) l1 l2 :
  StronglySorted R (l1 ++ l2) -> StronglySorted R l1.
Proof.
  induction l1 as [|x l1 IH]; simpl; [constructor|].
  intros Hs. apply StronglySorted_inv in Hs as [Hs Hx].
  constructor; [by apply IH|].
  by apply Forall_app in Hx as [Hx _].
Qed.

(** X15.  The streak leaders are at most five active goals, in
    decreasing order of streak; with the goals the slice leaves out they are
    a permutation of the active goals, none of those left out has a longer
    streak than a leader, and goals of equal streak keep the order they have
    in the state. *)
Theorem streakLeaders_are_the_top_five state :
  let leaders := streakLeaders state in
  let rest := drop 5 (sortByStreak (activeGoals (goals state))) in
  (length leaders <= 5)%nat /\
  leaders ++ rest ≡ₚ activeGoals (goals state) /\
  StronglySorted byStreak leaders /\
  Forall (fun x => Forall (fun y => Goal.streak y <= Goal.streak x) rest)
         leaders /\
  (forall k,
     filter (fun g => Goal.streak g = k) (leaders ++ rest) =
     filter (fun g => Goal.streak g = k) (activeGoals (goals state))).
Proof.
  intros leaders rest. unfold leaders, rest, streakLeaders.
  set (sorted := sortByStreak (activeGoals (goals state))).
  pose proof (sortByStreak_sorted (activeGoals (goals state))) as Hsorted.
  fold sorted in Hsorted.
  split; [rewrite length_take; lia|].
  rewrite take_drop.
  split; [apply sortByStreak_perm|].
  rewrite <- (take_drop 5 sorted) in Hsorted.
  split; [by apply StronglySorted_app_left in Hsorted|].
  split; [by apply StronglySorted_app_cross in Hsorted|].
  intros k. apply sortByStreak_stable.
Qed.

(** ** The countdown of the first store *)

Lemma Simple_tick_step state :
  0 <= Simple.timerMinutes state -> 0 <= Simple.timerSeconds state <= 59 ->
  0 < Simple.secondsLeft state ->
  let state' := Simple.tickTimer state in
  Simple.secondsLeft state' = Simple.secondsLeft state - 1 /\
  0 <= Simple.timerMinutes state' /\
  0 <= Simple.timerSeconds state' <= 59 /\
  Simple.isTimerRunning state' = Simple.isTimerRunning state /\
  Simple.tasks state' = Simple.tasks state /\
  Simple.goals state' = Simple.goals state.
Proof.
  unfold Simple.secondsLeft, Simple.tickTimer. intros Hm Hs Hleft.
  destruct (Z.eqb_spec (Simple.timerMinutes state) 0) as [Hm0|Hm0];
    destruct (Z.eqb_spec (Simple.timerSeconds state) 0) as [Hs0|Hs0];
    simpl; try lia;
    destruct (Z.ltb_spec 0 (Simple.timerSeconds state)); simpl;
    repeat split; (done || lia).
Qed.

Lemma Simple_tick_zero state :
  Simple.timerMinutes state = 0 -> Simple.timerSeconds state = 0 ->
  Simple.isTimerRunning (Simple.tickTimer state) = false /\
  Simple.secondsLeft (Simple.tickTimer state) = 0.
Proof.
  intros Hm Hs. unfold Simple.tickTimer, Simple.secondsLeft.
  rewrite Hm, Hs. simpl. split; [done | lia].
Qed.

(** X16.  The countdown of the first store: from a time with minutes not
    negative and seconds between 0 and 59, [n] ticks, for [n] at most the
    seconds left, take exactly [n] seconds off, keep the seconds between 0
    and 59 and do not stop the timer; when [n] is all the seconds left the
    timer shows 0:00, and the next tick stops it there. *)
Theorem Simple_countdown state (n : nat) :
  0 <= Simple.timerMinutes state -> 0 <= Simple.timerSeconds state <= 59 ->
  Z.of_nat n <= Simple.secondsLeft state ->
  let state' := Nat.iter n Simple.tickTimer state in
  Simple.secondsLeft state' = Simple.secondsLeft state - Z.of_nat n /\
  0 <= Simple.timerMinutes state' /\
  0 <= Simple.timerSeconds state' <= 59 /\
  Simple.isTimerRunning state' = Simple.isTimerRunning state /\
  (Z.of_nat n = Simple.secondsLeft state ->
   Simple.timerMinutes state' = 0 /\ Simple.timerSeconds state' = 0 /\
   Simple.isTimerRunning (Simple.tickTimer state') = false /\
   Simple.secondsLeft (Simple.tickTimer state') = 0).
Proof.
  intros Hm Hs. induction n as [|n IH]; intros Hn state'.
  - subst state'. simpl. split; [lia|]. split; [done|]. split; [done|].
    split; [done|]. intros Hz. unfold Simple.secondsLeft in *. simpl in Hz.
    assert (Simple.timerMinutes state = 0) as Hm0 by lia.
    assert (Simple.timerSeconds state = 0) as Hs0 by lia.
    split; [done|]. split; [done|]. by apply Simple_tick_zero.
  - destruct IH as (Hleft & Hm' & Hs' & Hrun & _); [lia|].
    subst state'. simpl.
    set (mid := Nat.iter n Simple.tickTimer state) in *.
    destruct (Simple_tick_step mid Hm' Hs') as (Hl2 & Hm2 & Hs2 & Hr2 & _);
      [lia|].
    split; [lia|]. split; [done|]. split; [done|].
    split; [congruence|]. intros Hz.
    set (final := Simple.tickTimer mid) in *.
    unfold Simple.secondsLeft in *.
    assert (Simple.timerMinutes final = 0) as Hm0 by lia.
    assert (Simple.timerSeconds final = 0) as Hs0 by lia.
    split; [done|]. split; [done|]. by apply Simple_tick_zero.
Qed.

Lemma Simple_countdown_witness :
  let state' := Nat.iter 65 Simple.tickTimer simpleState in
  Simple.secondsLeft state' = Simple.secondsLeft simpleState - Z.of_nat 65 /\
  0 <= Simple.timerMinutes state' /\
  0 <= Simple.timerSeconds state' <= 59 /\
  Simple.isTimerRunning state' = Simple.isTimerRunning simpleState /\
  (Z.of_nat 65 = Simple.secondsLeft simpleState ->
   Simple.timerMinutes state' = 0 /\ Simple.timerSeconds state' = 0 /\
   Simple.isTimerRunning (Simple.tickTimer state') = false /\
   Simple.secondsLeft (Simple.tickTimer state') = 0).
Proof.
  apply (Simple_countdown simpleState 65).
  - simpl. lia.
  - simpl. lia.
  - vm_compute. discriminate.
Defined.

(** ** Tasks and daily goals of the first store *)

(** X17.  [toggleTask] of the first store called twice with the
    same id gives the state back. *)
Theorem Simple_toggleTask_involution tid state :
  Simple.toggleTask tid (Simple.toggleTask tid state) = state.
Proof.
  destruct state as [tasks goals m s r]. unfold Simple.toggleTask. simpl.
  f_equal. rewrite <- list_fmap_compose.
  rewrite <- (list_fmap_id tasks) at 2. apply list_fmap_ext.
  intros i [tid' ttl done p] _. simpl.
  repeat (case_decide; simpl in *); try done.
  by rewrite negb_involutive.
Qed.

Lemma Simple_toggleGoal_lookup redate c gid state i g :
  Simple.goals state !! i = Some g -> Simple.id g = gid ->
  Simple.goals (Simple.toggleGoal redate c gid state) !! i =
  Some (Simple.toggled redate c g).
Proof.
  intros Hi Hid. unfold Simple.toggleGoal. simpl.
  rewrite list_lookup_fmap, Hi. simpl. by rewrite decide_True.
Qed.

Lemma Simple_toggled_twice redate c g :
  redate (Simple.todayString c) = Simple.todayString c ->
  Simple.completed g = true ->
  Simple.lastCompleted g = Some (Simple.todayString c) ->
  Simple.toggled redate c (Simple.toggled redate c g) =
  {| Simple.id := Simple.id g;
     Simple.title := Simple.title g;
     Simple.completed := true;
     Simple.streak := Simple.streak g + 1;
     Simple.lastCompleted := Some (Simple.todayString c) |}.
Proof.
  intros Hre Hdone Hlast. unfold Simple.toggled. rewrite Hdone. simpl.
  rewrite Hlast. f_equal.
  destruct (Simple.todayString c) as [|a s] eqn:Ht; [done|].
  rewrite Hre.
  rewrite (bool_decide_eq_true_2 (String a s = String a s)) by done.
  by rewrite orb_true_r.
Qed.

Lemma Simple_iter_lookup_id redate c gid (k : nat) state i g :
  Simple.goals state !! i = Some g ->
  exists g',
    Simple.goals (Nat.iter k (Simple.toggleGoal redate c gid) state) !! i
      = Some g' /\
    Simple.id g' = Simple.id g.
Proof.
  intros Hi. induction k as [|k (g0 & Hg0 & Hid0)].
  - by exists g.
  - rewrite Nat.iter_succ.
    set (mid := Nat.iter k (Simple.toggleGoal redate c gid) state) in *.
    unfold Simple.toggleGoal. simpl.
    rewrite list_lookup_fmap, Hg0. simpl.
    eexists. split; [done|]. by destruct (decide _).
Qed.

(** X18.  [toggleGoal] of the first store does not lower the streak
    when a completion is undone, and a completion on the day of the last
    one adds 1: for a goal not completed, and a date string of today that
    [new Date(..).toDateString()] reads back, [2 * n + 1] toggles on one day
    leave the goal completed with [n] more on its streak than one toggle
    gives. *)
Theorem Simple_retoggle_inflates_streak redate c gid state i g (n : nat) :
  Simple.goals state !! i = Some g -> Simple.id g = gid ->
  Simple.completed g = false ->
  redate (Simple.todayString c) = Simple.todayString c ->
  exists g',
    Simple.goals (Nat.iter (2 * n + 1) (Simple.toggleGoal redate c gid) state)
      !! i = Some g' /\
    Simple.completed g' = true /\
    Simple.lastCompleted g' = Some (Simple.todayString c) /\
    Simple.streak g' =
      Simple.streak (Simple.toggled redate c g) + Z.of_nat n.
Proof.
  intros Hi Hid Hnot Hre.
  induction n as [|n (g' & Hg' & Hdone & Hlast & Hstreak)].
  - simpl. exists (Simple.toggled redate c g).
    split; [by apply Simple_toggleGoal_lookup|].
    split; [unfold Simple.toggled; by rewrite Hnot|].
    split; [unfold Simple.toggled; by rewrite Hnot|].
    change (Z.of_nat 0) with 0. by rewrite Z.add_0_r.
  - replace (2 * S n + 1)%nat with (S (S (2 * n + 1))) by lia.
    rewrite !Nat.iter_succ.
    set (mid := Nat.iter (2 * n + 1) (Simple.toggleGoal redate c gid) state)
      in *.
    assert (Hid' : Simple.id g' = gid).
    { destruct (Simple_iter_lookup_id redate c gid (2 * n + 1) state i g Hi)
        as (g0 & Hg0 & Hid0).
      fold mid in Hg0. congruence. }
    pose proof (Simple_toggleGoal_lookup redate c gid mid i g' Hg' Hid') as H1.
    assert (Hid1 : Simple.id (Simple.toggled redate c g') = gid) by done.
    pose proof (Simple_toggleGoal_lookup redate c gid _ i _ H1 Hid1) as H2.
    rewrite (Simple_toggled_twice redate c g' Hre Hdone Hlast) in H2.
    eexists. split; [exact H2|].
    split; [done|]. split; [done|].
    cbn [Simple.streak]. rewrite Hstreak. lia.
Qed.

Lemma Simple_retoggle_inflates_streak_witness :
  exists g',
    Simple.goals
      (Nat.iter (2 * 2 + 1)
         (Simple.toggleGoal (fun s => s) simpleClock "1709539200001")
         simpleState) !! 0%nat = Some g' /\
    Simple.completed g' = true /\
    Simple.lastCompleted g' = Some (Simple.todayString simpleClock) /\
    Simple.streak g' = 4 + Z.of_nat 2.
Proof.
  apply (Simple_retoggle_inflates_streak (fun s => s) simpleClock
           "1709539200001" simpleState 0%nat
           {| Simple.id := "1709539200001";
              Simple.title := "Meditate";
              Simple.completed := false;
              Simple.streak := 3;
              Simple.lastCompleted := Some "Sun Mar 03 2024" |} 2);
    reflexivity.
Defined.

(** ** Projects *)

Lemma firstProjectId_cons p ps :
  FullStore.firstProjectId (p :: ps) = Project.id p.
Proof. simpl. by destruct (Project.id p). Qed.

Lemma firstProjectId_valid ps :
  validActive ps (FullStore.firstProjectId ps).
Proof.
  destruct ps as [|p ps]; [by left|].
  rewrite firstProjectId_cons. right. simpl. apply list_elem_of_here.
Qed.

(** X19.  [deleteProject] of the second store removes the project and
    every task, idea and resource of the project; an active project that
    was one of the projects, or the empty id, is so again after the call,
    and is never the deleted one (for a non-empty id). *)
Theorem deleteProject_cascades pid state :
  validActive (FullStore.projects state) (FullStore.activeProjectId state) ->
  let state' := FullStore.deleteProject pid state in
  Forall (fun p => Project.id p ≠ pid) (FullStore.projects state') /\
  Forall (fun t => Task.projectId t ≠ pid) (FullStore.tasks state') /\
  Forall (fun i => Idea.projectId i ≠ pid) (FullStore.ideas state') /\
  Forall (fun r => Resource.projectId r ≠ pid) (FullStore.resources state') /\
  validActive (FullStore.projects state') (FullStore.activeProjectId state') /\
  (pid ≠ EmptyString -> FullStore.activeProjectId state' ≠ pid).
Proof.
  intros Hvalid. simpl.
  assert (Hfilter : forall {A} (key : A -> string) (l : list A),
             Forall (fun x => key x ≠ pid) (filter (fun x => key x ≠ pid) l)).
  { intros A key l. apply Forall_forall. intros x Hx.
    by apply list_elem_of_filter in Hx as [Hx _]. }
  split; [apply (Hfilter _ Project.id)|].
  split; [apply (Hfilter _ Task.projectId)|].
  split; [apply (Hfilter _ Idea.projectId)|].
  split; [apply (Hfilter _ Resource.projectId)|].
  destruct (decide (FullStore.activeProjectId state = pid)) as [Heq|Hne].
  - split; [apply firstProjectId_valid|].
    intros Hpid.
    destruct (filter _ (FullStore.projects state)) as [|p ps] eqn:Hf.
    + simpl. congruence.
    + rewrite firstProjectId_cons.
      assert (Hp : p ∈ filter (fun project => Project.id project ≠ pid)
                         (FullStore.projects state))
        by (rewrite Hf; apply list_elem_of_here).
      by apply list_elem_of_filter in Hp as [Hp _].
  - split; [|done].
    destruct Hvalid as [Hempty|Hin]; [by left|right].
    apply list_elem_of_fmap in Hin as (p & Hid & Hin).
    apply list_elem_of_fmap. exists p. split; [done|].
    apply list_elem_of_filter. split; [congruence | done].
Qed.

Lemma deleteProject_cascades_witness :
  let state' := FullStore.deleteProject "default-1" sampleStore in
  Forall (fun p => Project.id p ≠ "default-1") (FullStore.projects state') /\
  Forall (fun t => Task.projectId t ≠ "default-1") (FullStore.tasks state') /\
  Forall (fun i => Idea.projectId i ≠ "default-1") (FullStore.ideas state') /\
  Forall (fun r => Resource.projectId r ≠ "default-1")
         (FullStore.resources state') /\
  validActive (FullStore.projects state') (FullStore.activeProjectId state') /\
  ("default-1" ≠ EmptyString ->
   FullStore.activeProjectId state' ≠ "default-1").
Proof.
  apply (deleteProject_cascades "default-1" sampleStore).
  right. apply (bool_decide_unpack _). vm_compute. exact I.
Defined.

Lemma filter_other_length pid (ps : list Project.t) :
  NoDup (Project.id <$> ps) ->
  (length ps <= S (length (filter (fun p => Project.id p ≠ pid) ps)))%nat.
Proof.
  induction ps as [|p ps IH]; simpl; [lia|].
  intros Hnd. apply NoDup_cons in Hnd as [Hfresh Hnd].
  rewrite filter_cons. destruct (decide (Project.id p ≠ pid)) as [Hne|Heq].
  - simpl. specialize (IH Hnd). lia.
  - assert (Hid : Project.id p = pid)
      by (by destruct (decide (Project.id p = pid))).
    assert (Hall : filter (fun p => Project.id p ≠ pid) ps = ps).
    { clear IH. induction ps as [|q ps IH]; [done|].
      apply not_elem_of_cons in Hfresh as [Hq Hfresh].
      apply NoDup_cons in Hnd as [_ Hnd].
      rewrite filter_cons, decide_True by congruence.
      by rewrite IH. }
    rewrite Hall. lia.
Qed.

(** X20.  [deleteProject] of the [ProjectTracker] component, which
    refuses to delete the last project: with distinct project ids, a
    non-empty project list and an active project among them, after the call
    the list is still non-empty and the active project is still one of the
    list. *)
Theorem ProjectTracker_keeps_a_project pid state :
  NoDup (Project.id <$> ProjectTracker.projects state) ->
  ProjectTracker.projects state ≠ [] ->
  ProjectTracker.activeProjectId state
    ∈ Project.id <$> ProjectTracker.projects state ->
  let state' := ProjectTracker.deleteProject pid state in
  ProjectTracker.projects state' ≠ [] /\
  ProjectTracker.activeProjectId state'
    ∈ Project.id <$> ProjectTracker.projects state'.
Proof.
  intros Hnd Hne Hactive. unfold ProjectTracker.deleteProject.
  destruct (Nat.leb_spec (length (ProjectTracker.projects state)) 1)
    as [Hle|Hgt]; [done|]. simpl.
  pose proof (filter_other_length pid _ Hnd) as Hlen.
  destruct (filter _ (ProjectTracker.projects state)) as [|p ps] eqn:Hf;
    [simpl in Hlen; lia|].
  split; [done|].
  destruct (decide (ProjectTracker.activeProjectId state = pid)) as [Heq|Hneq].
  - rewrite firstProjectId_cons. simpl. apply list_elem_of_here.
  - rewrite <- Hf.
    apply list_elem_of_fmap in Hactive as (q & Hid & Hin).
    apply list_elem_of_fmap. exists q. split; [done|].
    apply list_elem_of_filter. split; [congruence | done].
Qed.

Lemma ProjectTracker_keeps_a_project_witness :
  let state' := ProjectTracker.deleteProject "default-1" sampleTracker in
  ProjectTracker.projects state' ≠ [] /\
  ProjectTracker.activeProjectId state'
    ∈ Project.id <$> ProjectTracker.projects state'.
Proof.
  apply (ProjectTracker_keeps_a_project "default-1" sampleTracker).
  - apply (bool_decide_unpack _). vm_compute. exact I.
  - discriminate.
  - apply (bool_decide_unpack _). vm_compute. exact I.
Defined.

(** ** Tasks and their ledger records *)

Lemma updateFirstDay_dates day f ledger :
  (forall d, DailyProgress.date (f d) = DailyProgress.date d) ->
  DailyProgress.date <$> FullStore.updateFirstDay day f ledger =
  DailyProgress.date <$> ledger.
Proof.
  intros Hf. induction ledger as [|d l IH]; [done|].
  cbn [FullStore.updateFirstDay].
  destruct (decide _); rewrite !fmap_cons; [by rewrite Hf | by rewrite IH].
Qed.

Lemma updateFirstDay_goals day f ledger :
  (forall d, DailyProgress.goals (f d) = DailyProgress.goals d) ->
  DailyProgress.goals <$> FullStore.updateFirstDay day f ledger =
  DailyProgress.goals <$> ledger.
Proof.
  intros Hf. induction ledger as [|d l IH]; [done|].
  cbn [FullStore.updateFirstDay].
  destruct (decide _); rewrite !fmap_cons; [by rewrite Hf | by rewrite IH].
Qed.

Lemma updateFirstDay_absent day f ledger :
  findDay day ledger = None -> FullStore.updateFirstDay day f ledger = ledger.
Proof.
  rewrite findDay_None. induction 1 as [|d l Hd _ IH]; simpl; [done|].
  by rewrite decide_False, IH.
Qed.

Lemma updateFirstDay_found day f ledger p :
  (forall d, DailyProgress.date (f d) = DailyProgress.date d) ->
  findDay day ledger = Some p ->
  findDay day (FullStore.updateFirstDay day f ledger) = Some (f p).
Proof.
  intros Hf. unfold findDay. induction ledger as [|d l IH]; simpl; [done|].
  destruct (decide (DailyProgress.date d = day)) as [Hd|Hd].
  - rewrite bool_decide_eq_true_2 by done. intros [= <-]. simpl.
    by rewrite bool_decide_eq_true_2 by (by rewrite Hf).
  - rewrite bool_decide_eq_false_2 by done. intros Hp. simpl.
    rewrite bool_decide_eq_false_2 by done. by apply IH.
Qed.

(** X21.  [toggleTask] of the second store called twice, on any two
    days, gives the tasks back; one call keeps the dates and the goal records
    of the ledger, and changes nothing of the ledger when there is no entry
    for today: it creates none, so a completion on a day without an entry is
    not recorded. *)
Theorem toggleTask_twice_and_ledger c c' tid state :
  let state1 := FullStore.toggleTask c tid state in
  FullStore.tasks (FullStore.toggleTask c' tid state1) =
    FullStore.tasks state /\
  DailyProgress.date <$> FullStore.dailyProgress state1 =
    DailyProgress.date <$> FullStore.dailyProgress state /\
  DailyProgress.goals <$> FullStore.dailyProgress state1 =
    DailyProgress.goals <$> FullStore.dailyProgress state /\
  (findDay (today c) (FullStore.dailyProgress state) = None ->
   FullStore.dailyProgress state1 = FullStore.dailyProgress state).
Proof.
  simpl. split; [|split; [|split]].
  - rewrite <- list_fmap_compose.
    rewrite <- (list_fmap_id (FullStore.tasks state)) at 2.
    apply list_fmap_ext. intros i task _. simpl.
    destruct (decide (Task.id task = tid)) as [Hid|Hid]; simpl.
    + rewrite decide_True by done. destruct task. unfold FullStore.flipTask.
      simpl. by rewrite negb_involutive.
    + by rewrite decide_False.
  - by apply updateFirstDay_dates.
  - by apply updateFirstDay_goals.
  - apply updateFirstDay_absent.
Qed.

Lemma flipFirstRecord_absent tid l :
  Forall (fun r => taskId r ≠ tid) l -> FullStore.flipFirstRecord tid l = None.
Proof.
  induction 1 as [|r l Hr _ IH]; simpl; [done|].
  by rewrite decide_False, IH.
Qed.

(** X22.  When today's entry of the ledger has no record
    of the task, [toggleTask] pushes a record that says completed, whatever
    the task says: a task of the id gets the negation of its own flag (so
    un-completing a task completed on an earlier day is recorded as a
    completion), and the record is pushed even when no task has the id. *)
Theorem toggleTask_first_record_says_completed c tid state p :
  findDay (today c) (FullStore.dailyProgress state) = Some p ->
  Forall (fun r => taskId r ≠ tid) (DailyProgress.tasks p) ->
  let state' := FullStore.toggleTask c tid state in
  (exists p',
     findDay (today c) (FullStore.dailyProgress state') = Some p' /\
     DailyProgress.tasks p' =
       DailyProgress.tasks p ++ [{| taskId := tid; taskCompleted := true |}]) /\
  (forall i task,
     FullStore.tasks state !! i = Some task -> Task.id task = tid ->
     Task.completed <$> FullStore.tasks state' !! i =
       Some (negb (Task.completed task))) /\
  (Forall (fun task => Task.id task ≠ tid) (FullStore.tasks state) ->
   FullStore.tasks state' = FullStore.tasks state).
Proof.
  intros Hp Hnone. simpl. split; [|split].
  - eexists. split.
    + by apply updateFirstDay_found.
    + simpl. unfold FullStore.toggleTaskRecord.
      by rewrite flipFirstRecord_absent.
  - intros i task Hi Hid. rewrite list_lookup_fmap, Hi. simpl.
    by rewrite decide_True.
  - intros Hall. rewrite <- (list_fmap_id (FullStore.tasks state)) at 2.
    apply list_fmap_ext. intros i task Hi. simpl.
    rewrite Forall_forall in Hall.
    rewrite decide_False; [done|].
    apply Hall. by eapply list_elem_of_lookup_2.
Qed.

Lemma toggleTask_first_record_says_completed_witness :
  let state' := FullStore.toggleTask day1 "t1" sampleStore in
  (exists p',
     findDay (today day1) (FullStore.dailyProgress state') = Some p' /\
     DailyProgress.tasks p' =
       DailyProgress.tasks sampleDay
       ++ [{| taskId := "t1"; taskCompleted := true |}]) /\
  (forall i task,
     FullStore.tasks sampleStore !! i = Some task -> Task.id task = "t1" ->
     Task.completed <$> FullStore.tasks state' !! i =
       Some (negb (Task.completed task))) /\
  (Forall (fun task => Task.id task ≠ "t1") (FullStore.tasks sampleStore) ->
   FullStore.tasks state' = FullStore.tasks sampleStore).
Proof.
  apply (toggleTask_first_record_says_completed day1 "t1" sampleStore
           sampleDay).
  - reflexivity.
  - constructor.
Defined.

(** ** Statistics of a project *)

Lemma phaseTotal_bump counts phase :
  phaseTotal (FullStore.bump counts phase) = phaseTotal counts + 1.
Proof.
  unfold phaseTotal, FullStore.bump, FullStore.allPhases. simpl.
  destruct phase; repeat case_decide; try done; lia.
Qed.

Lemma phaseTotal_foldl counts (ideas : list Idea.t) :
  phaseTotal (foldl (fun counts idea => FullStore.bump counts (Idea.phase idea))
                    counts ideas) =
  phaseTotal counts + Z.of_nat (length ideas).
Proof.
  revert counts. induction ideas as [|i l IH]; intros counts; simpl.
  - lia.
  - rewrite IH, phaseTotal_bump. lia.
Qed.

Lemma bump_nonneg counts phase :
  (forall p, 0 <= counts p) -> forall p, 0 <= FullStore.bump counts phase p.
Proof.
  intros H p. unfold FullStore.bump. specialize (H p).
  destruct (decide _); lia.
Qed.

(** X23.  In [getProjectStats] the counts of the seven phases add up to
    the number of ideas of the project, none is negative, and the number of
    completed tasks is between 0 and the number of tasks. *)
Theorem getProjectStats_counts pid state :
  let stats := FullStore.getProjectStats pid state in
  foldr Z.add 0
    (FullStore.ProjectStats.phaseCounts stats <$> FullStore.allPhases) =
    FullStore.ProjectStats.totalIdeas stats /\
  (forall p, 0 <= FullStore.ProjectStats.phaseCounts stats p) /\
  0 <= FullStore.ProjectStats.completedTasks stats
    <= FullStore.ProjectStats.totalTasks stats.
Proof.
  intros stats. subst stats. unfold FullStore.getProjectStats.
  cbn [FullStore.ProjectStats.phaseCounts FullStore.ProjectStats.totalIdeas
       FullStore.ProjectStats.totalTasks
       FullStore.ProjectStats.completedTasks].
  split; [|split].
  - etransitivity; [apply (phaseTotal_foldl (fun _ => 0))|].
    change (phaseTotal (fun _ => 0)) with 0. lia.
  - generalize (filter (fun idea => Idea.projectId idea = pid)
                       (FullStore.ideas state)).
    intros l. assert (H0 : forall p : SDLCPhase.t, 0 <= (fun _ => 0) p) by done.
    revert H0. generalize (fun _ : SDLCPhase.t => 0).
    induction l as [|i l IH]; intros counts H0; simpl; [done|].
    apply IH. by apply bump_nonneg.
  - pose proof (List.filter_length_le Task.completed
                  (filter (fun task => Task.projectId task = pid)
                          (FullStore.tasks state))). lia.
Qed.

(** ** The focus timer of the second store *)

Lemma timerStep_inv state a :
  timerInv state -> timerInv (FullStore.timerStep state a).
Proof.
  unfold timerInv. intros [Hn Ht].
  destruct a as [duration mode| | |c|c]; simpl; try done.
  - unfold FullStore.tickTimer.
    destruct (Timer.currentTime (FullStore.timer state) <=? 0); simpl;
      [|done].
    unfold fmap in *. split; lia.
  - unfold fmap in *. split; lia.
Qed.

(** X24.  When the counters of the focus timer agree with its
    history (as many completed sessions as sessions logged, a total focus
    time that is the sum of their durations), they still do after any
    sequence of [startTimer], [pauseTimer], [resetTimer], [tickTimer] and
    [completeTimer]. *)
Theorem timer_counters_match_history actions state :
  timerInv state -> timerInv (foldl FullStore.timerStep state actions).
Proof.
  revert state. induction actions as [|a l IH]; intros state Hinv; simpl.
  - done.
  - by apply IH, timerStep_inv.
Qed.

Lemma timer_counters_match_history_witness :
  timerInv
    (foldl FullStore.timerStep (initialStore day1)
       [FullStore.StartTimer 2 TimerMode.focus; FullStore.TickTimer day1;
        FullStore.TickTimer day1; FullStore.TickTimer day1;
        FullStore.PauseTimer; FullStore.ResetTimer;
        FullStore.CompleteTimer day2]).
Proof.
  apply (timer_counters_match_history
           [FullStore.StartTimer 2 TimerMode.focus; FullStore.TickTimer day1;
            FullStore.TickTimer day1; FullStore.TickTimer day1;
            FullStore.PauseTimer; FullStore.ResetTimer;
            FullStore.CompleteTimer day2]
           (initialStore day1)).
  split; reflexivity.
Defined.

Lemma tick_positive c state :
  0 < Timer.currentTime (FullStore.timer state) ->
  Timer.currentTime (FullStore.timer (FullStore.tickTimer c state)) =
    Timer.currentTime (FullStore.timer state) - 1 /\
  Timer.isRunning (FullStore.timer (FullStore.tickTimer c state)) =
    Timer.isRunning (FullStore.timer state) /\
  Timer.selectedDuration (FullStore.timer (FullStore.tickTimer c state)) =
    Timer.selectedDuration (FullStore.timer state) /\
  Timer.completedSessions (FullStore.timer (FullStore.tickTimer c state)) =
    Timer.completedSessions (FullStore.timer state) /\
  Timer.totalFocusTime (FullStore.timer (FullStore.tickTimer c state)) =
    Timer.totalFocusTime (FullStore.timer state) /\
  FullStore.timerHistory (FullStore.tickTimer c state) =
    FullStore.timerHistory state.
Proof.
  intros Hpos. unfold FullStore.tickTimer.
  rewrite (proj2 (Z.leb_gt _ _)) by lia. done.
Qed.

(** The ticks of a list of clocks, oldest first. *)
Lemma ticks_count_down (cs : list Clock) state :
  Z.of_nat (length cs) <= Timer.currentTime (FullStore.timer state) ->
  let state' := foldl (fun st c => FullStore.tickTimer c st) state cs in
  Timer.currentTime (FullStore.timer state') =
    Timer.currentTime (FullStore.timer state) - Z.of_nat (length cs) /\
  Timer.isRunning (FullStore.timer state') =
    Timer.isRunning (FullStore.timer state) /\
  Timer.selectedDuration (FullStore.timer state') =
    Timer.selectedDuration (FullStore.timer state) /\
  Timer.completedSessions (FullStore.timer state') =
    Timer.completedSessions (FullStore.timer state) /\
  Timer.totalFocusTime (FullStore.timer state') =
    Timer.totalFocusTime (FullStore.timer state) /\
  FullStore.timerHistory state' = FullStore.timerHistory state.
Proof.
  revert state. induction cs as [|c cs IH]; intros state Hlen.
  - simpl. repeat split; lia.
  - change (length (c :: cs)) with (S (length cs)) in *.
    destruct (tick_positive c state) as (T1 & T2 & T3 & T4 & T5 & T6); [lia|].
    cbn [foldl]. set (mid := FullStore.tickTimer c state) in *.
    destruct (IH mid) as (H1 & H2 & H3 & H4 & H5 & H6); [lia|].
    cbv zeta in *.
    split; [lia|]. split; [congruence|]. split; [congruence|].
    split; [congruence|]. split; congruence.
Qed.

Lemma tick_zero c state :
  Timer.currentTime (FullStore.timer state) <= 0 ->
  FullStore.tickTimer c state = FullStore.completeTimer c state.
Proof.
  intros Hz. unfold FullStore.tickTimer.
  by rewrite (proj2 (Z.leb_le _ _)) by lia.
Qed.

Lemma ticks_at_zero (cs : list Clock) state :
  Timer.currentTime (FullStore.timer state) <= 0 ->
  let state' := foldl (fun st c => FullStore.tickTimer c st) state cs in
  Timer.completedSessions (FullStore.timer state') =
    Timer.completedSessions (FullStore.timer state) + Z.of_nat (length cs) /\
  Z.of_nat (length (FullStore.timerHistory state')) =
    Z.of_nat (length (FullStore.timerHistory state)) + Z.of_nat (length cs) /\
  Timer.totalFocusTime (FullStore.timer state') =
    Timer.totalFocusTime (FullStore.timer state)
    + Z.of_nat (length cs) * Timer.selectedDuration (FullStore.timer state).
Proof.
  revert state. induction cs as [|c cs IH]; intros state Hzero.
  - simpl. repeat split; lia.
  - change (length (c :: cs)) with (S (length cs)) in *.
    cbn [foldl]. rewrite (tick_zero c state Hzero).
    set (mid := FullStore.completeTimer c state) in *.
    destruct (IH mid) as (H1 & H2 & H3); [done|]. cbv zeta in *.
    assert (M1 : Timer.completedSessions (FullStore.timer mid) =
                 Timer.completedSessions (FullStore.timer state) + 1) by done.
    assert (M2 : length (FullStore.timerHistory mid) =
                 S (length (FullStore.timerHistory state))) by done.
    assert (M3 : Timer.totalFocusTime (FullStore.timer mid) =
                 Timer.totalFocusTime (FullStore.timer state)
                 + Timer.selectedDuration (FullStore.timer state)) by done.
    assert (M4 : Timer.selectedDuration (FullStore.timer mid) =
                 Timer.selectedDuration (FullStore.timer state)) by done.
    rewrite M4 in H3. split; [lia|]. split; lia.
Qed.

(** X25.  A timer started for [duration] seconds shows 0 after
    [duration] ticks, still running and with no session logged; from there
    every further tick logs one more session and adds the whole duration to
    the total focus time: [tickTimer] at 0 does not test [isRunning]. *)
Theorem timer_runs_down_then_logs_every_tick
    (duration : Z) mode (before after : list Clock) state :
  Z.of_nat (length before) = duration ->
  let started := FullStore.startTimer duration mode state in
  let atZero := foldl (fun st c => FullStore.tickTimer c st) started before in
  let final := foldl (fun st c => FullStore.tickTimer c st) atZero after in
  Timer.currentTime (FullStore.timer atZero) = 0 /\
  Timer.isRunning (FullStore.timer atZero) = true /\
  FullStore.timerHistory atZero = FullStore.timerHistory state /\
  Timer.completedSessions (FullStore.timer final) =
    Timer.completedSessions (FullStore.timer state)
    + Z.of_nat (length after) /\
  length (FullStore.timerHistory final) =
    (length (FullStore.timerHistory state) + length after)%nat /\
  Timer.totalFocusTime (FullStore.timer final) =
    Timer.totalFocusTime (FullStore.timer state)
    + Z.of_nat (length after) * duration.
Proof.
  intros Hlen started atZero final.
  destruct (ticks_count_down before started) as (H1 & H2 & H3 & H4 & H5 & H6).
  { subst started. simpl. lia. }
  fold atZero in H1, H2, H3, H4, H5, H6.
  subst started. simpl in H1, H2, H3, H4, H5, H6.
  destruct (ticks_at_zero after atZero) as (K1 & K2 & K3); [lia|].
  fold final in K1, K2, K3.
  split; [lia|]. split; [done|]. split; [done|].
  rewrite H4 in K1. rewrite H6 in K2. rewrite H5, H3 in K3.
  split; [done|]. split; [lia | done].
Qed.

Lemma timer_runs_down_then_logs_every_tick_witness :
  let started :=
    FullStore.startTimer 2 TimerMode.shortBreak (initialStore day1) in
  let atZero :=
    foldl (fun st c => FullStore.tickTimer c st) started [day1; day1] in
  let final :=
    foldl (fun st c => FullStore.tickTimer c st) atZero [day2; day3] in
  Timer.currentTime (FullStore.timer atZero) = 0 /\
  Timer.isRunning (FullStore.timer atZero) = true /\
  FullStore.timerHistory atZero = FullStore.timerHistory (initialStore day1) /\
  Timer.completedSessions (FullStore.timer final) =
    Timer.completedSessions (FullStore.timer (initialStore day1))
    + Z.of_nat (length [day2; day3]) /\
  length (FullStore.timerHistory final) =
    (length (FullStore.timerHistory (initialStore day1))
     + length [day2; day3])%nat /\
  Timer.totalFocusTime (FullStore.timer final) =
    Timer.totalFocusTime (FullStore.timer (initialStore day1))
    + Z.of_nat (length [day2; day3]) * 2.
Proof.
  apply (timer_runs_down_then_logs_every_tick 2 TimerMode.shortBreak
           [day1; day1] [day2; day3] (initialStore day1)).
  reflexivity.
Defined.

(** ** More on loading *)

(** X26.  When nothing, or the empty string, is stored under
    [zen-goals], [loadFromStorage] returns null and the component starts
    from its defaults for the goals and for the progress, whatever is stored
    under [zen-goal-progress] and without parsing it. *)
Theorem load_without_goals_document parse storage :
  storage "zen-goals" = None \/ storage "zen-goals" = Some EmptyString ->
  TrackerStorage.loadFromStorage parse storage = None /\
  TrackerStorage.initialGoals parse storage = TrackerStorage.Default /\
  TrackerStorage.initialProgress parse storage = TrackerStorage.Default.
Proof.
  intros Hdoc.
  assert (Hload : TrackerStorage.loadFromStorage parse storage = None).
  { unfold TrackerStorage.loadFromStorage. by destruct Hdoc as [-> | ->]. }
  split; [done|]. by apply initial_of_null.
Qed.

Lemma load_without_goals_document_witness :
  TrackerStorage.loadFromStorage JSON_parse
    (storageOf "zen-goal-progress" "[]") = None /\
  TrackerStorage.initialGoals JSON_parse
    (storageOf "zen-goal-progress" "[]") = TrackerStorage.Default /\
  TrackerStorage.initialProgress JSON_parse
    (storageOf "zen-goal-progress" "[]") = TrackerStorage.Default.
Proof.
  apply (load_without_goals_document JSON_parse
           (storageOf "zen-goal-progress" "[]")).
  left. reflexivity.
Defined.

Lemma mapCompletion_unreadable f items :
  (forall v, unreadable v = true -> f v = Throw TypeError) ->
  (forall v, exists r, f v = Normal r \/ f v = Throw TypeError) ->
  Exists (fun v => unreadable v = true) items ->
  TrackerStorage.mapCompletion f items = Throw TypeError.
Proof.
  intros Hbad Htot. induction 1 as [v l Hv|v l Hl IH]; simpl.
  - by rewrite (Hbad v Hv).
  - rewrite IH. destruct (Htot v) as [r [-> | ->]]; done.
Qed.

Lemma reviveGoal_total v :
  exists r, TrackerStorage.reviveGoal v = Normal r \/
            TrackerStorage.reviveGoal v = Throw TypeError.
Proof.
  unfold TrackerStorage.reviveGoal, newDate.
  destruct v; simpl; try (by exists JNull; right);
    repeat match goal with
      | |- context [hasPrimitive ?x] => destruct (hasPrimitive x); simpl
      | |- context [truthy ?x] => destruct (truthy x); simpl
      end;
    first [by eexists; left | by exists JNull; right].
Qed.

(** X27.  When the document stored under [zen-goals] parses to
    something other than an array, or to an array with a null among its
    elements, the [map] over the goals raises, [loadFromStorage] catches it
    and returns null, and the component starts from its defaults. *)
Theorem load_goals_of_another_shape parse storage saved v :
  storage "zen-goals" = Some saved -> saved ≠ EmptyString ->
  parse saved = Normal v ->
  match v with
  | JArray items => Exists (fun x => unreadable x = true) items
  | _ => True
  end ->
  TrackerStorage.loadFromStorage parse storage = None /\
  TrackerStorage.initialGoals parse storage = TrackerStorage.Default /\
  TrackerStorage.initialProgress parse storage = TrackerStorage.Default.
Proof.
  intros Hdoc Hne Hparse Hshape.
  assert (Hload : TrackerStorage.loadFromStorage parse storage = None).
  { unfold TrackerStorage.loadFromStorage, TrackerStorage.loadSaved.
    rewrite Hdoc. destruct saved as [|a s]; [done|]. simpl.
    rewrite Hparse. simpl.
    destruct v; simpl; try done.
    rewrite mapCompletion_unreadable; [done| |apply reviveGoal_total|done].
    intros x Hx. by destruct x. }
  split; [done|]. by apply initial_of_null.
Qed.

Lemma load_goals_of_another_shape_witness :
  TrackerStorage.loadFromStorage JSON_parse
    (storageOf "zen-goals" "[{},null]") = None /\
  TrackerStorage.initialGoals JSON_parse
    (storageOf "zen-goals" "[{},null]") = TrackerStorage.Default /\
  TrackerStorage.initialProgress JSON_parse
    (storageOf "zen-goals" "[{},null]") = TrackerStorage.Default.
Proof.
  apply (load_goals_of_another_shape JSON_parse
           (storageOf "zen-goals" "[{},null]") "[{},null]"
           (JArray [JObject []; JNull])).
  - reflexivity.
  - discriminate.
  - vm_compute. reflexivity.
  - apply Exists_cons_tl, Exists_cons_hd. reflexivity.
Defined.

Lemma lookupProp_app name props extra :
  lookupProp name (props ++ extra) =
  match lookupProp name extra with
  | Some v => Some v
  | None => lookupProp name props
  end.
Proof.
  induction props as [|[k v] props IH]; simpl.
  - by destruct (lookupProp name extra).
  - rewrite IH. destruct (lookupProp name extra); [done|].
    by destruct (lookupProp name props).
Qed.

(** X28.  The callback of the [map] of [loadFromStorage], on a stored
    object.  It raises a [TypeError], which [loadFromStorage] catches, when
    [new Date] cannot convert the stored [createdAt], or the stored
    [lastCompleted] if that is truthy (an object with a [toString] property
    of its own, alone or in an array).  Otherwise it returns an object with
    the same properties, but [createdAt], which is a [Date] made of the
    stored value (of [undefined] when there is none), and [lastCompleted],
    which is a [Date] made of the stored value when that is truthy and null
    otherwise. *)
Theorem reviveGoal_keeps_other_properties props :
  let created := default JUndefined (lookupProp "createdAt" props) in
  let last := default JUndefined (lookupProp "lastCompleted" props) in
  if hasPrimitive created && (negb (truthy last) || hasPrimitive last) then
    exists revived,
      TrackerStorage.reviveGoal (JObject props) = Normal (JObject revived) /\
      (forall name, name ≠ "createdAt" -> name ≠ "lastCompleted" ->
         lookupProp name revived = lookupProp name props) /\
      lookupProp "createdAt" revived = Some (JDate created) /\
      lookupProp "lastCompleted" revived =
        Some (if truthy last then JDate last else JNull)
  else
    TrackerStorage.reviveGoal (JObject props) = Throw TypeError.
Proof.
  intros created last.
  unfold TrackerStorage.reviveGoal, newDate. simpl.
  fold created. fold last.
  destruct (hasPrimitive created); simpl; [|done].
  destruct (truthy last) eqn:Ht; simpl.
  - destruct (hasPrimitive last); simpl; [|done].
    eexists. split; [reflexivity|]. split; [|split].
    + intros name Hc Hl. rewrite lookupProp_app. simpl.
      by rewrite !decide_False by done.
    + by rewrite lookupProp_app.
    + by rewrite lookupProp_app.
  - eexists. split; [reflexivity|]. split; [|split].
    + intros name Hc Hl. rewrite lookupProp_app. simpl.
      by rewrite !decide_False by done.
    + by rewrite lookupProp_app.
    + by rewrite lookupProp_app.
Qed.

(** A goals document with a [createdAt] that [new Date] cannot convert is
    given up for the defaults; the letters of a stored string are spread by
    code unit, two for a character outside of the basic plane. *)
Example reviveGoal_known :
  JSON_parse unconvertibleGoals =
    Normal (JArray [JObject [("createdAt",
                              JObject [("toString", JNull)])]]) /\
  TrackerStorage.initialGoals JSON_parse
    (storageOf "zen-goals" unconvertibleGoals)
    = TrackerStorage.Default /\
  TrackerStorage.reviveGoal (JString "a😀") =
    Normal (JObject [("0", JString "a");
                     ("1", JString (utf8 55357));
                     ("2", JString (utf8 56832));
                     ("createdAt", JDate JUndefined);
                     ("lastCompleted", JNull)]).
Proof. vm_compute. done. Qed.

Lemma SimpleStore_create_Throw v e :
  SimpleStore.create v = Throw e ->
  e = TypeError /\ (v = JNull \/ v = JUndefined).
Proof. destruct v; simpl; intros [= <-]; auto. Qed.

(** X29.  The creation of the first store raises nothing but
    a [TypeError], and raises it exactly when the document stored under
    [solaceflow-storage] is not empty and parses to [null] (or to
    [undefined], which no JSON parser returns). *)
Theorem SimpleStore_init_raises_only_on_null parse storage :
  (forall e, SimpleStore.init parse storage = Throw e -> e = TypeError) /\
  (SimpleStore.init parse storage = Throw TypeError <->
   exists saved,
     storage "solaceflow-storage" = Some saved /\ saved ≠ EmptyString /\
     (parse saved = Normal JNull \/ parse saved = Normal JUndefined)).
Proof.
  unfold SimpleStore.init. split; [|split].
  - intros e He. by apply SimpleStore_create_Throw in He as [-> _].
  - intros He. apply SimpleStore_create_Throw in He as [_ Hv].
    unfold SimpleStore.loadState in Hv.
    destruct (storage "solaceflow-storage") as [saved|];
      [|by destruct Hv].
    exists saved. split; [done|].
    destruct saved as [|a s]; simpl in Hv; [by destruct Hv|].
    split; [done|].
    destruct (parse (String a s)) as [v|e]; [|by destruct Hv].
    destruct Hv as [-> | ->]; auto.
  - intros (saved & Hdoc & Hne & Hv). unfold SimpleStore.loadState.
    rewrite Hdoc. destruct saved as [|a s]; [done|]. simpl.
    by destruct Hv as [-> | ->].
Qed.
